(** * ritmex-bot: the order-execution core, embedded and verified

    A shallow embedding of the coordination layer of the trading bot:
    the rate-limit controller ([src/core/lib/rate-limit.ts]), the trading
    statistics ([core/trading-stats]), the symmetric maker engine
    ([src/core/maker-engine.ts]) and the depth-imbalance engine
    ([src/core/depth-imbalance-engine.ts] and its later revision with the
    margin-retry loop).

    Conventions.
    - Timestamps ([Date.now()], millisecond counts) are integers, [Z].
    - Prices, quantities, fees and PnL are JavaScript numbers; they are
      embedded as exact rationals [Q].  Comparisons are the decidable ones
      of [Q]; equalities between amounts are stated with [==].  NaN and the
      infinities have no counterpart here.
    - A method that mutates [this] becomes a function from the old object to
      the new one; calls to collaborators (the log handler, the exchange)
      are recorded in an explicit trace. *)

From Stdlib Require Import ZArith QArith Qabs Qminmax Qround Qpower Bool List String Lia Lqa.
Import ListNotations.

Open Scope Z_scope.

(** ** Shared vocabulary *)

Inductive LogType : Type :=
  | info | warn | error | order | signal | stop | trade.

Inductive Side : Type := BUY | SELL.

(** [const EPS = 1e-5] *)
Definition EPS : Q := 1 # 100000.

(** [a < b] and [a >= b] on numbers, as booleans. *)
Definition Qltb (a b : Q) : bool := negb (Qle_bool b a).
Definition Qgeb (a b : Q) : bool := Qle_bool b a.

(** ** The rate-limit controller, [src/core/lib/rate-limit.ts] *)

Module RateLimit.

Inductive RateLimitState : Type := normal | degraded | paused.

Inductive RateLimitDecision : Type := Run | Skip | Paused.

(** The messages the controller hands to its log handler. *)
Inductive LogMsg : Type :=
  | MsgSuppress (source : option string)
  | MsgAllow
  | MsgPauseEnded
  | MsgDegrade (source : option string) (interval : Z)
  | MsgPause (source : option string) (pauseMs : Z)
  | MsgExtend (source : option string) (pauseMs : Z)
  | MsgRecovered.

Definition DEFAULT_PAUSE_MS : Z := 30000.
Definition DEFAULT_RECOVERY_MS : Z := 60000.

(** The [readonly] fields set by the constructor. *)
Record Options : Type := mkOptions {
  baseInterval : Z;
  pauseMs : Z;
  recoveryMs : Z
}.

Definition defaultOptions (base : Z) : Options :=
  mkOptions base DEFAULT_PAUSE_MS DEFAULT_RECOVERY_MS.

(** The mutable fields; [logged] collects the calls of the log handler,
    oldest first. *)
Record Controller : Type := mkController {
  state : RateLimitState;
  pausedUntil : option Z;
  lastCycleAt : Z;
  lastRateLimitAt : Z;
  entriesSuppressed : bool;
  logged : list (LogType * LogMsg)
}.

Definition init : Controller :=
  mkController normal None 0 0 false [].

Definition set_state (s : RateLimitState) (c : Controller) : Controller :=
  mkController s (pausedUntil c) (lastCycleAt c) (lastRateLimitAt c)
               (entriesSuppressed c) (logged c).

Definition set_pausedUntil (p : option Z) (c : Controller) : Controller :=
  mkController (state c) p (lastCycleAt c) (lastRateLimitAt c)
               (entriesSuppressed c) (logged c).

Definition set_lastCycleAt (t : Z) (c : Controller) : Controller :=
  mkController (state c) (pausedUntil c) t (lastRateLimitAt c)
               (entriesSuppressed c) (logged c).

Definition set_lastRateLimitAt (t : Z) (c : Controller) : Controller :=
  mkController (state c) (pausedUntil c) (lastCycleAt c) t
               (entriesSuppressed c) (logged c).

Definition set_entriesSuppressed (b : bool) (c : Controller) : Controller :=
  mkController (state c) (pausedUntil c) (lastCycleAt c) (lastRateLimitAt c)
               b (logged c).

Definition log (ty : LogType) (m : LogMsg) (c : Controller) : Controller :=
  mkController (state c) (pausedUntil c) (lastCycleAt c) (lastRateLimitAt c)
               (entriesSuppressed c) (logged c ++ [(ty, m)]).

Section Controller.

Variable opts : Options.

Definition shouldBlockEntries (c : Controller) : bool :=
  entriesSuppressed c
  || match state c with paused => true | _ => false end.

Definition suppressEntries (source : option string) (c : Controller)
  : Controller :=
  if entriesSuppressed c then c
  else log info (MsgSuppress source) (set_entriesSuppressed true c).

Definition allowEntries (c : Controller) : Controller :=
  if negb (entriesSuppressed c) then c
  else log info MsgAllow (set_entriesSuppressed false c).

Definition currentInterval (c : Controller) : Z :=
  match state c with
  | degraded => baseInterval opts * 2
  | paused => baseInterval opts * 2
  | normal => baseInterval opts
  end.

(** The tail of [beforeCycle], after the [paused] branch. *)
Definition cycleGate (now : Z) (c : Controller)
  : Controller * RateLimitDecision :=
  if now - lastCycleAt c <? currentInterval c then (c, Skip)
  else (set_lastCycleAt now c, Run).

Definition beforeCycle (now : Z) (c : Controller)
  : Controller * RateLimitDecision :=
  match state c with
  | paused =>
      match pausedUntil c with
      | Some t =>
          if t <=? now
          then cycleGate now
                 (log info MsgPauseEnded
                    (set_pausedUntil None (set_state degraded c)))
          else (set_lastCycleAt now c, Paused)
      | None => (set_lastCycleAt now c, Paused)
      end
  | _ => cycleGate now c
  end.

Definition registerRateLimit (now : Z) (source : option string)
  (c : Controller) : Controller :=
  let c := set_lastRateLimitAt now c in
  match state c with
  | normal =>
      let c := set_state degraded c in
      let c := log warn (MsgDegrade source (currentInterval c)) c in
      let c := set_lastCycleAt now c in
      suppressEntries source c
  | degraded =>
      let c := set_state paused c in
      let c := set_pausedUntil (Some (now + pauseMs opts)) c in
      let c := log warn (MsgPause source (pauseMs opts)) c in
      suppressEntries source c
  | paused =>
      let c := set_pausedUntil (Some (now + pauseMs opts)) c in
      let c := log warn (MsgExtend source (pauseMs opts)) c in
      suppressEntries source c
  end.

(** The first [if] of [onCycleComplete]. *)
Definition recoverIfDue (now : Z) (c : Controller) : Controller :=
  match state c with
  | degraded =>
      if 0 <? lastRateLimitAt c then
        if recoveryMs opts <=? now - lastRateLimitAt c then
          let c := set_state normal c in
          let c := log info MsgRecovered c in
          let c := allowEntries c in
          set_lastRateLimitAt 0 c
        else c
      else c
  | _ => c
  end.

(** The second [if] of [onCycleComplete]. *)
Definition clearStaleSuppression (c : Controller) : Controller :=
  match state c with
  | normal =>
      if entriesSuppressed c && (lastRateLimitAt c =? 0)
      then allowEntries c else c
  | _ => c
  end.

Definition onCycleComplete (now : Z) (hadRateLimit : bool) (c : Controller)
  : Controller :=
  if hadRateLimit then c
  else clearStaleSuppression (recoverIfDue now c).

(** The public operations that change the controller, with the clock
    reading each one takes. *)
Inductive Op : Type :=
  | OpBeforeCycle (now : Z)
  | OpRegisterRateLimit (now : Z) (source : option string)
  | OpOnCycleComplete (now : Z) (hadRateLimit : bool).

Definition step (c : Controller) (o : Op) : Controller :=
  match o with
  | OpBeforeCycle now => fst (beforeCycle now c)
  | OpRegisterRateLimit now source => registerRateLimit now source c
  | OpOnCycleComplete now had => onCycleComplete now had c
  end.

Definition runOps (c : Controller) (ops : list Op) : Controller :=
  fold_left step ops c.

End Controller.

End RateLimit.

Open Scope Q_scope.

(** ** Trading statistics, [core/trading-stats] (team-bonus revision,
       second file of [src/unnamed/part_000]) *)

Module TradingStats.

Record TradingStats : Type := mkTradingStats {
  makerOrderCount : Z;
  takerOrderCount : Z;
  totalFees : Q;
  totalPnl : Q;
  totalVolume : Q;
  pointsRate : Q;
  startTime : Z
}.

(** [interface HourlyStats extends TradingStats]: the inherited fields are
    kept together in [base]. *)
Record HourlyStats : Type := mkHourlyStats {
  base : TradingStats;
  hourStartTime : Z
}.

Record TradingStatsSummary : Type := mkSummary {
  total : TradingStats;
  hourly : HourlyStats
}.

Definition createEmptyStats (startTime : Z) : TradingStats :=
  mkTradingStats 0 0 0 0 0 0 startTime.

Definition createEmptyHourlyStats (startTime : Z) : HourlyStats :=
  mkHourlyStats (createEmptyStats startTime) startTime.

(** [getTeamBonusRate] parses the environment variable [TEAM_BONUS_RATE];
    this is the value it falls back to. *)
Definition DEFAULT_TEAM_BONUS_RATE : Q := 11 # 10.

Definition calculatePointsRate (teamBonus fees pnl volume : Q) : Q :=
  if Qle_bool volume 0 then 0
  else
    let numerator := fees - pnl in
    let denominator := (volume / 2) * teamBonus in
    (numerator / denominator) * 10000.

Record TradeData : Type := mkTradeData {
  isMaker : bool;
  commission : Q;
  realizedPnl : Q;
  volume : Q;
  price : Q;
  qty : Q;
  tradeId : option Z;
  timestamp : Z
}.

Definition updateStatsWithRealTrade (teamBonus : Q) (stats : TradingStats)
  (tradeData : TradeData) : TradingStats :=
  let maker :=
    if isMaker tradeData then (makerOrderCount stats + 1)%Z
    else makerOrderCount stats in
  let taker :=
    if isMaker tradeData then takerOrderCount stats
    else (takerOrderCount stats + 1)%Z in
  let fees := totalFees stats + commission tradeData in
  let pnl := totalPnl stats + realizedPnl tradeData in
  let vol := totalVolume stats + volume tradeData in
  mkTradingStats maker taker fees pnl vol
    (calculatePointsRate teamBonus fees pnl vol) (startTime stats).

(** The same function applied to the hourly record, which it may be given
    because [HourlyStats] extends [TradingStats]. *)
Definition updateHourlyWithRealTrade (teamBonus : Q) (h : HourlyStats)
  (tradeData : TradeData) : HourlyStats :=
  mkHourlyStats (updateStatsWithRealTrade teamBonus (base h) tradeData)
                (hourStartTime h).

Definition oneHour : Z := 60 * 60 * 1000.

Definition shouldResetHourlyStats (now : Z) (hourlyStats : HourlyStats)
  : bool :=
  (oneHour <=? now - hourStartTime hourlyStats)%Z.

(** [resetHourlyStats]: the counters are zeroed in place and the window
    restarts at [now]; [startTime] is not touched.  The second component is
    [statsToLog], the copy taken before the reset and handed to
    [tradingStatsLogger.logHourlyStats].  The function is [async]: the
    reset runs at once, before its first [await]; the export follows once
    the logger module is loaded. *)
Definition resetHourlyStats (now : Z) (hourlyStats : HourlyStats)
  : HourlyStats * HourlyStats :=
  let statsToLog := hourlyStats in
  (mkHourlyStats
     (mkTradingStats 0 0 0 0 0 0 (startTime (base hourlyStats))) now,
   statsToLog).

End TradingStats.

(** ** Trading statistics, the revision without team bonus

    The other copy of the statistics file (third file of
    [src/unnamed/part_000]) differs in [calculatePointsRate] and in
    [resetHourlyStats], which exports nothing. *)

Module TradingStatsPlain.

Import TradingStats.

Definition calculatePointsRate (fees pnl volume : Q) : Q :=
  if Qle_bool volume 0 then 0
  else
    let loss := fees + (if Qltb pnl 0 then Qabs pnl else 0) in
    (loss / volume) * 10000.

Definition resetHourlyStats (now : Z) (hourlyStats : HourlyStats)
  : HourlyStats :=
  mkHourlyStats
    (mkTradingStats 0 0 0 0 0 0 (startTime (base hourlyStats))) now.

End TradingStatsPlain.

(** ** What the engines share: exchange data and the calls they make *)

Record TradeExecutionData : Type := mkTradeExecutionData {
  te_symbol : string;
  te_orderId : Z;
  te_tradeId : Z;
  te_price : Q;
  te_qty : Q;
  te_quoteQty : Q;
  te_commission : Q;
  te_commissionAsset : string;
  te_isMaker : bool;
  te_realizedPnl : Q;
  te_side : string;
  te_timestamp : Z
}.

(** [PositionSnapshot] of [utils/strategy]. *)
Record PositionSnapshot : Type := mkPosition {
  positionAmt : Q;
  entryPrice : Q;
  markPrice : option Q
}.

(** An error raised by the exchange is known to the engines only through
    the three classifiers of [utils/errors]; the two errors the entry loop
    constructs itself carry messages none of the classifiers matches. *)
Inductive EngineError : Type :=
  | ExchangeError (unknownOrder rateLimit insufficientMargin : bool)
  | MinAmountError
  | AttemptsExhaustedError.

Definition isUnknownOrderError (e : EngineError) : bool :=
  match e with ExchangeError u _ _ => u | _ => false end.

Definition isRateLimitError (e : EngineError) : bool :=
  match e with ExchangeError _ r _ => r | _ => false end.

Definition isInsufficientMarginError (e : EngineError) : bool :=
  match e with ExchangeError _ _ m => m | _ => false end.

(** The reply of the exchange to one request: an order id, or an error. *)
Inductive Reply : Type :=
  | Accepted (orderId : Z)
  | Rejected (err : EngineError).

(** The guard handed to [marketClose]. *)
Record CloseGuard : Type := mkCloseGuard {
  g_markPrice : option Q;
  g_expectedPrice : option Q
}.

(** Calls that leave the engine, in the order they are made. *)
Inductive Action : Type :=
  | CreateMarketOrder (side : Side) (quantity : Q)
  | MarketClose (side : Side) (amount : Q) (guard : CloseGuard)
  | TradeLogPush (ty : LogType)
  | LogHourlyStats (statsToLog : TradingStats.HourlyStats)
  | NotifyAmountAdjustment (previousAmount newAmount : Q) (attempt : nat)
      (previousLossLimit newLossLimit : Q)
  | EmitUpdate (stats : TradingStats.TradingStatsSummary).

(** The market orders requested in a trace, in order. *)
Fixpoint marketOrders (acts : list Action) : list (Side * Q) :=
  match acts with
  | [] => []
  | CreateMarketOrder s q :: rest => (s, q) :: marketOrders rest
  | _ :: rest => marketOrders rest
  end.

(** The [marketClose] calls in a trace, in order. *)
Fixpoint marketCloses (acts : list Action) : list (Side * Q * CloseGuard) :=
  match acts with
  | [] => []
  | MarketClose s a g :: rest => (s, a, g) :: marketCloses rest
  | _ :: rest => marketCloses rest
  end.

(** Modelled from the spec: [roundDownToTick] of [utils/math], which is
    missing from the sources at hand; prices are "tick-rounded", "rounded
    down": the largest multiple of the tick that does not exceed the
    value. *)
Definition roundDownToTickFloor (value tick : Q) : Q :=
  inject_Z (Qfloor (value / tick)) * tick.

(** [Number(x) || null] *)
Definition numberOrNull (x : option Q) : option Q :=
  match x with
  | Some v => if Qeq_bool v 0 then None else Some v
  | None => None
  end.

(** The statement repeated in [getSnapshot] and [buildSnapshot]:
    [if (shouldResetHourlyStats(hourly)) resetHourlyStats(hourly, ...)]. *)
Definition refreshHourly (now : Z) (s : TradingStats.TradingStatsSummary)
  : TradingStats.TradingStatsSummary * list Action :=
  if TradingStats.shouldResetHourlyStats now (TradingStats.hourly s) then
    let '(h, statsToLog) :=
      TradingStats.resetHourlyStats now (TradingStats.hourly s) in
    (TradingStats.mkSummary (TradingStats.total s) h,
     [LogHourlyStats statsToLog])
  else (s, []).

(** The conversion at the head of [handleRealTrade]. *)
Definition toTradeData (tradeData : TradeExecutionData)
  : TradingStats.TradeData :=
  TradingStats.mkTradeData
    (te_isMaker tradeData)
    (Qabs (te_commission tradeData))
    (te_realizedPnl tradeData)
    (te_quoteQty tradeData)
    (te_price tradeData)
    (te_qty tradeData)
    (Some (te_tradeId tradeData))
    (te_timestamp tradeData).

(** The two [updateStatsWithRealTrade] calls of [handleRealTrade]. *)
Definition recordTrade (teamBonus : Q) (tradeData : TradeExecutionData)
  (s : TradingStats.TradingStatsSummary) : TradingStats.TradingStatsSummary :=
  let t := toTradeData tradeData in
  TradingStats.mkSummary
    (TradingStats.updateStatsWithRealTrade teamBonus (TradingStats.total s) t)
    (TradingStats.updateHourlyWithRealTrade teamBonus
       (TradingStats.hourly s) t).

(** ** The symmetric maker engine, [src/core/maker-engine.ts] *)

Module MakerEngine.

Record MakerConfig : Type := mkMakerConfig {
  symbol : string;
  tradeAmount : Q;
  bidOffset : Q;
  askOffset : Q;
  priceTick : Q;
  lossLimit : Q;
  priceChaseThreshold : Q;
  refreshIntervalMs : Z
}.

Record DesiredOrder : Type := mkDesiredOrder {
  side : Side;
  price : Q;
  amount : Q;
  reduceOnly : bool
}.

(** The fields of the engine that the modelled methods read or write. *)
Record Engine : Type := mkEngine {
  config : MakerConfig;
  rateLimit : RateLimit.Controller;
  desiredOrders : list DesiredOrder;
  entryPricePendingLogged : bool;
  tradingStats : TradingStats.TradingStatsSummary
}.

(** The part of [MakerEngineSnapshot] that is not a projection of data
    owned by the exchange helpers. *)
Record Snapshot : Type := mkSnapshot {
  snap_symbol : string;
  snap_desiredOrders : list DesiredOrder;
  snap_tradingStats : TradingStats.TradingStatsSummary
}.

Definition create (config : MakerConfig) (now : Z) : Engine :=
  mkEngine config RateLimit.init [] false
    (TradingStats.mkSummary (TradingStats.createEmptyStats now)
                            (TradingStats.createEmptyHourlyStats now)).

Definition set_tradingStats (s : TradingStats.TradingStatsSummary)
  (e : Engine) : Engine :=
  mkEngine (config e) (rateLimit e) (desiredOrders e)
           (entryPricePendingLogged e) s.

Definition set_desiredOrders (d : list DesiredOrder) (e : Engine) : Engine :=
  mkEngine (config e) (rateLimit e) d (entryPricePendingLogged e)
           (tradingStats e).

Definition set_entryPricePendingLogged (b : bool) (e : Engine) : Engine :=
  mkEngine (config e) (rateLimit e) (desiredOrders e) b (tradingStats e).

Section Engine.

(** [TEAM_BONUS_RATE], read from the environment. *)
Variable teamBonus : Q.

(** [roundDownToTick] of [utils/math], which is not part of the sources
    at hand. *)
Variable roundDownToTick : Q -> Q -> Q.

Definition getSnapshot (now : Z) (e : Engine)
  : Engine * Snapshot * list Action :=
  let '(stats, acts) := refreshHourly now (tradingStats e) in
  let e := set_tradingStats stats e in
  (e, mkSnapshot (symbol (config e)) (desiredOrders e) (tradingStats e), acts).

(** [emitUpdate], through [buildSnapshot]. *)
Definition emitUpdate (now : Z) (e : Engine) : Engine * list Action :=
  let '(stats, acts) := refreshHourly now (tradingStats e) in
  (set_tradingStats stats e, acts ++ [EmitUpdate stats]).

Definition handleRealTrade (now : Z) (tradeData : TradeExecutionData)
  (e : Engine) : Engine * list Action :=
  let e := set_tradingStats (recordTrade teamBonus tradeData (tradingStats e)) e in
  let '(e, acts) := emitUpdate now e in
  (e, TradeLogPush trade :: acts).

(** The listener that [bootstrap] registers with [exchange.watchTrades]. *)
Definition watchTrades (now : Z) (tradeData : TradeExecutionData)
  (e : Engine) : Engine * list Action :=
  if String.eqb (te_symbol tradeData) (symbol (config e))
  then handleRealTrade now tradeData e
  else (e, []).

(** [tick], from the extraction of the top of book to the assignment of
    [this.desiredOrders]; [position] is what [getPosition] returned and
    [topBid], [topAsk] what [getTopPrices] returned. *)
Definition tickDesired (now : Z) (position : PositionSnapshot)
  (topBid topAsk : option Q) (e : Engine) : Engine * list Action :=
  match topBid, topAsk with
  | Some topBid, Some topAsk =>
      let bidPrice :=
        roundDownToTick (topBid - bidOffset (config e)) (priceTick (config e)) in
      let askPrice :=
        roundDownToTick (topAsk + askOffset (config e)) (priceTick (config e)) in
      let absPosition := Qabs (positionAmt position) in
      let canEnter :=
        negb (RateLimit.shouldBlockEntries (rateLimit e)) in
      let '(desired, e) :=
        if Qltb absPosition EPS then
          (if canEnter then
             [ mkDesiredOrder BUY bidPrice (tradeAmount (config e)) false;
               mkDesiredOrder SELL askPrice (tradeAmount (config e)) false ]
           else [],
           set_entryPricePendingLogged false e)
        else
          let closeSide := if Qltb 0 (positionAmt position) then SELL else BUY in
          let closePrice :=
            match closeSide with SELL => askPrice | BUY => bidPrice end in
          ([ mkDesiredOrder closeSide closePrice absPosition true ], e) in
      (set_desiredOrders desired e, [])
  | _, _ => emitUpdate now e
  end.

End Engine.

End MakerEngine.

(** ** The depth-imbalance engine, [src/core/depth-imbalance-engine.ts] *)

Inductive PositionSide : Type := LONG | SHORT.

(** [AsterDepth]: price levels as (price, quantity), best first. *)
Record Depth : Type := mkDepth {
  bids : list (Q * Q);
  asks : list (Q * Q)
}.

(** [Number(levels?.[0]?.[1] ?? 0)] *)
Definition firstQty (levels : list (Q * Q)) : Q :=
  match levels with
  | (_, q) :: _ => q
  | [] => 0
  end.

Record DepthImbalanceConfig : Type := mkDepthImbalanceConfig {
  symbol : string;
  tradeAmount : Q;
  lossLimit : Q;
  minDepthQty : Q;
  imbalanceRatio : Q;
  closeBalanceRatio : Q;
  refreshIntervalMs : Z
}.

Module DepthImbalance.

Section Engine.

(** The account snapshot is only ever passed to [getPosition]. *)
Variable Account : Type.

(** Helpers of [utils/strategy], [utils/price] and [utils/pnl], which are
    not part of the sources at hand. *)
Variable getPosition : option Account -> string -> PositionSnapshot.
Variable getTopPrices : option Depth -> option Q * option Q.
Variable computePositionPnl : PositionSnapshot -> option Q -> option Q -> Q.

(** [TEAM_BONUS_RATE], read from the environment. *)
Variable teamBonus : Q.

Record Engine : Type := mkEngine {
  config : DepthImbalanceConfig;
  accountSnapshot : option Account;
  depthSnapshot : option Depth;
  processing : bool;
  rateLimit : RateLimit.Controller;
  entryBidQty : Q;
  entryAskQty : Q;
  positionSide : option PositionSide;
  tradingStats : TradingStats.TradingStatsSummary
}.

Definition create (config : DepthImbalanceConfig) (now : Z) : Engine :=
  mkEngine config None None false RateLimit.init 0 0 None
    (TradingStats.mkSummary (TradingStats.createEmptyStats now)
                            (TradingStats.createEmptyHourlyStats now)).

Definition rateLimitOptions (e : Engine) : RateLimit.Options :=
  RateLimit.defaultOptions (refreshIntervalMs (config e)).

Definition set_rateLimit (c : RateLimit.Controller) (e : Engine) : Engine :=
  mkEngine (config e) (accountSnapshot e) (depthSnapshot e) (processing e)
           c (entryBidQty e) (entryAskQty e) (positionSide e)
           (tradingStats e).

Definition set_processing (b : bool) (e : Engine) : Engine :=
  mkEngine (config e) (accountSnapshot e) (depthSnapshot e) b
           (rateLimit e) (entryBidQty e) (entryAskQty e) (positionSide e)
           (tradingStats e).

Definition set_entry (bidQty askQty : Q) (ps : option PositionSide)
  (e : Engine) : Engine :=
  mkEngine (config e) (accountSnapshot e) (depthSnapshot e) (processing e)
           (rateLimit e) bidQty askQty ps (tradingStats e).

Definition set_positionSide (ps : option PositionSide) (e : Engine)
  : Engine :=
  set_entry (entryBidQty e) (entryAskQty e) ps e.

Definition set_tradingStats (s : TradingStats.TradingStatsSummary)
  (e : Engine) : Engine :=
  mkEngine (config e) (accountSnapshot e) (depthSnapshot e) (processing e)
           (rateLimit e) (entryBidQty e) (entryAskQty e) (positionSide e) s.

Definition isReady (e : Engine) : bool :=
  match accountSnapshot e, depthSnapshot e with
  | Some _, Some _ => true
  | _, _ => false
  end.

(** [emitUpdate], through [buildSnapshot]. *)
Definition emitUpdate (now : Z) (e : Engine) : Engine * list Action :=
  let '(stats, acts) := refreshHourly now (tradingStats e) in
  (set_tradingStats stats e, acts ++ [EmitUpdate stats]).

Definition handleRealTrade (now : Z) (tradeData : TradeExecutionData)
  (e : Engine) : Engine * list Action :=
  let e := set_tradingStats (recordTrade teamBonus tradeData (tradingStats e)) e in
  let '(e, acts) := emitUpdate now e in
  (e, TradeLogPush trade :: acts).

(** The listener that [bootstrap] registers with [exchange.watchTrades]. *)
Definition watchTrades (now : Z) (tradeData : TradeExecutionData)
  (e : Engine) : Engine * list Action :=
  if String.eqb (te_symbol tradeData) (symbol (config e))
  then handleRealTrade now tradeData e
  else (e, []).

(** [marketEntry]: one market order for the configured amount; the
    result is the error it throws, if any. *)
Definition marketEntry (side : Side) (reply : Reply) (e : Engine)
  : Engine * list Action * option EngineError :=
  let call := CreateMarketOrder side (tradeAmount (config e)) in
  match reply with
  | Accepted _ => (e, [call; TradeLogPush order], None)
  | Rejected err => (e, [call], Some err)
  end.

(** [marketExit]; [closeReply] is the error [marketClose] throws, if any. *)
Definition marketExit (position : PositionSnapshot) (topBid topAsk : option Q)
  (closeReply : option EngineError) (e : Engine) : Engine * list Action :=
  let absPosition := Qabs (positionAmt position) in
  if Qltb absPosition EPS then (e, [])
  else
    let side := if Qltb 0 (positionAmt position) then SELL else BUY in
    let call :=
      MarketClose side absPosition
        (mkCloseGuard (markPrice position)
           (numberOrNull (match side with SELL => topBid | BUY => topAsk end))) in
    match closeReply with
    | None => (set_entry 0 0 None e, [call])
    | Some err =>
        (e, [call;
             TradeLogPush (if isUnknownOrderError err then order else error)])
    end.

Definition checkEntryCondition (bidQty askQty : Q) (topBid topAsk : Q)
  (reply : Reply) (e : Engine) : Engine * list Action :=
  if Qltb bidQty (minDepthQty (config e))
     && Qltb askQty (minDepthQty (config e))
  then (e, [])
  else
    let ratio := Qmax bidQty askQty / Qmin bidQty askQty in
    if Qltb ratio (imbalanceRatio (config e)) then (e, [])
    else
      let side := if Qltb askQty bidQty then BUY else SELL in
      let ps := match side with BUY => LONG | SELL => SHORT end in
      let e := set_entry bidQty askQty (Some ps) e in
      match marketEntry side reply e with
      | (e, acts, None) => (e, TradeLogPush signal :: acts)
      | (e, acts, Some err) =>
          (set_entry 0 0 None e,
           TradeLogPush signal :: acts
             ++ [TradeLogPush
                   (if isUnknownOrderError err then order else error)])
      end.

Definition checkExitCondition (position : PositionSnapshot)
  (bidQty askQty : Q) (topBid topAsk : Q) (closeReply : option EngineError)
  (e : Engine) : Engine * list Action :=
  let e :=
    match positionSide e with
    | None =>
        set_positionSide
          (Some (if Qltb 0 (positionAmt position) then LONG else SHORT)) e
    | Some _ => e
    end in
  let shouldClose :=
    match positionSide e with
    | Some LONG => Qgeb askQty (bidQty * closeBalanceRatio (config e))
    | Some SHORT => Qgeb bidQty (askQty * closeBalanceRatio (config e))
    | None => false
    end in
  if shouldClose then
    let '(e, acts) :=
      marketExit position (Some topBid) (Some topAsk) closeReply e in
    (e, TradeLogPush signal :: acts)
  else (e, []).

Definition checkStopLoss (position : PositionSnapshot)
  (topBid topAsk : option Q) (closeReply : option EngineError) (e : Engine)
  : Engine * list Action :=
  let absPosition := Qabs (positionAmt position) in
  if Qltb absPosition EPS then (e, [])
  else
    let pnl := computePositionPnl position topBid topAsk in
    if Qle_bool pnl (- lossLimit (config e)) then
      let '(e, acts) := marketExit position topBid topAsk closeReply e in
      (e, TradeLogPush stop :: acts)
    else (e, []).

(** The body of the [try] block of [tick] once the rate limiter says
    [run].  [entryReply] answers the entry order; [exitReply] and
    [stopReply] are the outcomes of the [marketClose] calls made for the
    exit condition and for the stop-loss. *)
Definition cycle (now : Z) (entryReply : Reply)
  (exitReply stopReply : option EngineError) (e : Engine)
  : Engine * list Action :=
  if negb (isReady e) then emitUpdate now e
  else
    match getTopPrices (depthSnapshot e) with
    | (Some topBid, Some topAsk) =>
        let bidQty :=
          firstQty (match depthSnapshot e with Some d => bids d | None => [] end) in
        let askQty :=
          firstQty (match depthSnapshot e with Some d => asks d | None => [] end) in
        if Qle_bool bidQty 0 || Qle_bool askQty 0 then emitUpdate now e
        else
          let position := getPosition (accountSnapshot e) (symbol (config e)) in
          let absPosition := Qabs (positionAmt position) in
          let '(e, acts1) :=
            if Qltb absPosition EPS
            then checkEntryCondition bidQty askQty topBid topAsk entryReply e
            else checkExitCondition position bidQty askQty topBid topAsk
                   exitReply e in
          let '(e, acts2) :=
            checkStopLoss position (Some topBid) (Some topAsk) stopReply e in
          let '(e, acts3) := emitUpdate now e in
          (e, acts1 ++ acts2 ++ acts3)
    | _ => emitUpdate now e
    end.

(** [tick].  Nothing in the modelled body throws (the entry and exit
    helpers catch every error of the exchange), so the [catch] block is
    not entered and [finally] runs with [hadRateLimit = false]. *)
Definition tick (now : Z) (entryReply : Reply)
  (exitReply stopReply : option EngineError) (e : Engine)
  : Engine * list Action :=
  if processing e then (e, [])
  else
    let e := set_processing true e in
    let '(rl, decision) :=
      RateLimit.beforeCycle (rateLimitOptions e) now (rateLimit e) in
    let e := set_rateLimit rl e in
    let '(e, acts) :=
      match decision with
      | RateLimit.Paused => emitUpdate now e
      | RateLimit.Skip => (e, [])
      | RateLimit.Run => cycle now entryReply exitReply stopReply e
      end in
    let e :=
      set_rateLimit
        (RateLimit.onCycleComplete (rateLimitOptions e) now false (rateLimit e))
        e in
    (set_processing false e, acts).

End Engine.

End DepthImbalance.

(** ** The depth-imbalance engine, revision with the margin-retry loop

    The later copy of the engine ([src/unnamed/part_001]) keeps a current
    trade amount and a current loss limit next to the configured ones; the
    methods that write one of the fields below are repeated. *)

Module DepthImbalanceRetry.

Record Engine : Type := mkEngine {
  config : DepthImbalanceConfig;
  entryBidQty : Q;
  entryAskQty : Q;
  positionSide : option PositionSide;
  currentTradeAmount : Q;
  currentLossLimit : Q;
  tradingStats : TradingStats.TradingStatsSummary
}.

(** [this.minTradeAmount = this.config.tradeAmount / 128] and
    [this.maxRetryAttempts = 10]: both [readonly], set by the constructor. *)
Definition minTradeAmount (e : Engine) : Q := tradeAmount (config e) / 128.
Definition maxRetryAttempts : nat := 10.

Definition create (config : DepthImbalanceConfig) (now : Z) : Engine :=
  mkEngine config 0 0 None (tradeAmount config) (lossLimit config)
    (TradingStats.mkSummary (TradingStats.createEmptyStats now)
                            (TradingStats.createEmptyHourlyStats now)).

Definition set_entry (bidQty askQty : Q) (ps : option PositionSide)
  (e : Engine) : Engine :=
  mkEngine (config e) bidQty askQty ps (currentTradeAmount e)
           (currentLossLimit e) (tradingStats e).

Definition set_currentTradeAmount (a : Q) (e : Engine) : Engine :=
  mkEngine (config e) (entryBidQty e) (entryAskQty e) (positionSide e) a
           (currentLossLimit e) (tradingStats e).

Definition set_currentLossLimit (l : Q) (e : Engine) : Engine :=
  mkEngine (config e) (entryBidQty e) (entryAskQty e) (positionSide e)
           (currentTradeAmount e) l (tradingStats e).

Definition set_tradingStats (s : TradingStats.TradingStatsSummary)
  (e : Engine) : Engine :=
  mkEngine (config e) (entryBidQty e) (entryAskQty e) (positionSide e)
           (currentTradeAmount e) (currentLossLimit e) s.

Section Engine.

Variable computePositionPnl : PositionSnapshot -> option Q -> option Q -> Q.
Variable teamBonus : Q.

Definition emitUpdate (now : Z) (e : Engine) : Engine * list Action :=
  let '(stats, acts) := refreshHourly now (tradingStats e) in
  (set_tradingStats stats e, acts ++ [EmitUpdate stats]).

Definition handleRealTrade (now : Z) (tradeData : TradeExecutionData)
  (e : Engine) : Engine * list Action :=
  let e := set_tradingStats (recordTrade teamBonus tradeData (tradingStats e)) e in
  let '(e, acts) := emitUpdate now e in
  (e, TradeLogPush trade :: acts).

(** The listener that [bootstrap] registers with [exchange.watchTrades]. *)
Definition watchTrades (now : Z) (tradeData : TradeExecutionData)
  (e : Engine) : Engine * list Action :=
  if String.eqb (te_symbol tradeData) (symbol (config e))
  then handleRealTrade now tradeData e
  else (e, []).

Definition marketExit (position : PositionSnapshot) (topBid topAsk : option Q)
  (closeReply : option EngineError) (e : Engine) : Engine * list Action :=
  let absPosition := Qabs (positionAmt position) in
  if Qltb absPosition EPS then (e, [])
  else
    let side := if Qltb 0 (positionAmt position) then SELL else BUY in
    let call :=
      MarketClose side absPosition
        (mkCloseGuard (markPrice position)
           (numberOrNull (match side with SELL => topBid | BUY => topAsk end))) in
    match closeReply with
    | None => (set_entry 0 0 None e, [call])
    | Some err =>
        (e, [call;
             TradeLogPush (if isUnknownOrderError err then order else error)])
    end.

Definition checkStopLoss (position : PositionSnapshot)
  (topBid topAsk : option Q) (closeReply : option EngineError) (e : Engine)
  : Engine * list Action :=
  let absPosition := Qabs (positionAmt position) in
  if Qltb absPosition EPS then (e, [])
  else
    let pnl := computePositionPnl position topBid topAsk in
    if Qle_bool pnl (- currentLossLimit e) then
      let '(e, acts) := marketExit position topBid topAsk closeReply e in
      (e, TradeLogPush stop :: acts)
    else (e, []).

(** One pass through the [try] block of [marketEntry]: the calls made and
    the error thrown, if any.  [reply] is the exchange's answer to this
    attempt's [createOrder]. *)
Definition attemptOrder (side : Side) (reply : Reply) (attemptAmount : Q)
  (e : Engine) : list Action * option EngineError :=
  if Qltb attemptAmount (minTradeAmount e)
  then ([TradeLogPush error], Some MinAmountError)
  else
    match reply with
    | Accepted _ =>
        ([CreateMarketOrder side attemptAmount; TradeLogPush order], None)
    | Rejected err => ([CreateMarketOrder side attemptAmount], Some err)
    end.

(** The [while] loop of [marketEntry].  [replies n] is the exchange's
    answer to the order attempted after [n] failed attempts.  The loop
    runs while [attempts < maxRetryAttempts] and every pass that comes
    back increments [attempts], so [fuel = maxRetryAttempts] passes are
    enough; [None] stands for running out of [fuel]. *)
Fixpoint marketEntryLoop (fuel : nat) (side : Side) (replies : nat -> Reply)
  (attempts : nat) (attemptAmount : Q) (e : Engine)
  : option (Engine * list Action * option EngineError) :=
  if (attempts <? maxRetryAttempts)%nat then
    match fuel with
    | O => None
    | S fuel =>
        match attemptOrder side (replies attempts) attemptAmount e with
        | (acts, None) =>
            Some (set_currentTradeAmount attemptAmount e, acts, None)
        | (acts, Some err) =>
            let attempts := S attempts in
            if isInsufficientMarginError err then
              let previousAmount := attemptAmount in
              let previousLossLimit := currentLossLimit e in
              let attemptAmount := attemptAmount / 2 in
              let e := set_currentLossLimit (currentLossLimit e / 2) e in
              let acts :=
                acts ++ [TradeLogPush warn;
                         NotifyAmountAdjustment previousAmount attemptAmount
                           attempts previousLossLimit (currentLossLimit e)] in
              if (attempts <? maxRetryAttempts)%nat
                 && Qgeb attemptAmount (minTradeAmount e)
              then
                match marketEntryLoop fuel side replies attempts
                        attemptAmount e with
                | Some (e, acts', r) => Some (e, acts ++ acts', r)
                | None => None
                end
              else Some (e, acts, Some err)
            else Some (e, acts, Some err)
        end
    end
  else Some (e, [], Some AttemptsExhaustedError).

Definition marketEntry (side : Side) (replies : nat -> Reply) (e : Engine)
  : option (Engine * list Action * option EngineError) :=
  marketEntryLoop maxRetryAttempts side replies O (currentTradeAmount e) e.

(** [checkEntryCondition], as in the first revision but entering through
    the retry loop. *)
Definition checkEntryCondition (bidQty askQty : Q) (topBid topAsk : Q)
  (replies : nat -> Reply) (e : Engine) : option (Engine * list Action) :=
  if Qltb bidQty (minDepthQty (config e))
     && Qltb askQty (minDepthQty (config e))
  then Some (e, [])
  else
    let ratio := Qmax bidQty askQty / Qmin bidQty askQty in
    if Qltb ratio (imbalanceRatio (config e)) then Some (e, [])
    else
      let side := if Qltb askQty bidQty then BUY else SELL in
      let ps := match side with BUY => LONG | SELL => SHORT end in
      let e := set_entry bidQty askQty (Some ps) e in
      match marketEntry side replies e with
      | Some (e, acts, None) => Some (e, TradeLogPush signal :: acts)
      | Some (e, acts, Some err) =>
          Some (set_entry 0 0 None e,
                TradeLogPush signal :: acts
                  ++ [TradeLogPush
                        (if isUnknownOrderError err then order else error)])
      | None => None
      end.

(** [checkExitCondition], as in the first revision. *)
Definition checkExitCondition (position : PositionSnapshot)
  (bidQty askQty : Q) (topBid topAsk : Q) (closeReply : option EngineError)
  (e : Engine) : Engine * list Action :=
  let e :=
    match positionSide e with
    | None =>
        set_entry (entryBidQty e) (entryAskQty e)
          (Some (if Qltb 0 (positionAmt position) then LONG else SHORT)) e
    | Some _ => e
    end in
  let shouldClose :=
    match positionSide e with
    | Some LONG => Qgeb askQty (bidQty * closeBalanceRatio (config e))
    | Some SHORT => Qgeb bidQty (askQty * closeBalanceRatio (config e))
    | None => false
    end in
  if shouldClose then
    let '(e, acts) :=
      marketExit position (Some topBid) (Some topAsk) closeReply e in
    (e, TradeLogPush signal :: acts)
  else (e, []).

(** The engines a run can produce: the constructor's, and what the
    methods that write one of the fields of [Engine] make of one. *)
Inductive Reachable : Engine -> Prop :=
  | Reach_create cfg now : Reachable (create cfg now)
  | Reach_marketEntry e side replies e' acts r :
      Reachable e ->
      marketEntry side replies e = Some (e', acts, r) ->
      Reachable e'
  | Reach_checkEntryCondition e bidQty askQty topBid topAsk replies e' acts :
      Reachable e ->
      checkEntryCondition bidQty askQty topBid topAsk replies e
      = Some (e', acts) ->
      Reachable e'
  | Reach_checkStopLoss e position topBid topAsk closeReply :
      Reachable e ->
      Reachable (fst (checkStopLoss position topBid topAsk closeReply e))
  | Reach_marketExit e position topBid topAsk closeReply :
      Reachable e ->
      Reachable (fst (marketExit position topBid topAsk closeReply e))
  | Reach_watchTrades e now tradeData :
      Reachable e ->
      Reachable (fst (watchTrades now tradeData e))
  | Reach_checkExitCondition e position bidQty askQty topBid topAsk
      closeReply :
      Reachable e ->
      Reachable (fst (checkExitCondition position bidQty askQty topBid topAsk
                        closeReply e))
  | Reach_emitUpdate e now :
      Reachable e ->
      Reachable (fst (emitUpdate now e)).

End Engine.

End DepthImbalanceRetry.

(** ** Session volume: [updateSessionVolume] of the three engines *)

Module SessionVolume.

(** The fields [updateSessionVolume] reads and writes. *)
Record State : Type := mkState {
  sessionQuoteVolume : Q;
  prevPositionAmt : Q;
  initializedPosition : bool
}.

Definition init : State := mkState 0 0 false.

(** [price] is what [getReferencePrice] returned ([getMidOrLast] of
    [utils/price] is not part of the sources at hand). *)
Definition updateSessionVolume (price : option Q) (position : PositionSnapshot)
  (s : State) : State :=
  if negb (initializedPosition s) then
    mkState (sessionQuoteVolume s) (positionAmt position) true
  else
    match price with
    | None =>
        mkState (sessionQuoteVolume s) (positionAmt position)
                (initializedPosition s)
    | Some price =>
        let delta := Qabs (positionAmt position - prevPositionAmt s) in
        let volume :=
          if Qltb 0 delta then sessionQuoteVolume s + delta * price
          else sessionQuoteVolume s in
        mkState volume (positionAmt position) (initializedPosition s)
    end.

(** A sequence of account pushes, each with the reference price at the time. *)
Definition updates (us : list (option Q * PositionSnapshot)) (s : State)
  : State :=
  fold_left (fun s u => updateSessionVolume (fst u) (snd u) s) us s.

End SessionVolume.

(** ** Order bookkeeping of the maker engines

    [watchOrders], [syncLocksWithOrders], [ensureStartupOrderReset],
    [flushOrders] and [checkRisk] of [src/core/maker-engine.ts]; the
    offset maker ([src/core/offset-maker-engine.ts]) repeats them. *)

Module MakerOrders.

(** The fields of [AsterOrder] the engine looks at; an absent [status]
    is the empty string. *)
Record AsterOrder : Type := mkAsterOrder {
  orderId : Z;
  o_symbol : string;
  o_side : Side;
  o_type : string;
  o_price : Q;
  o_status : string;
  o_reduceOnly : bool
}.

(** The fields of the engine these methods read or write.
    [pendingCancelOrders] is a [Set<number>], kept as a list in which an
    id is only inserted when absent. *)
Record State : Type := mkState {
  config : MakerEngine.MakerConfig;
  openOrders : list AsterOrder;
  pendingCancelOrders : list Z;
  initialOrderSnapshotReady : bool;
  initialOrderResetDone : bool;
  entryPricePendingLogged : bool
}.

Definition create (config : MakerEngine.MakerConfig) : State :=
  mkState config [] [] false false false.

(** Calls that leave these methods, in the order they are made.
    [unlockOperating], [marketClose] (of [core/order-coordinator]) and
    [safeCancelOrder] (of [core/lib/orders]) are not part of the sources at
    hand: the calls are recorded, their answers are inputs. *)
Inductive Call : Type :=
  | UnlockOperating (type : string)
  | CancelAllOrders
  | SafeCancelOrder (id : Z)
  | MarketCloseCall (side : Side) (amount : Q) (guard : CloseGuard)
  | Log (ty : LogType)
  | Emit.

(** How [safeCancelOrder] answers: which of its three callbacks it runs. *)
Inductive CancelOutcome : Type := Cancelled | AlreadyGone | CancelFailed.

Definition set_openOrders (l : list AsterOrder) (s : State) : State :=
  mkState (config s) l (pendingCancelOrders s) (initialOrderSnapshotReady s)
          (initialOrderResetDone s) (entryPricePendingLogged s).

Definition set_pendingCancelOrders (p : list Z) (s : State) : State :=
  mkState (config s) (openOrders s) p (initialOrderSnapshotReady s)
          (initialOrderResetDone s) (entryPricePendingLogged s).

Definition set_initialOrderSnapshotReady (b : bool) (s : State) : State :=
  mkState (config s) (openOrders s) (pendingCancelOrders s) b
          (initialOrderResetDone s) (entryPricePendingLogged s).


Definition set_entryPricePendingLogged (b : bool) (s : State) : State :=
  mkState (config s) (openOrders s) (pendingCancelOrders s)
          (initialOrderSnapshotReady s) (initialOrderResetDone s) b.

(** [Set.has], [Set.add] and [Set.delete] on the ids. *)
Definition has (id : Z) (p : list Z) : bool := existsb (Z.eqb id) p.

Definition add (id : Z) (p : list Z) : list Z :=
  if has id p then p else p ++ [id].

Definition delete (id : Z) (p : list Z) : list Z :=
  filter (fun x => negb (Z.eqb x id)) p.

(** [syncLocksWithOrders]: the categories handed to [unlockOperating].
    [pending] is the table of the order coordinator at the time of the
    push, category by category, [None] for an empty entry; [orders] is
    [None] when the push is not an array. *)
Definition syncLocksWithOrders (pending : list (string * option Z))
  (orders : option (list AsterOrder)) : list Call :=
  let list := match orders with Some l => l | None => [] end in
  flat_map
    (fun entry : string * option Z =>
       match snd entry with
       | None => []
       | Some pendingId =>
           match find (fun o => Z.eqb (orderId o) pendingId) list with
           | None => [UnlockOperating (fst entry)]
           | Some m =>
               if negb (String.eqb (o_status m) "")
                  && negb (String.eqb (o_status m) "NEW")
                  && negb (String.eqb (o_status m) "PARTIALLY_FILLED")
               then [UnlockOperating (fst entry)]
               else []
           end
       end)
    pending.

(** The listener that [bootstrap] registers with [exchange.watchOrders]. *)
Definition watchOrders (pending : list (string * option Z))
  (orders : option (list AsterOrder)) (s : State) : State * list Call :=
  let unlocks := syncLocksWithOrders pending orders in
  let kept :=
    match orders with
    | Some l =>
        filter (fun o => negb (String.eqb (o_type o) "MARKET")
                         && String.eqb (o_symbol o)
                                       (MakerEngine.symbol (config s)))
               l
    | None => []
    end in
  let stillPending :=
    filter (fun id => existsb (fun o => Z.eqb (orderId o) id) kept)
           (pendingCancelOrders s) in
  (set_initialOrderSnapshotReady true
     (set_pendingCancelOrders stillPending (set_openOrders kept s)),
   unlocks ++ [Emit]).


(** An order push: the pending table of the order coordinator when it
    arrives, and the pushed orders. *)
Definition Push : Type := list (string * option Z) * option (list AsterOrder).

(** The order listener run on the pushes that arrive, in order, while a
    method waits for the exchange.  The other listeners (account, depth,
    trades) write none of the fields of [State]. *)
Fixpoint runPushes (pushes : list Push) (s : State) : State * list Call :=
  match pushes with
  | [] => (s, [])
  | p :: rest =>
      let r := watchOrders (fst p) (snd p) s in
      let r' := runPushes rest (fst r) in
      (fst r', snd r ++ snd r')
  end.

(** One wait of [flushOrders] for [safeCancelOrder]: which of its three
    callbacks it runs, and the order pushes that arrive before and after the
    callback while the call is outstanding. *)
Record CancelWait : Type := mkCancelWait {
  outcome : CancelOutcome;
  pushesBefore : list Push;
  pushesAfter : list Push
}.

(** The callbacks that [flushOrders] hands to [safeCancelOrder] for
    [order]. *)
Definition cancelCallback (o : AsterOrder) (answer : CancelOutcome)
  (s : State) : State * list Call :=
  match answer with
  | Cancelled => (s, [])
  | AlreadyGone =>
      (set_openOrders
         (filter (fun x => negb (Z.eqb (orderId x) (orderId o)))
                 (openOrders s))
         (set_pendingCancelOrders
            (delete (orderId o) (pendingCancelOrders s)) s),
       [Log order])
  | CancelFailed =>
      (set_openOrders
         (filter (fun x => negb (Z.eqb (orderId x) (orderId o)))
                 (openOrders s))
         (set_pendingCancelOrders
            (delete (orderId o) (pendingCancelOrders s)) s),
       [Log error])
  end.

(** The body of the [for] loop of [flushOrders], over the orders of the
    array the loop was started on.  The loop awaits [safeCancelOrder] for
    every order it does not skip; [waits n] says what happens during the
    wait for the order at position [n] of that array. *)
Fixpoint flushLoop (waits : nat -> CancelWait) (n : nat)
  (orders : list AsterOrder) (s : State) : State * list Call :=
  match orders with
  | [] => (s, [])
  | o :: rest =>
      if has (orderId o) (pendingCancelOrders s)
      then flushLoop waits (S n) rest s
      else
        let s0 := set_pendingCancelOrders
                    (add (orderId o) (pendingCancelOrders s)) s in
        let r1 := runPushes (pushesBefore (waits n)) s0 in
        let r2 := cancelCallback o (outcome (waits n)) (fst r1) in
        let r3 := runPushes (pushesAfter (waits n)) (fst r2) in
        let r4 := flushLoop waits (S n) rest (fst r3) in
        (fst r4,
         SafeCancelOrder (orderId o) :: snd r1 ++ snd r2 ++ snd r3 ++ snd r4)
  end.

Definition flushOrders (waits : nat -> CancelWait) (s : State)
  : State * list Call :=
  flushLoop waits O (openOrders s) s.

Section Risk.

(** [shouldStopLoss] of [utils/risk], which is not part of the sources at
    hand: position, bid price, ask price and loss limit. *)
Variable shouldStopLoss : PositionSnapshot -> Q -> Q -> Q -> bool.


End Risk.

End MakerOrders.

(** ** The offset maker engine, [src/core/offset-maker-engine.ts] *)

Module OffsetMaker.

(** [Number(levels?.[0]?.[0])]; no number when there is no first level. *)
Definition firstPrice (levels : list (Q * Q)) : option Q :=
  match levels with
  | (p, _) :: _ => Some p
  | [] => None
  end.

(** [handleImbalanceExit].  [buySum] and [sellSum] are what [evaluateDepth]
    returned ([computeDepthStats] of [utils/depth] is not part of the
    sources at hand), [depth] is [this.depthSnapshot]; [flushOrders] of the
    offset maker is that of the symmetric maker.  [closeReply] is the error
    [marketClose] throws, if any, [closePushes] the order pushes that arrive
    while it is awaited. *)
Definition handleImbalanceExit (position : PositionSnapshot)
  (buySum sellSum : Q) (depth : option Depth)
  (waits : nat -> MakerOrders.CancelWait) (closeReply : option EngineError)
  (closePushes : list MakerOrders.Push) (s : MakerOrders.State)
  : MakerOrders.State * bool * list MakerOrders.Call :=
  let absPosition := Qabs (positionAmt position) in
  if Qltb absPosition EPS then (s, false, [])
  else
    let longExitRequired :=
      Qltb 0 (positionAmt position)
      && (Qeq_bool buySum 0 || Qltb (buySum * 6) sellSum) in
    let shortExitRequired :=
      Qltb (positionAmt position) 0
      && (Qeq_bool sellSum 0 || Qltb (sellSum * 6) buySum) in
    if negb longExitRequired && negb shortExitRequired then (s, false, [])
    else
      let side := if Qltb 0 (positionAmt position) then SELL else BUY in
      let bid :=
        firstPrice (match depth with Some d => bids d | None => [] end) in
      let ask :=
        firstPrice (match depth with Some d => asks d | None => [] end) in
      let closeSidePrice := match side with SELL => bid | BUY => ask end in
      let flushed := MakerOrders.flushOrders waits s in
      let call :=
        MakerOrders.MarketCloseCall side absPosition
          (mkCloseGuard (markPrice position) (numberOrNull closeSidePrice)) in
      let heard := MakerOrders.runPushes closePushes (fst flushed) in
      (fst heard, true,
       MakerOrders.Log stop :: snd flushed ++ call :: snd heard ++
         match closeReply with
         | None => []
         | Some err =>
             [MakerOrders.Log
                (if isUnknownOrderError err then order else error)]
         end).

Section Engine.

Variable roundDownToTick : Q -> Q -> Q.

(** [tick], from the call of [handleImbalanceExit] to the assignment of
    [this.desiredOrders].  [skipBuySide] and [skipSellSide] are, with
    [buySum] and [sellSum], what [evaluateDepth] returned; the engine
    fields involved are those of the symmetric maker.  When the imbalance
    exit has closed the position the tick emits an update and returns
    before [this.desiredOrders] is assigned. *)
Definition tickDesired (position : PositionSnapshot) (topBid topAsk : Q)
  (buySum sellSum : Q) (skipBuySide skipSellSide : bool)
  (depth : option Depth) (waits : nat -> MakerOrders.CancelWait)
  (closeReply : option EngineError) (closePushes : list MakerOrders.Push)
  (e : MakerEngine.Engine) (s : MakerOrders.State)
  : MakerEngine.Engine * MakerOrders.State * list MakerOrders.Call :=
  let exit :=
    handleImbalanceExit position buySum sellSum depth waits closeReply
      closePushes s in
  if snd (fst exit) then (e, fst (fst exit), snd exit ++ [MakerOrders.Emit])
  else
    let cfg := MakerEngine.config e in
    let bidPrice :=
      roundDownToTick (topBid - MakerEngine.bidOffset cfg)
                      (MakerEngine.priceTick cfg) in
    let askPrice :=
      roundDownToTick (topAsk + MakerEngine.askOffset cfg)
                      (MakerEngine.priceTick cfg) in
    let absPosition := Qabs (positionAmt position) in
    let canEnter :=
      negb (RateLimit.shouldBlockEntries (MakerEngine.rateLimit e)) in
    let '(desired, e) :=
      if Qltb absPosition EPS then
        ((if negb skipBuySide && canEnter
          then [ MakerEngine.mkDesiredOrder BUY bidPrice
                   (MakerEngine.tradeAmount cfg) false ]
          else [])
         ++ (if negb skipSellSide && canEnter
             then [ MakerEngine.mkDesiredOrder SELL askPrice
                      (MakerEngine.tradeAmount cfg) false ]
             else []),
         MakerEngine.set_entryPricePendingLogged false e)
      else
        let closeSide := if Qltb 0 (positionAmt position) then SELL else BUY in
        let closePrice :=
          match closeSide with SELL => askPrice | BUY => bidPrice end in
        ([ MakerEngine.mkDesiredOrder closeSide closePrice absPosition true ],
         e) in
    (MakerEngine.set_desiredOrders desired e, fst (fst exit), snd exit).

End Engine.

End OffsetMaker.

(** * Vocabulary of the statements *)

(** A paused controller always has its pause window armed. *)
Definition pauseArmed (c : RateLimit.Controller) : Prop :=
  RateLimit.state c = RateLimit.paused ->
  exists t, RateLimit.pausedUntil c = Some t.

(** The two conditions under which [onCycleComplete] acts. *)
Definition recoveryDue (opts : RateLimit.Options) (now : Z)
  (c : RateLimit.Controller) : Prop :=
  RateLimit.state c = RateLimit.degraded
  /\ (0 < RateLimit.lastRateLimitAt c)%Z
  /\ (RateLimit.recoveryMs opts <= now - RateLimit.lastRateLimitAt c)%Z.

Definition staleSuppression (c : RateLimit.Controller) : Prop :=
  RateLimit.state c = RateLimit.normal
  /\ RateLimit.entriesSuppressed c = true
  /\ RateLimit.lastRateLimitAt c = 0%Z.

(** The hourly record right after a reset at [now]. *)
Definition freshHour (now : Z) (h : TradingStats.HourlyStats)
  : TradingStats.HourlyStats :=
  TradingStats.mkHourlyStats
    (TradingStats.mkTradingStats 0 0 0 0 0 0
       (TradingStats.startTime (TradingStats.base h)))
    now.

(** The entry condition of [checkEntryCondition]. *)
Definition entrySignal (cfg : DepthImbalanceConfig) (bidQty askQty : Q)
  : Prop :=
  (minDepthQty cfg <= bidQty \/ minDepthQty cfg <= askQty)
  /\ imbalanceRatio cfg <= Qmax bidQty askQty / Qmin bidQty askQty.

(** The side [checkEntryCondition] enters on. *)
Definition entrySide (bidQty askQty : Q) : Side :=
  if Qltb askQty bidQty then BUY else SELL.

(** Sample inputs: a book with 50 on the bid and 500 on the ask, an
    engine asking for at least 100 on one side and a ratio of 6, and helpers
    that read the first level and report a flat position. *)
Definition sampleDepth : Depth :=
  mkDepth [(100, 50)] [(501 # 5, 500)].

Definition sampleConfig : DepthImbalanceConfig :=
  mkDepthImbalanceConfig "BTCUSDT" (1 # 100) 5 100 6 (1 # 2) 500.

Definition sampleTopPrices (d : option Depth) : option Q * option Q :=
  match d with
  | Some d => (option_map fst (hd_error (bids d)),
               option_map fst (hd_error (asks d)))
  | None => (None, None)
  end.

Definition sampleFlat (_ : option unit) (_ : string) : PositionSnapshot :=
  mkPosition 0 0 None.

Definition sampleEngine : DepthImbalance.Engine unit :=
  DepthImbalance.mkEngine unit sampleConfig (Some tt) (Some sampleDepth) false
    RateLimit.init 0 0 None
    (TradingStats.mkSummary (TradingStats.createEmptyStats 0)
                            (TradingStats.createEmptyHourlyStats 0)).

(** [x] halved [k] times, the way the loop does it. *)
Fixpoint halvings (k : nat) (x : Q) : Q :=
  match k with
  | O => x
  | S k => halvings k (x / 2)
  end.

(** The reply is an error that [isInsufficientMarginError] recognises. *)
Definition isMarginRejection (r : Reply) : bool :=
  match r with
  | Rejected err => isInsufficientMarginError err
  | Accepted _ => false
  end.

(** How many of the replies [from], ..., [from + len - 1] are margin
    rejections. *)
Fixpoint marginRejections (replies : nat -> Reply) (from len : nat) : nat :=
  match len with
  | O => O
  | S len =>
      ((if isMarginRejection (replies from) then 1 else 0)
       + marginRejections replies (S from) len)%nat
  end.

(** The quantities of the market orders requested, in order. *)
Definition attemptedAmounts (acts : list Action) : list Q :=
  map snd (marketOrders acts).

(** The rule by which, in a loop that has counted [attempts] failures and
    holds [amount], a further order follows [k] more margin rejections. *)
Definition retryAllowedFrom (floor amount : Q) (attempts k : nat) : Prop :=
  (attempts + k < DepthImbalanceRetry.maxRetryAttempts)%nat
  /\ forall j, (j <= k)%nat -> floor <= halvings j amount.

(** What one run of the loop, started with [n] counted failures and amount
    [a], guarantees about its result. *)
Record EntryFacts (side : Side) (replies : nat -> Reply) (n : nat) (a : Q)
  (e e' : DepthImbalanceRetry.Engine) (acts : list Action) (r : option EngineError) : Prop := {
  ef_config : DepthImbalanceRetry.config e' = DepthImbalanceRetry.config e;
  ef_side : forall s q, In (s, q) (marketOrders acts) -> s = side;
  ef_amounts : forall i q, nth_error (attemptedAmounts acts) i = Some q ->
               q = halvings i a;
  ef_bound : forall i q, nth_error (attemptedAmounts acts) i = Some q ->
             (n + i < DepthImbalanceRetry.maxRetryAttempts)%nat
             /\ DepthImbalanceRetry.minTradeAmount e <= q;
  ef_amount : DepthImbalanceRetry.currentTradeAmount e'
              = DepthImbalanceRetry.currentTradeAmount e
              \/ exists k, (k < List.length (attemptedAmounts acts))%nat
                           /\ DepthImbalanceRetry.currentTradeAmount e'
                              = halvings k a;
  ef_loss : DepthImbalanceRetry.currentLossLimit e'
            = halvings (marginRejections replies n (List.length (attemptedAmounts acts)))
                       (DepthImbalanceRetry.currentLossLimit e);
  ef_abort : forall k err,
      (k < List.length (attemptedAmounts acts))%nat ->
      replies (n + k)%nat = Rejected err ->
      isInsufficientMarginError err = false ->
      List.length (attemptedAmounts acts) = S k /\ r = Some err
      /\ DepthImbalanceRetry.currentTradeAmount e' = DepthImbalanceRetry.currentTradeAmount e;
  ef_accept : forall k id,
      (k < List.length (attemptedAmounts acts))%nat ->
      replies (n + k)%nat = Accepted id ->
      List.length (attemptedAmounts acts) = S k /\ r = None
      /\ DepthImbalanceRetry.currentTradeAmount e' = halvings k a;
  ef_retry : forall k,
      (forall i, (i < k)%nat -> isMarginRejection (replies (n + i)%nat) = true) ->
      ((k < List.length (attemptedAmounts acts))%nat
       <-> retryAllowedFrom (DepthImbalanceRetry.minTradeAmount e) a n k)
}.

(** The rule of the entry as a whole: after [k] margin rejections in a row
    a further order is attempted when fewer than [maxRetryAttempts] attempts
    were made and no amount tried so far, the next one included, is below
    [floor]. *)
Definition retryAllowed (floor A : Q) (k : nat) : Prop :=
  (k < DepthImbalanceRetry.maxRetryAttempts)%nat
  /\ forall j, (j <= k)%nat -> floor <= A / 2 ^ Z.of_nat j.

(** The current trade amount never exceeds the configured one. *)
Definition amountWithinConfig (e : DepthImbalanceRetry.Engine) : Prop :=
  DepthImbalanceRetry.currentTradeAmount e
  <= tradeAmount (DepthImbalanceRetry.config e).

(** Sample inputs: an engine configured for an amount of 128 and a loss
    limit of 10, and the error of an insufficient margin. *)
Definition marginError : EngineError := ExchangeError false false true.

Definition retryConfig : DepthImbalanceConfig :=
  mkDepthImbalanceConfig "BTCUSDT" 128 10 100 6 (1 # 2) 500.

(** The engine after a first entry that was rejected once for margin and
    then accepted at half the amount. *)
Definition reducedEngine : DepthImbalanceRetry.Engine :=
  DepthImbalanceRetry.mkEngine retryConfig 0 0 None (128 / 2) (10 / 2)
    (TradingStats.mkSummary (TradingStats.createEmptyStats 0)
                            (TradingStats.createEmptyHourlyStats 0)).

(** The controller suppresses entries exactly when it is not in state
    normal. *)
Definition suppressedWhenLimited (c : RateLimit.Controller) : Prop :=
  RateLimit.entriesSuppressed c = true
  <-> RateLimit.state c <> RateLimit.normal.

(** Sums over the trades folded into the statistics. *)
Definition sumOver (f : TradingStats.TradeData -> Q)
  (trades : list TradingStats.TradeData) : Q :=
  fold_right (fun t acc => f t + acc) 0 trades.

Definition makerTrades (trades : list TradingStats.TradeData) : Z :=
  Z.of_nat (List.length (filter TradingStats.isMaker trades)).

Definition takerTrades (trades : list TradingStats.TradeData) : Z :=
  Z.of_nat
    (List.length (filter (fun t => negb (TradingStats.isMaker t)) trades)).

(** What reaches the statistics of a maker engine: a trade push or a
    snapshot read, each at a clock reading. *)
Inductive StatsEvent : Type :=
  | TradePush (now : Z) (tradeData : TradeExecutionData)
  | SnapshotRead (now : Z).

Definition statsStep (teamBonus : Q) (e : MakerEngine.Engine)
  (ev : StatsEvent) : MakerEngine.Engine :=
  match ev with
  | TradePush now tradeData =>
      fst (MakerEngine.watchTrades teamBonus now tradeData e)
  | SnapshotRead now => fst (fst (MakerEngine.getSnapshot now e))
  end.

Definition statsRun (teamBonus : Q) (e : MakerEngine.Engine)
  (evs : list StatsEvent) : MakerEngine.Engine :=
  fold_left (statsStep teamBonus) evs e.

(** The number of trade pushes of a run that carry the given symbol and
    maker flag. *)
Definition fillsOf (sym : string) (maker : bool) (evs : list StatsEvent) : Z :=
  Z.of_nat
    (List.length
       (filter (fun ev =>
                  match ev with
                  | TradePush _ td =>
                      String.eqb (te_symbol td) sym
                      && Bool.eqb (te_isMaker td) maker
                  | SnapshotRead _ => false
                  end)
               evs)).

(** The length of the path a position amount takes from [prev] through
    the amounts of [positions]. *)
Fixpoint pathLength (prev : Q) (positions : list PositionSnapshot) : Q :=
  match positions with
  | [] => 0
  | p :: rest =>
      Qabs (positionAmt p - prev) + pathLength (positionAmt p) rest
  end.

(** The counters of the hourly record lie between zero and those of the
    total record. *)
Definition hourlyWithinTotal (s : TradingStats.TradingStatsSummary) : Prop :=
  (0 <= TradingStats.makerOrderCount (TradingStats.base (TradingStats.hourly s))
   <= TradingStats.makerOrderCount (TradingStats.total s))%Z
  /\ (0 <= TradingStats.takerOrderCount (TradingStats.base (TradingStats.hourly s))
      <= TradingStats.takerOrderCount (TradingStats.total s))%Z.

(** The [marketClose] calls and the cancel requests among the calls of the
    maker engine, in order. *)
Fixpoint closeCalls (calls : list MakerOrders.Call)
  : list (Side * Q * CloseGuard) :=
  match calls with
  | [] => []
  | MakerOrders.MarketCloseCall s a g :: rest => (s, a, g) :: closeCalls rest
  | _ :: rest => closeCalls rest
  end.

Fixpoint cancelCalls (calls : list MakerOrders.Call) : list Z :=
  match calls with
  | [] => []
  | MakerOrders.SafeCancelOrder id :: rest => id :: cancelCalls rest
  | _ :: rest => cancelCalls rest
  end.


(** Sample inputs: a maker with one resting buy, and a push that reports a
    second one. *)
Definition restingBuy (id : Z) : MakerOrders.AsterOrder :=
  MakerOrders.mkAsterOrder id "BTCUSDT" BUY "LIMIT" 100 "NEW" false.

Definition oneResting : MakerOrders.State :=
  MakerOrders.set_openOrders [restingBuy 1]
    (MakerOrders.create
       (MakerEngine.mkMakerConfig "BTCUSDT" 1 0 0 (1 # 10) 5 1 500)).


(** The [marketClose] call that closes [position] in full: on the closing
    side, for the absolute position, guarded by the mark price and the top
    price of the closing side. *)
Definition closeOf (position : PositionSnapshot) (topBid topAsk : option Q)
  : Side * Q * CloseGuard :=
  let side := if Qltb 0 (positionAmt position) then SELL else BUY in
  (side, Qabs (positionAmt position),
   mkCloseGuard (markPrice position)
     (numberOrNull (match side with SELL => topBid | BUY => topAsk end))).

(** The condition under which the offset maker closes a position at
    market instead of quoting: the position is open and the depth on its
    protecting side (bids for a long, asks for a short) is zero or less
    than a sixth of the depth on the other side. *)
Definition imbalanceExitDue (position : PositionSnapshot) (buySum sellSum : Q)
  : Prop :=
  EPS <= Qabs (positionAmt position)
  /\ ((0 < positionAmt position /\ (buySum == 0 \/ buySum * 6 < sellSum))
      \/ (positionAmt position < 0
          /\ (sellSum == 0 \/ sellSum * 6 < buySum))).

(** A desired order survives the depth filter of the offset maker unless
    it is an entry order on a side that is skipped. *)
Definition keptBySkip (skipBuySide skipSellSide : bool)
  (d : MakerEngine.DesiredOrder) : bool :=
  MakerEngine.reduceOnly d
  || negb (match MakerEngine.side d with
           | BUY => skipBuySide
           | SELL => skipSellSide
           end).

(** * Properties *)

(** ** Comparisons *)

Lemma Qltb_lt (a b : Q) : Qltb a b = true <-> a < b.
Proof.
  unfold Qltb. rewrite negb_true_iff. split; intro H.
  - apply Qnot_le_lt. intro Hle. apply Qle_bool_iff in Hle. congruence.
  - destruct (Qle_bool b a) eqn:E; [ | reflexivity ].
    apply Qle_bool_iff in E. exfalso. exact (Qlt_not_le _ _ H E).
Qed.

Lemma Qltb_ge (a b : Q) : Qltb a b = false <-> b <= a.
Proof.
  unfold Qltb. rewrite negb_false_iff. apply Qle_bool_iff.
Qed.

Lemma Qgeb_ge (a b : Q) : Qgeb a b = true <-> b <= a.
Proof. unfold Qgeb. apply Qle_bool_iff. Qed.

Lemma Qle_bool_false (a b : Q) : Qle_bool a b = false <-> b < a.
Proof.
  rewrite <- Qltb_lt. unfold Qltb. now rewrite negb_true_iff.
Qed.

(** ** The rate-limit controller *)

Section RateLimitFacts.

Import RateLimit.

Variable opts : Options.

Lemma suppressEntries_frame source c :
  state (suppressEntries source c) = state c
  /\ pausedUntil (suppressEntries source c) = pausedUntil c
  /\ lastCycleAt (suppressEntries source c) = lastCycleAt c
  /\ lastRateLimitAt (suppressEntries source c) = lastRateLimitAt c
  /\ entriesSuppressed (suppressEntries source c) = true.
Proof.
  unfold suppressEntries. destruct (entriesSuppressed c) eqn:E; simpl; auto.
Qed.

Lemma allowEntries_frame c :
  state (allowEntries c) = state c
  /\ pausedUntil (allowEntries c) = pausedUntil c
  /\ lastCycleAt (allowEntries c) = lastCycleAt c
  /\ lastRateLimitAt (allowEntries c) = lastRateLimitAt c
  /\ entriesSuppressed (allowEntries c) = false.
Proof.
  unfold allowEntries. destruct (entriesSuppressed c) eqn:E; simpl; auto.
Qed.

Lemma allowEntries_id c : entriesSuppressed c = false -> allowEntries c = c.
Proof. unfold allowEntries. now intros ->. Qed.

Lemma cycleGate_state now c : state (fst (cycleGate opts now c)) = state c.
Proof.
  unfold cycleGate. destruct (_ <? _)%Z; reflexivity.
Qed.

Lemma cycleGate_pausedUntil now c :
  pausedUntil (fst (cycleGate opts now c)) = pausedUntil c.
Proof.
  unfold cycleGate. destruct (_ <? _)%Z; reflexivity.
Qed.

(** What [registerRateLimit] does to the state and the pause window. *)
Lemma registerRateLimit_state now source c :
  let c' := registerRateLimit opts now source c in
  match state c with
  | normal => state c' = degraded /\ pausedUntil c' = pausedUntil c
  | degraded | paused =>
      state c' = paused /\ pausedUntil c' = Some (now + pauseMs opts)%Z
  end.
Proof.
  unfold registerRateLimit. simpl.
  destruct (state c) eqn:E; simpl;
    match goal with
    | |- context [suppressEntries ?s ?x] =>
        destruct (suppressEntries_frame s x) as (-> & -> & _)
    end; simpl; auto.
Qed.

Lemma registerRateLimit_stamps now source c :
  lastRateLimitAt (registerRateLimit opts now source c) = now.
Proof.
  unfold registerRateLimit. simpl.
  destruct (state c); simpl;
    match goal with
    | |- context [suppressEntries ?s ?x] =>
        destruct (suppressEntries_frame s x) as (_ & _ & _ & -> & _)
    end; reflexivity.
Qed.

Lemma beforeCycle_state now c :
  state (fst (beforeCycle opts now c)) =
  match state c, pausedUntil c with
  | paused, Some t => if (t <=? now)%Z then degraded else paused
  | s, _ => s
  end.
Proof.
  unfold beforeCycle.
  destruct (state c) eqn:E; try (rewrite cycleGate_state; now rewrite E).
  destruct (pausedUntil c) as [t|]; simpl; [ | exact E ].
  destruct (t <=? now)%Z; simpl; [ | exact E ].
  now rewrite cycleGate_state.
Qed.

Lemma onCycleComplete_state now had c :
  state c = paused -> onCycleComplete opts now had c = c.
Proof.
  intro E. unfold onCycleComplete, clearStaleSuppression, recoverIfDue.
  destruct had; [ reflexivity | ]. rewrite E. simpl. now rewrite E.
Qed.

Lemma onCycleComplete_not_paused now had c :
  state c <> paused -> state (onCycleComplete opts now had c) <> paused.
Proof.
  intro E. unfold onCycleComplete, clearStaleSuppression, recoverIfDue.
  destruct had; [ exact E | ].
  destruct (state c) eqn:Es; try congruence.
  - rewrite Es.
    destruct (entriesSuppressed c && (lastRateLimitAt c =? 0)%Z);
      [ destruct (allowEntries_frame c) as (-> & _) | ]; congruence.
  - destruct (0 <? lastRateLimitAt c)%Z; [ | rewrite Es; congruence ].
    destruct (recoveryMs opts <=? now - lastRateLimitAt c)%Z;
      [ | rewrite Es; congruence ].
    simpl.
    match goal with
    | |- context [allowEntries ?x] =>
        destruct (allowEntries_frame x) as (Hs & _ & _ & _ & Hf)
    end.
    simpl in Hs. rewrite Hf. simpl. rewrite Hs. simpl. congruence.
Qed.

Lemma step_pauseArmed c o : pauseArmed c -> pauseArmed (step opts c o).
Proof.
  intros Hc. destruct o as [now | now source | now had]; simpl.
  - unfold pauseArmed. rewrite beforeCycle_state. intro Hs.
    destruct (state c) eqn:Es; try discriminate.
    destruct (pausedUntil c) as [t|] eqn:Ep.
    + destruct (t <=? now)%Z eqn:Et; [ discriminate | ].
      unfold beforeCycle. rewrite Es, Ep, Et. simpl. eauto.
    + destruct (Hc Es) as [t Ht]. congruence.
  - pose proof (registerRateLimit_state now source c) as H. simpl in H.
    intro Hp.
    destruct (state c); destruct H as [Hs Hu]; [ congruence | eauto | eauto ].
  - destruct (state c) eqn:Es.
    + intro Hp. exfalso.
      apply (onCycleComplete_not_paused now had c); congruence.
    + intro Hp. exfalso.
      apply (onCycleComplete_not_paused now had c); congruence.
    + rewrite onCycleComplete_state by exact Es. exact Hc.
Qed.

End RateLimitFacts.

Lemma runOps_pauseArmed (opts : RateLimit.Options) ops c :
  pauseArmed c -> pauseArmed (RateLimit.runOps opts c ops).
Proof.
  revert c. induction ops as [ | o ops IH ]; intros c Hc; simpl.
  - exact Hc.
  - apply IH. now apply step_pauseArmed.
Qed.

Lemma step_never_paused_to_normal (opts : RateLimit.Options) c o :
  RateLimit.state c = RateLimit.paused ->
  RateLimit.state (RateLimit.step opts c o) <> RateLimit.normal.
Proof.
  intro Es. destruct o as [now | now source | now had]; simpl.
  - rewrite beforeCycle_state, Es.
    destruct (RateLimit.pausedUntil c) as [t|]; [ | discriminate ].
    destruct (t <=? now)%Z; discriminate.
  - pose proof (registerRateLimit_state opts now source c) as H.
    simpl in H. rewrite Es in H. destruct H as [-> _]. discriminate.
  - rewrite onCycleComplete_state by exact Es. congruence.
Qed.

(** C1.  The escalation ladder of the rate-limit controller.  From state
    normal, [registerRateLimit] moves to degraded and the effective cycle
    interval becomes twice the base interval; while degraded it moves to
    paused with [pausedUntil = now + pauseMs]; while paused it stays paused
    and re-arms [pausedUntil = now + pauseMs].  In every state reached from
    the initial controller by any sequence of operations, a paused
    controller has a pause window, and a [beforeCycle] at or after its end
    moves the state to degraded.  No single operation, after any sequence of
    operations from any controller, takes paused to normal. *)
Theorem C1_rate_limit_ladder (opts : RateLimit.Options) :
  (forall now source c,
      RateLimit.state c = RateLimit.normal ->
      let c' := RateLimit.registerRateLimit opts now source c in
      RateLimit.state c' = RateLimit.degraded
      /\ RateLimit.currentInterval opts c'
         = (2 * RateLimit.baseInterval opts)%Z)
  /\ (forall now source c,
      RateLimit.state c = RateLimit.degraded ->
      let c' := RateLimit.registerRateLimit opts now source c in
      RateLimit.state c' = RateLimit.paused
      /\ RateLimit.pausedUntil c' = Some (now + RateLimit.pauseMs opts)%Z)
  /\ (forall now source c,
      RateLimit.state c = RateLimit.paused ->
      let c' := RateLimit.registerRateLimit opts now source c in
      RateLimit.state c' = RateLimit.paused
      /\ RateLimit.pausedUntil c' = Some (now + RateLimit.pauseMs opts)%Z)
  /\ (forall ops,
      let c := RateLimit.runOps opts RateLimit.init ops in
      RateLimit.state c = RateLimit.paused ->
      exists t,
        RateLimit.pausedUntil c = Some t
        /\ forall now, (t <= now)%Z ->
             RateLimit.state (fst (RateLimit.beforeCycle opts now c))
             = RateLimit.degraded)
  /\ (forall c0 ops o,
      let c := RateLimit.runOps opts c0 ops in
      RateLimit.state c = RateLimit.paused ->
      RateLimit.state (RateLimit.step opts c o) <> RateLimit.normal).
Proof.
  repeat split.
  - pose proof (registerRateLimit_state opts now source c) as R.
    simpl in R. rewrite H in R. apply R.
  - pose proof (registerRateLimit_state opts now source c) as R.
    simpl in R. rewrite H in R. destruct R as [R _].
    unfold RateLimit.currentInterval. rewrite R. lia.
  - pose proof (registerRateLimit_state opts now source c) as R.
    simpl in R. rewrite H in R. apply R.
  - pose proof (registerRateLimit_state opts now source c) as R.
    simpl in R. rewrite H in R. apply R.
  - pose proof (registerRateLimit_state opts now source c) as R.
    simpl in R. rewrite H in R. apply R.
  - pose proof (registerRateLimit_state opts now source c) as R.
    simpl in R. rewrite H in R. apply R.
  - intros ops c Hs.
    assert (Ha : pauseArmed c).
    { apply runOps_pauseArmed. intro Hi. discriminate Hi. }
    destruct (Ha Hs) as [t Ht]. exists t. split; [ exact Ht | ].
    intros now Hle. rewrite beforeCycle_state, Hs, Ht.
    apply Z.leb_le in Hle. now rewrite Hle.
  - intros c0 ops o c Hs. now apply step_never_paused_to_normal.
Qed.

(** The ladder on a run: two overloads in a row pause the controller for
    [pauseMs]; the first cycle after the window finds it degraded. *)
Example rate_limit_ladder_run :
  let opts := RateLimit.defaultOptions 500 in
  let c1 := RateLimit.registerRateLimit opts 1000 None RateLimit.init in
  let c2 := RateLimit.registerRateLimit opts 1200 None c1 in
  let c3 := fst (RateLimit.beforeCycle opts 31200 c2) in
  RateLimit.state c1 = RateLimit.degraded
  /\ RateLimit.currentInterval opts c1 = 1000%Z
  /\ RateLimit.state c2 = RateLimit.paused
  /\ RateLimit.pausedUntil c2 = Some 31200%Z
  /\ RateLimit.beforeCycle opts 31199 c2
     = (RateLimit.set_lastCycleAt 31199 c2, RateLimit.Paused)
  /\ RateLimit.state c3 = RateLimit.degraded.
Proof. vm_compute. repeat split; reflexivity. Qed.

(** C6.  [onCycleComplete hadRateLimit] takes the state from degraded to
    normal and re-allows entries exactly when [hadRateLimit] is false, the
    state is degraded, a rate-limit time is recorded
    ([lastRateLimitAt > 0]) and at least [recoveryMs] have passed since.
    When [hadRateLimit] is false, the state is normal, entries are
    suppressed and no rate-limit time is recorded, the suppression is
    cleared and no other field changes apart from the log.  In every other
    case the controller is returned unchanged. *)
Theorem C6_onCycleComplete (opts : RateLimit.Options) (now : Z)
  (hadRateLimit : bool) (c : RateLimit.Controller) :
  let c' := RateLimit.onCycleComplete opts now hadRateLimit c in
  ((RateLimit.state c = RateLimit.degraded
    /\ RateLimit.state c' = RateLimit.normal
    /\ RateLimit.entriesSuppressed c' = false)
   <-> (hadRateLimit = false /\ recoveryDue opts now c))
  /\ (hadRateLimit = false /\ staleSuppression c ->
      RateLimit.entriesSuppressed c' = false
      /\ RateLimit.state c' = RateLimit.normal
      /\ RateLimit.pausedUntil c' = RateLimit.pausedUntil c
      /\ RateLimit.lastCycleAt c' = RateLimit.lastCycleAt c
      /\ RateLimit.lastRateLimitAt c' = RateLimit.lastRateLimitAt c)
  /\ (~ (hadRateLimit = false /\ recoveryDue opts now c) ->
      ~ (hadRateLimit = false /\ staleSuppression c) ->
      c' = c).
Proof.
  unfold recoveryDue, staleSuppression.
  destruct c as [st pu lc lr es lg].
  unfold RateLimit.onCycleComplete, RateLimit.clearStaleSuppression,
    RateLimit.recoverIfDue, RateLimit.allowEntries; simpl.
  destruct hadRateLimit; simpl.
  { repeat split; try tauto; try (intros; intuition congruence). }
  destruct st; simpl.
  - (* normal *)
    destruct es; simpl.
    + destruct (Z.eqb_spec lr 0); simpl.
      * repeat split; try tauto; try (intros; intuition congruence).
      * repeat split; try tauto; try (intros; intuition congruence).
    + repeat split; try tauto; try (intros; intuition congruence).
  - (* degraded *)
    destruct (Z.ltb_spec 0 lr); simpl.
    + destruct (Z.leb_spec (RateLimit.recoveryMs opts) (now - lr)); simpl.
      * destruct es; simpl;
          repeat split; try tauto; try (intros; intuition congruence).
      * repeat split; try tauto; try (intros; intuition (congruence || lia)).
    + repeat split; try tauto; try (intros; intuition (congruence || lia)).
  - (* paused *)
    repeat split; try tauto; try (intros; intuition congruence).
Qed.

(** [onCycleComplete] on runs: a recovery after the window, none before it,
    and the clearing of a suppression left without a recorded overload. *)
Example onCycleComplete_runs :
  let opts := RateLimit.defaultOptions 500 in
  let c1 := RateLimit.registerRateLimit opts 1000 None RateLimit.init in
  let stale :=
    RateLimit.mkController RateLimit.normal None 0 0 true [] in
  RateLimit.onCycleComplete opts 60999 false c1 = c1
  /\ RateLimit.state (RateLimit.onCycleComplete opts 61000 false c1)
     = RateLimit.normal
  /\ RateLimit.entriesSuppressed (RateLimit.onCycleComplete opts 61000 false c1)
     = false
  /\ RateLimit.onCycleComplete opts 61000 true c1 = c1
  /\ RateLimit.entriesSuppressed (RateLimit.onCycleComplete opts 5 false stale)
     = false.
Proof. vm_compute. repeat split; reflexivity. Qed.

(** ** Trading statistics *)

Lemma refreshHourly_total now s :
  TradingStats.total (fst (refreshHourly now s)) = TradingStats.total s.
Proof.
  unfold refreshHourly.
  destruct (TradingStats.shouldResetHourlyStats now (TradingStats.hourly s));
    reflexivity.
Qed.

Lemma shouldResetHourlyStats_iff now h :
  TradingStats.shouldResetHourlyStats now h = true
  <-> (TradingStats.oneHour <= now - TradingStats.hourStartTime h)%Z.
Proof. unfold TradingStats.shouldResetHourlyStats. apply Z.leb_le. Qed.

(** C8.  A snapshot read at time [now] exports the hourly record as it was
    and replaces it by zeroed counters with window start [now] exactly when
    [now - hourStartTime >= one hour]; otherwise it exports nothing and
    leaves the hourly record as it is.  The snapshot carries the statistics
    as they are after the read, and the total record is never changed. *)
Theorem C8_snapshot_hourly_reset (now : Z) (e : MakerEngine.Engine) :
  let r := MakerEngine.getSnapshot now e in
  let e' := fst (fst r) in
  let snap := snd (fst r) in
  let exported := snd r in
  let h := TradingStats.hourly (MakerEngine.tradingStats e) in
  let h' := TradingStats.hourly (MakerEngine.tradingStats e') in
  ((exported = [LogHourlyStats h] /\ h' = freshHour now h)
   <-> (TradingStats.oneHour <= now - TradingStats.hourStartTime h)%Z)
  /\ ((now - TradingStats.hourStartTime h < TradingStats.oneHour)%Z ->
      exported = [] /\ h' = h)
  /\ MakerEngine.snap_tradingStats snap = MakerEngine.tradingStats e'
  /\ TradingStats.total (MakerEngine.tradingStats e')
     = TradingStats.total (MakerEngine.tradingStats e).
Proof.
  unfold MakerEngine.getSnapshot, refreshHourly, TradingStats.resetHourlyStats,
    freshHour.
  destruct (TradingStats.shouldResetHourlyStats now
              (TradingStats.hourly (MakerEngine.tradingStats e))) eqn:E; simpl.
  - apply shouldResetHourlyStats_iff in E.
    repeat split; auto; intros; lia.
  - assert (E' : ~ (TradingStats.oneHour
                    <= now - TradingStats.hourStartTime
                               (TradingStats.hourly (MakerEngine.tradingStats e)))%Z).
    { rewrite <- shouldResetHourlyStats_iff. congruence. }
    repeat split; auto; try (intros; lia);
      try (intros [H _]; discriminate H).
Qed.

(** The boundary of the hourly window: 3,599,999 ms after its start a read
    changes nothing; 3,600,001 ms after it the counters are exported once
    and reset. *)
Example snapshot_hourly_boundary :
  let cfg := MakerEngine.mkMakerConfig "BTCUSDT" 1 0 0 (1 # 10) 5 1 500 in
  let e0 := MakerEngine.create cfg 1000 in
  let busy :=
    MakerEngine.set_tradingStats
      (TradingStats.mkSummary
         (TradingStats.mkTradingStats 3 1 2 (-1) 400 50 1000)
         (TradingStats.mkHourlyStats
            (TradingStats.mkTradingStats 3 1 2 (-1) 400 50 1000) 1000))
      e0 in
  MakerEngine.getSnapshot 3600999 busy
  = (busy,
     MakerEngine.mkSnapshot "BTCUSDT" [] (MakerEngine.tradingStats busy), [])
  /\ snd (MakerEngine.getSnapshot 3601001 busy)
     = [LogHourlyStats (TradingStats.hourly (MakerEngine.tradingStats busy))]
  /\ MakerEngine.tradingStats (fst (fst (MakerEngine.getSnapshot 3601001 busy)))
     = TradingStats.mkSummary
         (TradingStats.mkTradingStats 3 1 2 (-1) 400 50 1000)
         (TradingStats.mkHourlyStats
            (TradingStats.mkTradingStats 0 0 0 0 0 0 1000) 3601001).
Proof. vm_compute. repeat split; reflexivity. Qed.

(** C9.  The two [calculatePointsRate] functions are not extensionally
    equal: whatever the team bonus, there are fees, a PnL and a positive
    volume on which the team-bonus formula
    [(fees - pnl) / ((volume / 2) * teamBonus) * 10000] and the unadjusted
    formula [(fees + |pnl| if pnl < 0, else fees) / volume * 10000]
    disagree. *)
Theorem C9_points_rate_formulas_differ (teamBonus : Q) :
  exists fees pnl volume : Q,
    0 < volume
    /\ ~ TradingStats.calculatePointsRate teamBonus fees pnl volume
         == TradingStatsPlain.calculatePointsRate fees pnl volume.
Proof.
  exists 1, 1, 1. split; [ reflexivity | ].
  assert (Ht : TradingStats.calculatePointsRate teamBonus 1 1 1 == 0).
  { unfold TradingStats.calculatePointsRate.
    change (Qle_bool 1 0) with false. cbv iota zeta.
    setoid_replace (1 - 1) with 0 by reflexivity.
    unfold Qdiv. now rewrite !Qmult_0_l. }
  assert (Hp : TradingStatsPlain.calculatePointsRate 1 1 1 == 10000)
    by reflexivity.
  rewrite Ht, Hp. intro H. discriminate H.
Qed.

(** With the default team bonus, on fees 2, a loss of 1 and volume 1000 the
    two formulas give 600/11 and 30. *)
Example points_rate_default_bonus :
  TradingStats.calculatePointsRate TradingStats.DEFAULT_TEAM_BONUS_RATE
    2 (-1) 1000 == 600 # 11
  /\ TradingStatsPlain.calculatePointsRate 2 (-1) 1000 == 30.
Proof. split; reflexivity. Qed.

(** C10.  A trade execution whose symbol is not the engine's configured
    symbol leaves the engine, and with it every counter of the total and of
    the hourly statistics, as it was, and makes no call; this holds for the
    trade listener of the maker engine and of both revisions of the
    depth-imbalance engine.  A trade for the configured symbol is folded
    into the total record. *)
Theorem C10_foreign_trades_ignored (teamBonus : Q) (now : Z)
  (tradeData : TradeExecutionData) :
  (forall e : MakerEngine.Engine,
      te_symbol tradeData <> MakerEngine.symbol (MakerEngine.config e) ->
      MakerEngine.watchTrades teamBonus now tradeData e = (e, []))
  /\ (forall e : DepthImbalanceRetry.Engine,
      te_symbol tradeData <> symbol (DepthImbalanceRetry.config e) ->
      DepthImbalanceRetry.watchTrades teamBonus now tradeData e = (e, []))
  /\ (forall (Account : Type) (e : DepthImbalance.Engine Account),
      te_symbol tradeData <> symbol (DepthImbalance.config Account e) ->
      DepthImbalance.watchTrades Account teamBonus now tradeData e = (e, []))
  /\ (forall e : MakerEngine.Engine,
      te_symbol tradeData = MakerEngine.symbol (MakerEngine.config e) ->
      TradingStats.total
        (MakerEngine.tradingStats
           (fst (MakerEngine.watchTrades teamBonus now tradeData e)))
      = TradingStats.updateStatsWithRealTrade teamBonus
          (TradingStats.total (MakerEngine.tradingStats e))
          (toTradeData tradeData)).
Proof.
  repeat split.
  - intros e H. unfold MakerEngine.watchTrades.
    apply String.eqb_neq in H. now rewrite H.
  - intros e H. unfold DepthImbalanceRetry.watchTrades.
    apply String.eqb_neq in H. now rewrite H.
  - intros A e H. unfold DepthImbalance.watchTrades.
    apply String.eqb_neq in H. now rewrite H.
  - intros e H. unfold MakerEngine.watchTrades.
    apply String.eqb_eq in H. rewrite H.
    unfold MakerEngine.handleRealTrade, MakerEngine.emitUpdate. simpl.
    destruct (refreshHourly now
                (recordTrade teamBonus tradeData (MakerEngine.tradingStats e)))
      as [stats acts] eqn:E.
    simpl.
    change stats with (fst (stats, acts)). rewrite <- E.
    now rewrite refreshHourly_total.
Qed.

(** A fill on another symbol is ignored; the same fill on the engine's
    symbol is counted. *)
Example foreign_trade_run :
  let cfg := MakerEngine.mkMakerConfig "BTCUSDT" 1 0 0 (1 # 10) 5 1 500 in
  let e0 := MakerEngine.create cfg 1000 in
  let fill sym :=
    mkTradeExecutionData sym 7 9 100 2 200 (- (1 # 10)) "USDT" true 3 "BUY" 2000 in
  MakerEngine.watchTrades (11 # 10) 2000 (fill "ETHUSDT"%string) e0 = (e0, [])
  /\ TradingStats.makerOrderCount
       (TradingStats.total
          (MakerEngine.tradingStats
             (fst (MakerEngine.watchTrades (11 # 10) 2000 (fill "BTCUSDT"%string) e0))))
     = 1%Z.
Proof. vm_compute. split; reflexivity. Qed.

(** ** Traces *)

Lemma marketOrders_app a b :
  marketOrders (a ++ b) = marketOrders a ++ marketOrders b.
Proof.
  induction a as [ | x a IH ]; simpl; [ reflexivity | ].
  destruct x; simpl; now rewrite IH.
Qed.

Lemma marketCloses_app a b :
  marketCloses (a ++ b) = marketCloses a ++ marketCloses b.
Proof.
  induction a as [ | x a IH ]; simpl; [ reflexivity | ].
  destruct x; simpl; now rewrite IH.
Qed.

Lemma refreshHourly_no_orders now s :
  marketOrders (snd (refreshHourly now s)) = []
  /\ marketCloses (snd (refreshHourly now s)) = [].
Proof.
  unfold refreshHourly.
  destruct (TradingStats.shouldResetHourlyStats now (TradingStats.hourly s));
    simpl; auto.
Qed.

(** ** The symmetric maker engine *)

(** C4.  The desired orders of a symmetric-maker tick that sees both sides
    of the top of book.  Flat ([|positionAmt| < EPS]) and entries not
    blocked by the rate limiter: exactly a BUY at
    [roundDownToTick (topBid - bidOffset)] and a SELL at
    [roundDownToTick (topAsk + askOffset)], each for the configured trade
    amount and not reduce-only.  Flat and entries blocked: none.
    Positioned: exactly one reduce-only order for [|positionAmt|], a SELL
    (at the ask quote) when long and a BUY (at the bid quote) when short. *)
Theorem C4_maker_desired_orders (roundDownToTick : Q -> Q -> Q) (now : Z)
  (position : PositionSnapshot) (topBid topAsk : Q) (e : MakerEngine.Engine) :
  let cfg := MakerEngine.config e in
  let desired :=
    MakerEngine.desiredOrders
      (fst (MakerEngine.tickDesired roundDownToTick now position
              (Some topBid) (Some topAsk) e)) in
  let bidPrice :=
    roundDownToTick (topBid - MakerEngine.bidOffset cfg)
                    (MakerEngine.priceTick cfg) in
  let askPrice :=
    roundDownToTick (topAsk + MakerEngine.askOffset cfg)
                    (MakerEngine.priceTick cfg) in
  let absPosition := Qabs (positionAmt position) in
  (absPosition < EPS ->
   RateLimit.shouldBlockEntries (MakerEngine.rateLimit e) = false ->
   desired =
   [ MakerEngine.mkDesiredOrder BUY bidPrice (MakerEngine.tradeAmount cfg) false;
     MakerEngine.mkDesiredOrder SELL askPrice (MakerEngine.tradeAmount cfg) false ])
  /\ (absPosition < EPS ->
      RateLimit.shouldBlockEntries (MakerEngine.rateLimit e) = true ->
      desired = [])
  /\ (EPS <= absPosition -> 0 < positionAmt position ->
      desired = [ MakerEngine.mkDesiredOrder SELL askPrice absPosition true ])
  /\ (EPS <= absPosition -> positionAmt position < 0 ->
      desired = [ MakerEngine.mkDesiredOrder BUY bidPrice absPosition true ]).
Proof.
  unfold MakerEngine.tickDesired. cbv zeta.
  repeat split.
  - intros Hflat Hblock. apply Qltb_lt in Hflat. rewrite Hflat, Hblock.
    reflexivity.
  - intros Hflat Hblock. apply Qltb_lt in Hflat. rewrite Hflat, Hblock.
    reflexivity.
  - intros Hpos Hlong. apply Qltb_ge in Hpos. apply Qltb_lt in Hlong.
    rewrite Hpos, Hlong. reflexivity.
  - intros Hpos Hshort. apply Qltb_ge in Hpos.
    assert (Hn : Qltb 0 (positionAmt position) = false).
    { apply Qltb_ge. now apply Qlt_le_weak. }
    rewrite Hpos, Hn. reflexivity.
Qed.

(** The quoting example: best bid 100.00, best ask 100.20, no offsets and
    a tick of 0.1 give a buy at 100.0 and a sell at 100.2 when flat; a long
    position of 0.3 gives one reduce-only sell of 0.3. *)
Example maker_desired_run :
  let cfg := MakerEngine.mkMakerConfig "BTCUSDT" (1 # 100) 0 0 (1 # 10) 5 1 500 in
  let e0 := MakerEngine.create cfg 1000 in
  let flat := mkPosition 0 0 None in
  let long := mkPosition (3 # 10) 100 (Some 100) in
  let quotes p :=
    map (fun d => (MakerEngine.side d, Qred (MakerEngine.price d),
                   Qred (MakerEngine.amount d), MakerEngine.reduceOnly d))
        (MakerEngine.desiredOrders
           (fst (MakerEngine.tickDesired roundDownToTickFloor 2000 p
                   (Some 100) (Some (1002 # 10)) e0))) in
  quotes flat = [ (BUY, 100, 1 # 100, false); (SELL, 501 # 5, 1 # 100, false) ]
  /\ quotes long = [ (SELL, 501 # 5, 3 # 10, true) ].
Proof. vm_compute. split; reflexivity. Qed.

(** ** The depth-imbalance engine *)

Section DepthImbalanceFacts.

Variable Account : Type.
Variable getPosition : option Account -> string -> PositionSnapshot.
Variable getTopPrices : option Depth -> option Q * option Q.
Variable computePositionPnl : PositionSnapshot -> option Q -> option Q -> Q.
Variable teamBonus : Q.

Lemma emitUpdate_no_orders now (e : DepthImbalance.Engine Account) :
  marketOrders (snd (DepthImbalance.emitUpdate Account now e)) = []
  /\ marketCloses (snd (DepthImbalance.emitUpdate Account now e)) = [].
Proof.
  unfold DepthImbalance.emitUpdate.
  pose proof (refreshHourly_no_orders now (DepthImbalance.tradingStats Account e))
    as [Ho Hc].
  destruct (refreshHourly now (DepthImbalance.tradingStats Account e))
    as [stats acts].
  simpl in *. rewrite marketOrders_app, marketCloses_app, Ho, Hc. auto.
Qed.

Lemma checkStopLoss_flat position topBid topAsk closeReply (e : DepthImbalance.Engine Account) :
  Qabs (positionAmt position) < EPS ->
  DepthImbalance.checkStopLoss Account computePositionPnl position topBid
    topAsk closeReply e = (e, []).
Proof.
  intro H. unfold DepthImbalance.checkStopLoss.
  apply Qltb_lt in H. now rewrite H.
Qed.

Lemma entrySignal_dec cfg bidQty askQty :
  entrySignal cfg bidQty askQty \/ ~ entrySignal cfg bidQty askQty.
Proof.
  unfold entrySignal.
  destruct (Qlt_le_dec (Qmax bidQty askQty / Qmin bidQty askQty)
              (imbalanceRatio cfg)) as [Lr | Lr].
  - right. intros [_ H]. exact (Qlt_not_le _ _ Lr H).
  - destruct (Qlt_le_dec bidQty (minDepthQty cfg)) as [Lb | Lb];
      [ destruct (Qlt_le_dec askQty (minDepthQty cfg)) as [La | La] | ].
    + right. intros [[H | H] _];
        [ exact (Qlt_not_le _ _ Lb H) | exact (Qlt_not_le _ _ La H) ].
    + left. split; [ right; exact La | exact Lr ].
    + left. split; [ left; exact Lb | exact Lr ].
Qed.

Lemma checkEntryCondition_orders bidQty askQty topBid topAsk reply
  (e : DepthImbalance.Engine Account) :
  let acts :=
    snd (DepthImbalance.checkEntryCondition Account bidQty askQty topBid
           topAsk reply e) in
  (entrySignal (DepthImbalance.config Account e) bidQty askQty ->
   marketOrders acts = [(entrySide bidQty askQty, tradeAmount (DepthImbalance.config Account e))])
  /\ (~ entrySignal (DepthImbalance.config Account e) bidQty askQty -> marketOrders acts = []).
Proof.
  unfold DepthImbalance.checkEntryCondition, entrySignal, entrySide.
  cbv zeta.
  destruct (Qltb bidQty (minDepthQty (DepthImbalance.config Account e))) eqn:Eb;
    destruct (Qltb askQty (minDepthQty (DepthImbalance.config Account e))) eqn:Ea; simpl andb; cbv iota.
  1: { apply Qltb_lt in Eb, Ea. split; [ | reflexivity ].
       intros [[H | H] _]; exfalso;
         [ exact (Qlt_not_le _ _ Eb H) | exact (Qlt_not_le _ _ Ea H) ]. }
  all: destruct (Qltb (Qmax bidQty askQty / Qmin bidQty askQty)
                   (imbalanceRatio (DepthImbalance.config Account e))) eqn:Er.
  all: try (apply Qltb_lt in Er; split; [ | reflexivity ];
            intros [_ H]; exfalso; exact (Qlt_not_le _ _ Er H)).
  all: apply Qltb_ge in Er.
  all: assert (Hd : minDepthQty (DepthImbalance.config Account e) <= bidQty
                \/ minDepthQty (DepthImbalance.config Account e) <= askQty)
         by (first [ left; now apply Qltb_ge | right; now apply Qltb_ge ]).
  all: split; [ intros _ | intro Hn; exfalso; apply Hn; now split ].
  all: unfold DepthImbalance.marketEntry; destruct reply; simpl;
       destruct (Qltb askQty bidQty); reflexivity.
Qed.

Lemma cycle_flat_orders now entryReply exitReply stopReply (e : DepthImbalance.Engine Account) d
  topBid topAsk :
  DepthImbalance.accountSnapshot Account e <> None ->
  DepthImbalance.depthSnapshot Account e = Some d ->
  getTopPrices (Some d) = (Some topBid, Some topAsk) ->
  0 < firstQty (bids d) -> 0 < firstQty (asks d) ->
  Qabs (positionAmt (getPosition (DepthImbalance.accountSnapshot Account e)
                       (symbol (DepthImbalance.config Account e)))) < EPS ->
  marketOrders
    (snd (DepthImbalance.cycle Account getPosition getTopPrices
            computePositionPnl now entryReply exitReply stopReply e))
  = marketOrders
      (snd (DepthImbalance.checkEntryCondition Account (firstQty (bids d))
              (firstQty (asks d)) topBid topAsk entryReply e)).
Proof.
  intros Hacc Hd Htop Hb Ha Hflat.
  unfold DepthImbalance.cycle, DepthImbalance.isReady.
  rewrite Hd. destruct (DepthImbalance.accountSnapshot Account e) eqn:Eacc;
    [ | congruence ].
  simpl negb. cbv iota. rewrite Htop.
  apply Qle_bool_false in Hb, Ha. rewrite Hb, Ha. simpl orb. cbv iota.
  cbv zeta. pose proof Hflat as Hflat'. apply Qltb_lt in Hflat'.
  rewrite Hflat'.
  destruct (DepthImbalance.checkEntryCondition Account (firstQty (bids d))
              (firstQty (asks d)) topBid topAsk entryReply e)
    as [e1 acts1] eqn:E1.
  rewrite checkStopLoss_flat by exact Hflat.
  destruct (DepthImbalance.emitUpdate Account now e1) as [e3 acts3] eqn:E3.
  simpl. rewrite marketOrders_app.
  pose proof (emitUpdate_no_orders now e1) as [Ho _]. rewrite E3 in Ho.
  simpl in Ho. rewrite Ho. now rewrite app_nil_r.
Qed.

(** C5.  A tick of the depth-imbalance engine that runs (no tick in
    progress, the rate limiter says run, both snapshots present, both top
    prices present) on a flat position with positive first-level quantities
    requests a market entry order if and only if one of the two quantities
    is at least [minDepthQty] and the larger is at least [imbalanceRatio]
    times the smaller.  It then requests exactly one, for the configured
    trade amount: a BUY when the bid quantity is the larger, a SELL when
    the ask quantity is the larger. *)
Theorem C5_depth_imbalance_entry (now : Z) (entryReply : Reply)
  (exitReply stopReply : option EngineError) (e : DepthImbalance.Engine Account) (d : Depth)
  (topBid topAsk : Q) :
  DepthImbalance.processing Account e = false ->
  snd (RateLimit.beforeCycle (DepthImbalance.rateLimitOptions Account e) now
         (DepthImbalance.rateLimit Account e)) = RateLimit.Run ->
  DepthImbalance.accountSnapshot Account e <> None ->
  DepthImbalance.depthSnapshot Account e = Some d ->
  getTopPrices (Some d) = (Some topBid, Some topAsk) ->
  0 < firstQty (bids d) -> 0 < firstQty (asks d) ->
  Qabs (positionAmt (getPosition (DepthImbalance.accountSnapshot Account e)
                       (symbol (DepthImbalance.config Account e)))) < EPS ->
  let bidQty := firstQty (bids d) in
  let askQty := firstQty (asks d) in
  let orders :=
    marketOrders
      (snd (DepthImbalance.tick Account getPosition getTopPrices
              computePositionPnl now entryReply exitReply stopReply e)) in
  (orders <> [] <-> entrySignal (DepthImbalance.config Account e) bidQty askQty)
  /\ (entrySignal (DepthImbalance.config Account e) bidQty askQty ->
      exists side,
        orders = [(side, tradeAmount (DepthImbalance.config Account e))]
        /\ (askQty < bidQty -> side = BUY)
        /\ (bidQty < askQty -> side = SELL)).
Proof.
  intros Hproc Hrun Hacc Hd Htop Hb Ha Hflat bidQty askQty orders.
  assert (Horders :
    orders = marketOrders
      (snd (DepthImbalance.checkEntryCondition Account bidQty askQty topBid
              topAsk entryReply e))).
  { unfold orders, DepthImbalance.tick. rewrite Hproc.
    destruct (RateLimit.beforeCycle (DepthImbalance.rateLimitOptions Account
                (DepthImbalance.set_processing Account true e)) now
                (DepthImbalance.rateLimit Account
                   (DepthImbalance.set_processing Account true e)))
      as [rl decision] eqn:Erl.
    change (RateLimit.beforeCycle (DepthImbalance.rateLimitOptions Account e)
              now (DepthImbalance.rateLimit Account e) = (rl, decision)) in Erl.
    rewrite Erl in Hrun. simpl in Hrun. subst decision.
    set (e1 := DepthImbalance.set_rateLimit Account rl
                 (DepthImbalance.set_processing Account true e)).
    pose proof (cycle_flat_orders now entryReply exitReply stopReply e1 d
                  topBid topAsk Hacc Hd Htop Hb Ha Hflat) as Hc.
    destruct (DepthImbalance.cycle Account getPosition getTopPrices
                computePositionPnl now entryReply exitReply stopReply e1)
      as [e2 acts] eqn:Ec.
    simpl. simpl in Hc. rewrite Hc.
    pose proof (checkEntryCondition_orders bidQty askQty topBid topAsk
                  entryReply e1) as [P1 P2].
    pose proof (checkEntryCondition_orders bidQty askQty topBid topAsk
                  entryReply e) as [R1 R2].
    fold bidQty askQty.
    change (DepthImbalance.config Account e1) with (DepthImbalance.config Account e) in P1, P2.
    destruct (entrySignal_dec (DepthImbalance.config Account e) bidQty askQty)
      as [Hs | Hs].
    - now rewrite (P1 Hs), (R1 Hs).
    - now rewrite (P2 Hs), (R2 Hs). }
  pose proof (checkEntryCondition_orders bidQty askQty topBid topAsk
                entryReply e) as [R1 R2].
  cbv zeta in R1, R2. rewrite <- Horders in R1, R2.
  split; [ split | ].
  - intro Hne.
    destruct (entrySignal_dec (DepthImbalance.config Account e) bidQty askQty)
      as [Hs | Hs]; [ exact Hs | ].
    exfalso. apply Hne, R2, Hs.
  - intro Hs. rewrite (R1 Hs). discriminate.
  - intro Hs. exists (entrySide bidQty askQty).
    split; [ exact (R1 Hs) | ]. unfold entrySide. split.
    + intro H. apply Qltb_lt in H. now rewrite H.
    + intro H. assert (Hn : Qltb askQty bidQty = false).
      { apply Qltb_ge. now apply Qlt_le_weak. }
      now rewrite Hn.
Qed.

End DepthImbalanceFacts.

(** The entry example: 50 against 500 with [minDepthQty = 100] and
    [imbalanceRatio = 6] enters with one SELL for the configured amount. *)
Lemma C5_depth_imbalance_entry_witness :
  marketOrders
    (snd (DepthImbalance.tick unit sampleFlat sampleTopPrices
            (fun _ _ _ => 0) 1000 (Accepted 1) None None sampleEngine))
  = [(SELL, 1 # 100)].
Proof.
  pose proof
    (C5_depth_imbalance_entry unit sampleFlat sampleTopPrices
       (fun _ _ _ => 0) 1000 (Accepted 1) None None sampleEngine sampleDepth
       100 (501 # 5)
       eq_refl eq_refl
       (fun H : Some tt = None => eq_ind (Some tt)
          (fun o => match o with Some _ => True | None => False end) I None H)
       eq_refl eq_refl eq_refl eq_refl eq_refl) as [_ H].
  assert (Hs : entrySignal sampleConfig 50 500).
  { split; [ right; discriminate | discriminate ]. }
  destruct (H Hs) as [side [Ho [_ Hsell]]].
  rewrite Ho. rewrite (Hsell eq_refl). reflexivity.
Defined.

(** ** The margin-retry loop of the depth-imbalance engine *)

Lemma halvings_pow k x : halvings k x == x / 2 ^ Z.of_nat k.
Proof.
  revert x. induction k as [ | k IH ]; intro x.
  - simpl. field.
  - cbn [halvings]. rewrite IH.
    rewrite Nat2Z.inj_succ, <- Z.add_1_l.
    rewrite Qpower_plus by discriminate.
    change (2 ^ 1) with 2.
    field. apply Qpower_not_0. discriminate.
Qed.

Ltac no_order_facts :=
  constructor; simpl;
  [ reflexivity
  | intros s q []
  | intros [ | i] q H; discriminate H
  | intros [ | i] q H; discriminate H
  | left; reflexivity
  | reflexivity
  | intros; lia
  | intros; lia
  | ].

Lemma marketEntryLoop_facts side replies fuel :
  forall n a e,
    (DepthImbalanceRetry.maxRetryAttempts <= n + fuel)%nat ->
    exists e' acts r,
      DepthImbalanceRetry.marketEntryLoop fuel side replies n a e
      = Some (e', acts, r)
      /\ EntryFacts side replies n a e e' acts r.
Proof.
  induction fuel as [ | fuel IH ]; intros n a e Hfuel.
  - (* no pass is left: the loop condition already fails *)
    simpl.
    destruct (Nat.ltb_spec n DepthImbalanceRetry.maxRetryAttempts)
      as [Hn | Hn]; [ lia | ].
    exists e, [], (Some AttemptsExhaustedError). split; [ reflexivity | ].
    no_order_facts.
    intros k _. split; [ lia | ]. intros [H _]. lia.
  - cbn [DepthImbalanceRetry.marketEntryLoop].
    destruct (Nat.ltb_spec n DepthImbalanceRetry.maxRetryAttempts)
      as [Hn | Hn].
    2: { exists e, [], (Some AttemptsExhaustedError).
         split; [ reflexivity | ].
         no_order_facts.
         intros k _. split; [ lia | ]. intros [H _]. lia. }
    unfold DepthImbalanceRetry.attemptOrder.
    destruct (Qltb a (DepthImbalanceRetry.minTradeAmount e)) eqn:Emin.
    { (* below the floor before any order *)
      exists e, [TradeLogPush error], (Some MinAmountError).
      split; [ reflexivity | ].
      no_order_facts.
      intros k _. split; [ lia | ]. intros [_ H].
      apply Qltb_lt in Emin. specialize (H O (Nat.le_0_l k)). simpl in H.
      exfalso. exact (Qlt_not_le _ _ Emin H). }
    apply Qltb_ge in Emin.
    destruct (replies n) as [id | err] eqn:Ereply.
    { (* accepted *)
      exists (DepthImbalanceRetry.set_currentTradeAmount a e),
        [CreateMarketOrder side a; TradeLogPush order], None.
      split; [ reflexivity | ].
      constructor; simpl.
      + reflexivity.
      + intros s q [H | []]. congruence.
      + intros [ | [ | i]] q H; try discriminate H. now inversion H.
      + intros [ | [ | i]] q H; try discriminate H. inversion H. subst q.
        split; [ lia | exact Emin ].
      + right. exists O. split; [ lia | reflexivity ].
      + unfold isMarginRejection. rewrite Ereply. reflexivity.
      + intros k err Hk Hr. assert (k = O) by lia. subst k.
        rewrite Nat.add_0_r in Hr. congruence.
      + intros k id' Hk _. assert (k = O) by lia. subst k. auto.
      + intros k Hm. split.
        * intro Hk. assert (k = O) by lia. subst k. split; [ lia | ].
          intros j Hj. assert (j = O) by lia. subst j. exact Emin.
        * intros [_ _]. destruct k as [ | k]; [ lia | ].
          specialize (Hm O (Nat.lt_0_succ k)). rewrite Nat.add_0_r in Hm.
          unfold isMarginRejection in Hm. rewrite Ereply in Hm. discriminate. }
    simpl.
    destruct (isInsufficientMarginError err) eqn:Emargin.
    2: { (* any other error leaves the loop at once *)
      exists e, [CreateMarketOrder side a], (Some err).
      split; [ reflexivity | ].
      constructor; simpl.
      + reflexivity.
      + intros s q [H | []]. congruence.
      + intros [ | [ | i]] q H; try discriminate H. now inversion H.
      + intros [ | [ | i]] q H; try discriminate H. inversion H. subst q.
        split; [ lia | exact Emin ].
      + left. reflexivity.
      + unfold isMarginRejection. rewrite Ereply, Emargin. reflexivity.
      + intros k err' Hk Hr _. assert (k = O) by lia. subst k.
        rewrite Nat.add_0_r in Hr. split; [ reflexivity | ]. split; congruence.
      + intros k id' Hk Hr. assert (k = O) by lia. subst k.
        rewrite Nat.add_0_r in Hr. congruence.
      + intros k Hm. split.
        * intro Hk. assert (k = O) by lia. subst k. split; [ lia | ].
          intros j Hj. assert (j = O) by lia. subst j. exact Emin.
        * intros [_ _]. destruct k as [ | k]; [ lia | ].
          specialize (Hm O (Nat.lt_0_succ k)). rewrite Nat.add_0_r in Hm.
          unfold isMarginRejection in Hm. rewrite Ereply, Emargin in Hm.
          discriminate. }
    (* a margin rejection: halve and decide whether to go on *)
    set (e1 := DepthImbalanceRetry.set_currentLossLimit
                 (DepthImbalanceRetry.currentLossLimit e / 2) e).
    set (note := [TradeLogPush warn;
                  NotifyAmountAdjustment a (a / 2) (S n)
                    (DepthImbalanceRetry.currentLossLimit e)
                    (DepthImbalanceRetry.currentLossLimit e1)]).
    destruct ((S n <? DepthImbalanceRetry.maxRetryAttempts)%nat
              && Qgeb (a / 2) (DepthImbalanceRetry.minTradeAmount e1))
      eqn:Econt.
    + apply andb_true_iff in Econt. destruct Econt as [Hn1 Hfloor].
      apply Nat.ltb_lt in Hn1. apply Qgeb_ge in Hfloor.
      destruct (IH (S n) (a / 2) e1 ltac:(lia)) as (e' & acts' & r & -> & F).
      destruct F as [Fc Fs Fa Fb Fam Fl Fab Fac Fr].
      exists e', (([CreateMarketOrder side a] ++ note) ++ acts'), r.
      split; [ reflexivity | ].
      assert (Hq : attemptedAmounts (([CreateMarketOrder side a] ++ note) ++ acts')
                   = a :: attemptedAmounts acts') by reflexivity.
      constructor.
      * exact Fc.
      * intros s q [H | H]; [ congruence | eauto ].
      * rewrite Hq. intros [ | i] q H; [ now inversion H | ]. simpl in H.
        cbn [halvings]. auto.
      * rewrite Hq. intros [ | i] q H.
        { inversion H. subst q. split; [ lia | exact Emin ]. }
        simpl in H. destruct (Fb i q H) as [B1 B2].
        split; [ lia | exact B2 ].
      * rewrite Hq. destruct Fam as [H | (k & Hk & H)].
        { left. exact H. }
        right. exists (S k). split; [ simpl; lia | exact H ].
      * rewrite Hq. cbn [List.length marginRejections].
        unfold isMarginRejection at 1. rewrite Ereply, Emargin.
        cbn [Nat.add halvings]. exact Fl.
      * rewrite Hq. cbn [List.length]. intros [ | k] err' Hk Hr Hnm.
        { rewrite Nat.add_0_r in Hr. congruence. }
        rewrite <- Nat.add_succ_comm in Hr.
        destruct (Fab k err' ltac:(lia) Hr Hnm) as (H1 & H2 & H3). auto.
      * rewrite Hq. cbn [List.length]. intros [ | k] id Hk Hr.
        { rewrite Nat.add_0_r in Hr. congruence. }
        rewrite <- Nat.add_succ_comm in Hr.
        destruct (Fac k id ltac:(lia) Hr) as (H1 & H2 & H3). auto.
      * rewrite Hq. cbn [List.length]. intros [ | k] Hm.
        { split; [ intros _ | intros _; lia ]. split; [ lia | ].
          intros j Hj. assert (j = O) by lia. subst j. exact Emin. }
        assert (Hm' : forall i, (i < k)%nat ->
                       isMarginRejection (replies (S n + i)%nat) = true).
        { intros i Hi. rewrite Nat.add_succ_comm. apply Hm. lia. }
        specialize (Fr k Hm'). unfold retryAllowedFrom in *.
        change (DepthImbalanceRetry.minTradeAmount e1)
          with (DepthImbalanceRetry.minTradeAmount e) in Fr, Hfloor.
        split.
        -- intro Hk. apply Nat.succ_lt_mono in Hk. apply Fr in Hk.
           destruct Hk as [Hk1 Hk2]. split; [ lia | ].
           intros [ | j] Hj; [ exact Emin | ]. cbn [halvings]. apply Hk2. lia.
        -- intros [Hk1 Hk2]. apply -> Nat.succ_lt_mono. apply Fr.
           split; [ lia | ]. intros j Hj.
           specialize (Hk2 (S j) ltac:(lia)). exact Hk2.
    + (* no further attempt *)
      exists e1, ([CreateMarketOrder side a] ++ note), (Some err).
      split; [ reflexivity | ].
      constructor; simpl.
      * reflexivity.
      * intros s q [H | []]. congruence.
      * intros [ | [ | i]] q H; try discriminate H. now inversion H.
      * intros [ | [ | i]] q H; try discriminate H. inversion H. subst q.
        split; [ lia | exact Emin ].
      * left. reflexivity.
      * unfold isMarginRejection. rewrite Ereply, Emargin. reflexivity.
      * intros k err' Hk Hr Hnm. assert (k = O) by lia. subst k.
        rewrite Nat.add_0_r in Hr. congruence.
      * intros k id' Hk Hr. assert (k = O) by lia. subst k.
        rewrite Nat.add_0_r in Hr. congruence.
      * intros k Hm. unfold retryAllowedFrom. split.
        -- intro Hk. assert (k = O) by lia. subst k. split; [ lia | ].
           intros j Hj. assert (j = O) by lia. subst j. exact Emin.
        -- intros [Hk1 Hk2]. destruct k as [ | k]; [ lia | ]. exfalso.
           apply andb_false_iff in Econt. destruct Econt as [Hc | Hc].
           ++ apply Nat.ltb_ge in Hc. lia.
           ++ specialize (Hk2 1%nat ltac:(lia)). cbn [halvings] in Hk2.
              apply Qgeb_ge in Hk2.
              change (DepthImbalanceRetry.minTradeAmount e1)
                with (DepthImbalanceRetry.minTradeAmount e) in Hc.
              congruence.
Qed.

Lemma retryAllowed_halvings floor A k :
  retryAllowedFrom floor A 0 k <-> retryAllowed floor A k.
Proof.
  unfold retryAllowedFrom, retryAllowed. simpl.
  split; intros [H1 H2]; (split; [ exact H1 | ]); intros j Hj;
    specialize (H2 j Hj).
  - now rewrite <- halvings_pow.
  - now rewrite halvings_pow.
Qed.

Lemma retryAllowed_floor floor floor' A k :
  floor == floor' -> retryAllowed floor A k <-> retryAllowed floor' A k.
Proof.
  intro E. unfold retryAllowed.
  split; intros [H1 H2]; (split; [ exact H1 | ]); intros j Hj;
    specialize (H2 j Hj).
  - now rewrite <- E.
  - now rewrite E.
Qed.

Lemma halvings_le k x : 0 <= x -> 0 <= halvings k x /\ halvings k x <= x.
Proof.
  revert x. induction k as [ | k IH ]; intros x Hx; cbn [halvings].
  - split; [ exact Hx | apply Qle_refl ].
  - assert (H2 : 0 <= x / 2 /\ x / 2 <= x).
    { setoid_replace (x / 2) with (x * (1 # 2)) by field. split; lra. }
    destruct (IH (x / 2) (proj1 H2)) as [I1 I2].
    split; [ exact I1 | lra ].
Qed.

Lemma marketEntry_amountWithinConfig side replies e e' acts r :
  amountWithinConfig e ->
  DepthImbalanceRetry.marketEntry side replies e = Some (e', acts, r) ->
  amountWithinConfig e'.
Proof.
  unfold amountWithinConfig, DepthImbalanceRetry.marketEntry.
  intros Hinv Hrun.
  destruct (marketEntryLoop_facts side replies
              DepthImbalanceRetry.maxRetryAttempts O
              (DepthImbalanceRetry.currentTradeAmount e) e (Nat.le_refl _))
    as (e2 & acts2 & r2 & Hrun2 & F).
  rewrite Hrun in Hrun2. inversion Hrun2. subst e2 acts2 r2. clear Hrun2.
  destruct F as [Fc Fs Fa Fb Fam Fl Fab Fac Fr].
  rewrite Fc.
  destruct Fam as [-> | (k & Hk & ->)]; [ exact Hinv | ].
  set (A := DepthImbalanceRetry.currentTradeAmount e) in *.
  set (T := tradeAmount (DepthImbalanceRetry.config e)) in *.
  assert (H0 : T / 128 <= A).
  { destruct (attemptedAmounts acts) as [ | q0 rest] eqn:Eq;
      [ simpl in Hk; lia | ].
    destruct (Fb O q0 eq_refl) as [_ B].
    rewrite (Fa O q0 eq_refl) in B. exact B. }
  assert (Hpos : 0 <= A).
  { destruct (Qlt_le_dec A 0) as [Hneg | Hnn]; [ | exact Hnn ].
    exfalso. revert H0.
    setoid_replace (T / 128) with (T * (1 # 128)) by field. intro H0. lra. }
  destruct (halvings_le k A Hpos) as [_ Hle]. lra.
Qed.

Lemma reachable_amountWithinConfig computePositionPnl teamBonus e :
  DepthImbalanceRetry.Reachable computePositionPnl teamBonus e ->
  amountWithinConfig e.
Proof.
  induction 1 as
    [ cfg now
    | e side replies e' acts r _ IH Hrun
    | e bidQty askQty topBid topAsk replies e' acts _ IH Hrun
    | e position topBid topAsk closeReply _ IH
    | e position topBid topAsk closeReply _ IH
    | e now tradeData _ IH
    | e position bidQty askQty topBid topAsk closeReply _ IH
    | e now _ IH ].
  - apply Qle_refl.
  - eapply marketEntry_amountWithinConfig; eauto.
  - unfold DepthImbalanceRetry.checkEntryCondition in Hrun.
    destruct (_ && _); [ inversion Hrun; subst; exact IH | ].
    destruct (Qltb _ _); [ inversion Hrun; subst; exact IH | ].
    match type of Hrun with
    | context [DepthImbalanceRetry.marketEntry ?s ?rp ?x] =>
        pose proof (fun e2 a2 r2 =>
                      marketEntry_amountWithinConfig s rp x e2 a2 r2 IH) as P;
        destruct (DepthImbalanceRetry.marketEntry s rp x)
          as [[[e2 a2] [err | ]] | ]; inversion Hrun; subst;
          exact (P _ _ _ eq_refl)
    end.
  - unfold DepthImbalanceRetry.checkStopLoss, DepthImbalanceRetry.marketExit.
    cbv zeta. destruct (Qltb _ EPS); [ exact IH | ].
    destruct (Qle_bool _ _); [ | exact IH ].
    destruct closeReply; exact IH.
  - unfold DepthImbalanceRetry.marketExit.
    cbv zeta. destruct (Qltb _ EPS); [ exact IH | ].
    destruct closeReply; exact IH.
  - unfold DepthImbalanceRetry.watchTrades.
    destruct (String.eqb _ _); [ | exact IH ].
    unfold DepthImbalanceRetry.handleRealTrade, DepthImbalanceRetry.emitUpdate.
    cbv zeta. simpl.
    destruct (refreshHourly now _); exact IH.
  - unfold DepthImbalanceRetry.checkExitCondition. cbv zeta.
    match goal with
    | |- context [DepthImbalanceRetry.marketExit position ?tb ?ta ?r ?x] =>
        assert (Hx : amountWithinConfig x)
          by (destruct (DepthImbalanceRetry.positionSide e); exact IH);
        assert (Hexit :
                  amountWithinConfig
                    (fst (DepthImbalanceRetry.marketExit position tb ta r x)))
          by (unfold DepthImbalanceRetry.marketExit; cbv zeta;
              destruct (Qltb _ EPS); [ exact Hx | ];
              destruct r; exact Hx);
        destruct (DepthImbalanceRetry.marketExit position tb ta r x)
          as [e1 acts1]
    end.
    match goal with
    | |- context [if ?c then _ else _] => destruct c
    end; [ exact Hexit | exact Hx ].
  - unfold DepthImbalanceRetry.emitUpdate.
    destruct (refreshHourly now _); exact IH.
Qed.

Lemma reachable_invariant computePositionPnl teamBonus
  (P : DepthImbalanceRetry.Engine -> Prop) :
  (forall cfg now, P (DepthImbalanceRetry.create cfg now)) ->
  (forall side replies e e' acts r,
      P e ->
      DepthImbalanceRetry.marketEntry side replies e = Some (e', acts, r) ->
      P e') ->
  (forall e bidQty askQty ps,
      P e -> P (DepthImbalanceRetry.set_entry bidQty askQty ps e)) ->
  (forall e s, P e -> P (DepthImbalanceRetry.set_tradingStats s e)) ->
  forall e, DepthImbalanceRetry.Reachable computePositionPnl teamBonus e -> P e.
Proof.
  intros Hcreate Hentry Hset Hstats e Hreach.
  induction Hreach as
    [ cfg now
    | e side replies e' acts r _ IH Hrun
    | e bidQty askQty topBid topAsk replies e' acts _ IH Hrun
    | e position topBid topAsk closeReply _ IH
    | e position topBid topAsk closeReply _ IH
    | e now tradeData _ IH
    | e position bidQty askQty topBid topAsk closeReply _ IH
    | e now _ IH ].
  - apply Hcreate.
  - eapply Hentry; eauto.
  - unfold DepthImbalanceRetry.checkEntryCondition in Hrun.
    destruct (_ && _); [ inversion Hrun; subst; exact IH | ].
    destruct (Qltb _ _); [ inversion Hrun; subst; exact IH | ].
    match type of Hrun with
    | context [DepthImbalanceRetry.marketEntry ?s ?rp ?x] =>
        pose proof (fun e2 a2 r2 =>
                      Hentry s rp x e2 a2 r2 (Hset _ _ _ _ IH)) as P1;
        destruct (DepthImbalanceRetry.marketEntry s rp x)
          as [[[e2 a2] [err | ]] | ]; inversion Hrun; subst
    end.
    + apply Hset. exact (P1 _ _ _ eq_refl).
    + exact (P1 _ _ _ eq_refl).
  - unfold DepthImbalanceRetry.checkStopLoss, DepthImbalanceRetry.marketExit.
    cbv zeta. destruct (Qltb _ EPS); [ exact IH | ].
    destruct (Qle_bool _ _); [ | exact IH ].
    destruct closeReply; [ exact IH | apply Hset; exact IH ].
  - unfold DepthImbalanceRetry.marketExit.
    cbv zeta. destruct (Qltb _ EPS); [ exact IH | ].
    destruct closeReply; [ exact IH | apply Hset; exact IH ].
  - unfold DepthImbalanceRetry.watchTrades.
    destruct (String.eqb _ _); [ | exact IH ].
    unfold DepthImbalanceRetry.handleRealTrade, DepthImbalanceRetry.emitUpdate.
    cbv zeta.
    match goal with
    | |- context [refreshHourly now ?s] => destruct (refreshHourly now s)
    end.
    cbn [fst]. apply Hstats. apply (Hstats e _ IH).
  - unfold DepthImbalanceRetry.checkExitCondition. cbv zeta.
    match goal with
    | |- context [DepthImbalanceRetry.marketExit position ?tb ?ta ?r ?x] =>
        assert (Hx : P x)
          by (destruct (DepthImbalanceRetry.positionSide e);
              [ exact IH | apply Hset; exact IH ]);
        assert (Hexit :
                  P (fst (DepthImbalanceRetry.marketExit position tb ta r x)))
          by (unfold DepthImbalanceRetry.marketExit; cbv zeta;
              destruct (Qltb _ EPS); [ exact Hx | ];
              destruct r; [ exact Hx | apply Hset; exact Hx ]);
        destruct (DepthImbalanceRetry.marketExit position tb ta r x)
          as [e1 acts1]
    end.
    match goal with
    | |- context [if ?c then _ else _] => destruct c
    end; [ exact Hexit | exact Hx ].
  - unfold DepthImbalanceRetry.emitUpdate.
    match goal with
    | |- context [refreshHourly now ?s] => destruct (refreshHourly now s)
    end.
    cbn [fst]. apply Hstats. exact IH.
Qed.

Lemma halvings_halvings k m x : halvings k (halvings m x) = halvings (m + k) x.
Proof.
  revert x. induction m as [ | m IH ]; intro x; [ reflexivity | ].
  cbn [halvings Nat.add]. apply IH.
Qed.

Lemma reachable_lossLimit computePositionPnl teamBonus e :
  DepthImbalanceRetry.Reachable computePositionPnl teamBonus e ->
  exists m,
    DepthImbalanceRetry.currentLossLimit e
    = halvings m (lossLimit (DepthImbalanceRetry.config e)).
Proof.
  revert e. apply reachable_invariant.
  - intros cfg now. exists O. reflexivity.
  - intros side replies e e' acts r [m Hm] Hrun.
    unfold DepthImbalanceRetry.marketEntry in Hrun.
    destruct (marketEntryLoop_facts side replies
                DepthImbalanceRetry.maxRetryAttempts O
                (DepthImbalanceRetry.currentTradeAmount e) e (Nat.le_refl _))
      as (e2 & acts2 & r2 & Hrun2 & F).
    rewrite Hrun in Hrun2. inversion Hrun2. subst e2 acts2 r2. clear Hrun2.
    destruct F as [Fc Fs Fa Fb Fam Fl Fab Fac Fr].
    eexists. rewrite Fl, Fc, Hm. apply halvings_halvings.
  - intros e bidQty askQty ps H. exact H.
  - intros e s H. exact H.
Qed.

(** C2.  The stop-loss check on an open position
    ([|positionAmt| >= EPS]) calls [marketClose] -- through [marketExit],
    for the whole position on its closing side -- if and only if the PnL
    computed from the top of book is at most minus the loss limit in
    force: [config.lossLimit] in the first revision of the engine,
    [currentLossLimit] in the revision with the margin-retry loop, where
    it starts as [config.lossLimit] and is, in every state a run can reach,
    [config.lossLimit / 2^m] for some number [m] of halvings.  A PnL equal
    to minus the limit in force triggers the exit. *)
Theorem C2_stop_loss_trigger (Account : Type)
  (computePositionPnl : PositionSnapshot -> option Q -> option Q -> Q)
  (teamBonus : Q) (position : PositionSnapshot) (topBid topAsk : option Q)
  (closeReply : option EngineError)
  (e : DepthImbalance.Engine Account) (r : DepthImbalanceRetry.Engine) :
  EPS <= Qabs (positionAmt position) ->
  let pnl := computePositionPnl position topBid topAsk in
  let exits :=
    marketCloses
      (snd (DepthImbalance.checkStopLoss Account computePositionPnl position
              topBid topAsk closeReply e)) in
  let exits' :=
    marketCloses
      (snd (DepthImbalanceRetry.checkStopLoss computePositionPnl position
              topBid topAsk closeReply r)) in
  let close :=
    (if Qltb 0 (positionAmt position) then SELL else BUY,
     Qabs (positionAmt position),
     mkCloseGuard (markPrice position)
       (numberOrNull (if Qltb 0 (positionAmt position) then topBid else topAsk))) in
  (exits <> [] <-> pnl <= - lossLimit (DepthImbalance.config Account e))
  /\ (exits' <> [] <-> pnl <= - DepthImbalanceRetry.currentLossLimit r)
  /\ (pnl == - lossLimit (DepthImbalance.config Account e) -> exits = [close])
  /\ (pnl == - DepthImbalanceRetry.currentLossLimit r -> exits' = [close])
  /\ (forall cfg now,
        DepthImbalanceRetry.currentLossLimit (DepthImbalanceRetry.create cfg now)
        = lossLimit cfg)
  /\ (DepthImbalanceRetry.Reachable computePositionPnl teamBonus r ->
      exists m,
        DepthImbalanceRetry.currentLossLimit r
        == lossLimit (DepthImbalanceRetry.config r) / 2 ^ Z.of_nat m).
Proof.
  intros Hopen pnl exits exits' close.
  apply Qltb_ge in Hopen.
  assert (He : exits = if Qle_bool pnl (- lossLimit (DepthImbalance.config Account e))
                       then [close] else []).
  { unfold exits, close, DepthImbalance.checkStopLoss, DepthImbalance.marketExit.
    cbv zeta. rewrite Hopen. fold pnl.
    destruct (Qle_bool pnl (- lossLimit (DepthImbalance.config Account e)));
      [ | reflexivity ].
    destruct closeReply; destruct (Qltb 0 (positionAmt position)); reflexivity. }
  assert (Hr : exits' = if Qle_bool pnl (- DepthImbalanceRetry.currentLossLimit r)
                        then [close] else []).
  { unfold exits', close, DepthImbalanceRetry.checkStopLoss,
      DepthImbalanceRetry.marketExit.
    cbv zeta. rewrite Hopen. fold pnl.
    destruct (Qle_bool pnl (- DepthImbalanceRetry.currentLossLimit r));
      [ | reflexivity ].
    destruct closeReply; destruct (Qltb 0 (positionAmt position)); reflexivity. }
  rewrite He, Hr. clear He Hr.
  split; [ | split; [ | split; [ | split; [ | split ] ] ] ].
  - split.
    + destruct (Qle_bool pnl _) eqn:E;
        [ intros _; now apply Qle_bool_iff | intro H; now elim H ].
    + intro H. apply Qle_bool_iff in H. rewrite H. discriminate.
  - split.
    + destruct (Qle_bool pnl _) eqn:E;
        [ intros _; now apply Qle_bool_iff | intro H; now elim H ].
    + intro H. apply Qle_bool_iff in H. rewrite H. discriminate.
  - intro H.
    assert (Hle : Qle_bool pnl (- lossLimit (DepthImbalance.config Account e)) = true).
    { apply Qle_bool_iff. rewrite H. apply Qle_refl. }
    now rewrite Hle.
  - intro H.
    assert (Hle : Qle_bool pnl (- DepthImbalanceRetry.currentLossLimit r) = true).
    { apply Qle_bool_iff. rewrite H. apply Qle_refl. }
    now rewrite Hle.
  - reflexivity.
  - intro Hreach.
    destruct (reachable_lossLimit _ _ _ Hreach) as [m Hm].
    exists m. rewrite Hm. apply halvings_pow.
Qed.

(** The boundary on a long position of 1 with loss limit 5: a PnL of
    exactly -5 closes the position with a SELL of 1. *)
Lemma C2_stop_loss_trigger_witness :
  marketCloses
    (snd (DepthImbalance.checkStopLoss unit (fun _ _ _ => - (5))
            (mkPosition 1 100 (Some 95)) (Some 95) (Some (191 # 2)) None
            sampleEngine))
  = [(SELL, Qabs 1, mkCloseGuard (Some 95) (Some 95))].
Proof.
  exact (proj1 (proj2 (proj2
    (C2_stop_loss_trigger unit (fun _ _ _ => - (5)) (11 # 10)
       (mkPosition 1 100 (Some 95)) (Some 95) (Some (191 # 2)) None
       sampleEngine (DepthImbalanceRetry.create sampleConfig 0)
       (fun H : (EPS ?= Qabs 1) = Gt =>
          eq_ind Lt (fun c => match c with Lt => True | _ => False end) I Gt H))))
    (eq_refl : (- (5) == - (5))%Q)).
Defined.

(** The claim fails on the revision with the margin-retry loop once an
    entry has met a margin rejection.  The engine configured with a loss
    limit of 10 whose first entry was rejected once and then accepted holds
    a current loss limit of 5: a PnL of -7, which is above -10, closes the
    position. *)
Lemma C2_stop_loss_trigger_counterexample :
  let pnl := fun (_ : PositionSnapshot) (_ _ : option Q) => - (7) in
  let position := mkPosition 1 100 (Some 93) in
  DepthImbalanceRetry.Reachable pnl (11 # 10) reducedEngine
  /\ EPS <= Qabs (positionAmt position)
  /\ lossLimit (DepthImbalanceRetry.config reducedEngine) == 10
  /\ ~ pnl position (Some 93) (Some 94)
        <= - lossLimit (DepthImbalanceRetry.config reducedEngine)
  /\ marketCloses
       (snd (DepthImbalanceRetry.checkStopLoss pnl position (Some 93)
               (Some 94) None reducedEngine))
     = [(SELL, Qabs 1, mkCloseGuard (Some 93) (Some 93))].
Proof.
  split.
  { apply (DepthImbalanceRetry.Reach_marketEntry _ _
             (DepthImbalanceRetry.create retryConfig 0) BUY
             (fun n => match n with
                       | O => Rejected marginError
                       | _ => Accepted 1
                       end)
             reducedEngine
             [CreateMarketOrder BUY 128; TradeLogPush warn;
              NotifyAmountAdjustment 128 (128 / 2) 1 10 (10 / 2);
              CreateMarketOrder BUY (128 / 2); TradeLogPush order]
             None);
      [ apply DepthImbalanceRetry.Reach_create | reflexivity ]. }
  split; [ apply Qle_bool_iff; reflexivity | ].
  split; [ reflexivity | ].
  split; [ intro H; apply Qle_bool_iff in H; discriminate H | ].
  reflexivity.
Qed.

(** C3.  A market entry of an engine in any state its run can reach,
    starting with amount [A = currentTradeAmount], always comes back.
    The order attempted after [i] margin rejections is for [A / 2^i]; no
    order is attempted once 10 attempts were made or the amount is below
    [A / 128].  The loss limit left behind is the one found, halved once for
    every margin rejection received.  After [k] margin rejections in a row
    a further order is attempted exactly when fewer than 10 attempts were
    made and no amount so far, [A / 2^k] included, is below the floor
    [config.tradeAmount / 128] -- which is [A / 128] whenever the entry
    starts from the configured amount, as the first one does.  An error that
    is not an insufficient-margin error ends the entry with that error and
    no further order. *)
Theorem C3_margin_retry
  (computePositionPnl : PositionSnapshot -> option Q -> option Q -> Q)
  (teamBonus : Q) (side : Side) (replies : nat -> Reply)
  (e : DepthImbalanceRetry.Engine) :
  DepthImbalanceRetry.Reachable computePositionPnl teamBonus e ->
  let A := DepthImbalanceRetry.currentTradeAmount e in
  let L := DepthImbalanceRetry.currentLossLimit e in
  let T := tradeAmount (DepthImbalanceRetry.config e) in
  exists e' acts r,
    DepthImbalanceRetry.marketEntry side replies e = Some (e', acts, r)
    /\ (forall i q, nth_error (attemptedAmounts acts) i = Some q ->
          q == A / 2 ^ Z.of_nat i
          /\ (i < 10)%nat
          /\ ~ q < A / 128)
    /\ DepthImbalanceRetry.currentLossLimit e'
       == L / 2 ^ Z.of_nat
                 (marginRejections replies 0
                    (List.length (attemptedAmounts acts)))
    /\ (forall k,
          (forall i, (i < k)%nat -> isMarginRejection (replies i) = true) ->
          ((k < List.length (attemptedAmounts acts))%nat
           <-> retryAllowed (T / 128) A k)
          /\ (A == T ->
              ((k < List.length (attemptedAmounts acts))%nat
               <-> retryAllowed (A / 128) A k)))
    /\ (forall k err,
          (k < List.length (attemptedAmounts acts))%nat ->
          replies k = Rejected err ->
          isInsufficientMarginError err = false ->
          List.length (attemptedAmounts acts) = S k /\ r = Some err)
    /\ (forall cfg now,
          DepthImbalanceRetry.currentTradeAmount
            (DepthImbalanceRetry.create cfg now) = tradeAmount cfg).
Proof.
  intros Hreach A L T.
  pose proof (reachable_amountWithinConfig _ _ _ Hreach) as Hinv.
  unfold amountWithinConfig in Hinv. fold A T in Hinv.
  destruct (marketEntryLoop_facts side replies
              DepthImbalanceRetry.maxRetryAttempts O A e (Nat.le_refl _))
    as (e' & acts & r & Hrun & F).
  destruct F as [Fc Fs Fa Fb Fam Fl Fab Fac Fr].
  exists e', acts, r. split; [ exact Hrun | ].
  split; [ | split; [ | split; [ | split ] ] ].
  - intros i q H. destruct (Fb i q H) as [B1 B2].
    split; [ rewrite (Fa i q H); apply halvings_pow | ].
    split; [ exact B1 | ].
    intro Hlt. unfold DepthImbalanceRetry.minTradeAmount in B2. fold T in B2.
    revert B2 Hlt.
    setoid_replace (T / 128) with (T * (1 # 128)) by field.
    setoid_replace (A / 128) with (A * (1 # 128)) by field.
    intros B2 Hlt. lra.
  - rewrite Fl. apply halvings_pow.
  - intros k Hm.
    assert (Hex : (k < List.length (attemptedAmounts acts))%nat
                  <-> retryAllowed (T / 128) A k).
    { rewrite <- retryAllowed_halvings. apply Fr. exact Hm. }
    split; [ exact Hex | ].
    intro HAT. rewrite Hex. apply retryAllowed_floor. now rewrite HAT.
  - intros k err Hk Hr Hn.
    destruct (Fab k err Hk Hr Hn) as (H1 & H2 & _). auto.
  - reflexivity.
Qed.

(** The theorem on the first entry of an engine configured for 128, when
    every order is rejected for margin. *)
Lemma C3_margin_retry_witness :
  let e := DepthImbalanceRetry.create retryConfig 0 in
  let replies := fun _ : nat => Rejected marginError in
  exists e' acts r,
    DepthImbalanceRetry.marketEntry SELL replies e = Some (e', acts, r)
    /\ (forall i q, nth_error (attemptedAmounts acts) i = Some q ->
          q == 128 / 2 ^ Z.of_nat i /\ (i < 10)%nat /\ ~ q < 128 / 128)
    /\ DepthImbalanceRetry.currentLossLimit e'
       == 10 / 2 ^ Z.of_nat
                  (marginRejections replies 0
                     (List.length (attemptedAmounts acts)))
    /\ (forall k,
          (forall i, (i < k)%nat -> isMarginRejection (replies i) = true) ->
          ((k < List.length (attemptedAmounts acts))%nat
           <-> retryAllowed (128 / 128) 128 k)
          /\ (128 == 128 ->
              ((k < List.length (attemptedAmounts acts))%nat
               <-> retryAllowed (128 / 128) 128 k)))
    /\ (forall k err,
          (k < List.length (attemptedAmounts acts))%nat ->
          replies k = Rejected err ->
          isInsufficientMarginError err = false ->
          List.length (attemptedAmounts acts) = S k /\ r = Some err)
    /\ (forall cfg now,
          DepthImbalanceRetry.currentTradeAmount
            (DepthImbalanceRetry.create cfg now) = tradeAmount cfg).
Proof.
  exact (C3_margin_retry (fun _ _ _ => 0) (11 # 10) SELL
           (fun _ => Rejected marginError)
           (DepthImbalanceRetry.create retryConfig 0)
           (DepthImbalanceRetry.Reach_create (fun _ _ _ => 0) (11 # 10)
              retryConfig 0%Z)).
Defined.

(** The first entry of an engine configured for 128, every order rejected
    for margin: eight orders, from 128 down to the floor 1, and a loss limit
    halved eight times. *)
Example margin_retry_fresh_run :
  exists e' acts,
    DepthImbalanceRetry.marketEntry SELL (fun _ => Rejected marginError)
      (DepthImbalanceRetry.create retryConfig 0)
    = Some (e', acts, Some marginError)
    /\ map Qred (attemptedAmounts acts) = [128; 64; 32; 16; 8; 4; 2; 1]
    /\ Qred (DepthImbalanceRetry.currentLossLimit e') = 5 # 128.
Proof.
  eexists. eexists. split; [ vm_compute; reflexivity | ].
  split; vm_compute; reflexivity.
Qed.

(** A later entry keeps the floor of the configured amount.  An engine
    configured for 128 whose first entry was rejected once and accepted for
    64 starts its next entry with [A = 64]; with every order rejected for
    margin it attempts 64, 32, 16, 8, 4, 2, 1 and stops at the floor
    [128 / 128 = 1], one halving before [A / 128 = 1/2]. *)
Example margin_retry_reduced_run :
  DepthImbalanceRetry.marketEntry BUY
    (fun n => match n with O => Rejected marginError | _ => Accepted 1 end)
    (DepthImbalanceRetry.create retryConfig 0)
  = Some (reducedEngine,
          [CreateMarketOrder BUY 128; TradeLogPush warn;
           NotifyAmountAdjustment 128 (128 / 2) 1 10 (10 / 2);
           CreateMarketOrder BUY (128 / 2); TradeLogPush order],
          None)
  /\ exists e' acts,
       DepthImbalanceRetry.marketEntry BUY (fun _ => Rejected marginError)
         reducedEngine
       = Some (e', acts, Some marginError)
       /\ map Qred (attemptedAmounts acts) = [64; 32; 16; 8; 4; 2; 1].
Proof.
  split; [ reflexivity | ].
  eexists. eexists. split; [ vm_compute; reflexivity | ].
  vm_compute; reflexivity.
Qed.

(** The claim's floor fails on a later entry.  The engine configured for
    128 whose first entry was accepted for 64 starts its next entry with
    [A = 64].  With every order rejected for margin the claim's rule allows
    an eighth order, for [64 / 2^7 = 1/2 = A / 128], after seven rejections;
    the entry attempts seven orders and stops at [128 / 128 = 1]. *)
Lemma C3_margin_retry_counterexample :
  let replies := fun _ : nat => Rejected marginError in
  DepthImbalanceRetry.Reachable (fun _ _ _ => 0) (11 # 10) reducedEngine
  /\ DepthImbalanceRetry.currentTradeAmount reducedEngine == 64
  /\ (forall i, (i < 7)%nat -> isMarginRejection (replies i) = true)
  /\ retryAllowed (64 / 128) 64 7
  /\ exists e' acts,
       DepthImbalanceRetry.marketEntry BUY replies reducedEngine
       = Some (e', acts, Some marginError)
       /\ map Qred (attemptedAmounts acts) = [64; 32; 16; 8; 4; 2; 1]
       /\ List.length (attemptedAmounts acts) = 7%nat.
Proof.
  split.
  { apply (DepthImbalanceRetry.Reach_marketEntry _ _
             (DepthImbalanceRetry.create retryConfig 0) BUY
             (fun n => match n with
                       | O => Rejected marginError
                       | _ => Accepted 1
                       end)
             reducedEngine
             [CreateMarketOrder BUY 128; TradeLogPush warn;
              NotifyAmountAdjustment 128 (128 / 2) 1 10 (10 / 2);
              CreateMarketOrder BUY (128 / 2); TradeLogPush order]
             None);
      [ apply DepthImbalanceRetry.Reach_create | reflexivity ]. }
  split; [ reflexivity | ].
  split; [ intros i _; reflexivity | ].
  split.
  { split; [ unfold DepthImbalanceRetry.maxRetryAttempts; lia | ].
    intros j Hj.
    assert (Hc : (j = 0 \/ j = 1 \/ j = 2 \/ j = 3 \/ j = 4 \/ j = 5
                  \/ j = 6 \/ j = 7)%nat) by lia.
    destruct Hc as [-> | [-> | [-> | [-> | [-> | [-> | [-> | ->]]]]]]];
      apply Qle_bool_iff; reflexivity. }
  eexists. eexists. split; [ vm_compute; reflexivity | ].
  split; vm_compute; reflexivity.
Qed.

(** An error other than a margin rejection ends the entry after the order
    that met it: here the second, for half the amount. *)
Example margin_retry_abort_run :
  exists e' acts,
    DepthImbalanceRetry.marketEntry BUY
      (fun n => match n with
                | O => Rejected marginError
                | _ => Rejected (ExchangeError false true false)
                end)
      (DepthImbalanceRetry.create retryConfig 0)
    = Some (e', acts, Some (ExchangeError false true false))
    /\ map Qred (attemptedAmounts acts) = [128; 64].
Proof.
  eexists. eexists. split; [ vm_compute; reflexivity | ].
  vm_compute; reflexivity.
Qed.

(** * Further properties *)

(** ** The rate-limit controller: cadence, back-off and suppression *)

Lemma onCycleComplete_lastCycleAt opts now had c :
  RateLimit.lastCycleAt (RateLimit.onCycleComplete opts now had c)
  = RateLimit.lastCycleAt c.
Proof.
  destruct c as [st pu lc lr es lg].
  unfold RateLimit.onCycleComplete, RateLimit.clearStaleSuppression,
    RateLimit.recoverIfDue, RateLimit.allowEntries; simpl.
  destruct had, st, es; simpl; try reflexivity;
    repeat match goal with
           | |- context [if ?b then _ else _] => destruct b; simpl
           end; reflexivity.
Qed.

Lemma beforeCycle_run opts now c :
  snd (RateLimit.beforeCycle opts now c) = RateLimit.Run ->
  let c' := fst (RateLimit.beforeCycle opts now c) in
  RateLimit.state c' <> RateLimit.paused
  /\ RateLimit.lastCycleAt c' = now
  /\ (RateLimit.state c <> RateLimit.paused ->
      (RateLimit.currentInterval opts c <= now - RateLimit.lastCycleAt c)%Z)
  /\ (forall t, RateLimit.state c = RateLimit.paused ->
                RateLimit.pausedUntil c = Some t -> (t <= now)%Z).
Proof.
  destruct c as [st pu lc lr es lg].
  unfold RateLimit.beforeCycle, RateLimit.cycleGate, RateLimit.currentInterval;
    simpl.
  destruct st; simpl.
  - destruct (Z.ltb_spec (now - lc) (RateLimit.baseInterval opts)); simpl;
      [ discriminate | ].
    intros _. repeat split; try congruence; try lia.
  - destruct (Z.ltb_spec (now - lc) (RateLimit.baseInterval opts * 2)); simpl;
      [ discriminate | ].
    intros _. repeat split; try congruence; try lia.
  - destruct pu as [t | ]; simpl; [ | discriminate ].
    destruct (Z.leb_spec t now); simpl; [ | discriminate ].
    destruct (Z.ltb_spec (now - lc) (RateLimit.baseInterval opts * 2)); simpl;
      [ discriminate | ].
    intros _. repeat split; try congruence; try lia.
Qed.

(** X1.  The cadence of cycles.  When [beforeCycle] lets a cycle run at
    [t1], the cycle ends with [onCycleComplete], and [beforeCycle] lets the
    next cycle run at [t2], then [t2 - t1] is at least the interval in
    force at [t2]: the base interval in state normal, twice the base
    interval otherwise. *)
Theorem X1_cycle_cadence (opts : RateLimit.Options) (t1 tc t2 : Z)
  (hadRateLimit : bool) (c : RateLimit.Controller) :
  snd (RateLimit.beforeCycle opts t1 c) = RateLimit.Run ->
  let c1 := fst (RateLimit.beforeCycle opts t1 c) in
  let c2 := RateLimit.onCycleComplete opts tc hadRateLimit c1 in
  snd (RateLimit.beforeCycle opts t2 c2) = RateLimit.Run ->
  (RateLimit.currentInterval opts c2 <= t2 - t1)%Z
  /\ (RateLimit.state c2 = RateLimit.normal ->
      (RateLimit.baseInterval opts <= t2 - t1)%Z)
  /\ (RateLimit.state c2 <> RateLimit.normal ->
      (2 * RateLimit.baseInterval opts <= t2 - t1)%Z).
Proof.
  intros Hrun1 c1 c2 Hrun2.
  destruct (beforeCycle_run opts t1 c Hrun1) as (Hnp & Hlc & _).
  fold c1 in Hnp, Hlc.
  assert (Hnp2 : RateLimit.state c2 <> RateLimit.paused).
  { unfold c2. now apply onCycleComplete_not_paused. }
  destruct (beforeCycle_run opts t2 c2 Hrun2) as (_ & _ & Hgap & _).
  specialize (Hgap Hnp2).
  unfold c2 in Hgap at 2. rewrite onCycleComplete_lastCycleAt, Hlc in Hgap.
  split; [ exact Hgap | ].
  unfold RateLimit.currentInterval in Hgap.
  destruct (RateLimit.state c2); split; intros; try congruence; lia.
Qed.

Lemma X1_cycle_cadence_witness :
  let opts := RateLimit.defaultOptions 500 in
  let c1 := fst (RateLimit.beforeCycle opts 1000 RateLimit.init) in
  let c2 := RateLimit.onCycleComplete opts 1010 false c1 in
  (RateLimit.currentInterval opts c2 <= 1500 - 1000)%Z
  /\ (RateLimit.state c2 = RateLimit.normal ->
      (RateLimit.baseInterval opts <= 1500 - 1000)%Z)
  /\ (RateLimit.state c2 <> RateLimit.normal ->
      (2 * RateLimit.baseInterval opts <= 1500 - 1000)%Z).
Proof.
  exact (X1_cycle_cadence (RateLimit.defaultOptions 500) 1000 1010 1500 false
           RateLimit.init eq_refl eq_refl).
Defined.

(** X2.  Back-off after an overload.  [registerRateLimit] at time [t]
    stamps the last-rate-limit time and blocks entries, and the next
    [beforeCycle] does not let a cycle run before [t] plus twice the base
    interval when the controller was in state normal, nor before
    [t + pauseMs] when it was degraded or paused. *)
Theorem X2_backoff_after_rate_limit (opts : RateLimit.Options) (t now : Z)
  (source : option string) (c : RateLimit.Controller) :
  let c' := RateLimit.registerRateLimit opts t source c in
  RateLimit.lastRateLimitAt c' = t
  /\ RateLimit.shouldBlockEntries c' = true
  /\ (snd (RateLimit.beforeCycle opts now c') = RateLimit.Run ->
      (RateLimit.state c = RateLimit.normal ->
       (t + 2 * RateLimit.baseInterval opts <= now)%Z)
      /\ (RateLimit.state c <> RateLimit.normal ->
          (t + RateLimit.pauseMs opts <= now)%Z)).
Proof.
  intro c'. split; [ apply registerRateLimit_stamps | ]. split.
  - unfold c', RateLimit.registerRateLimit, RateLimit.shouldBlockEntries.
    cbv zeta. simpl.
    destruct (RateLimit.state c); simpl;
      match goal with
      | |- context [RateLimit.suppressEntries ?s ?x] =>
          destruct (suppressEntries_frame s x) as (_ & _ & _ & _ & ->)
      end; reflexivity.
  - intro Hrun.
    destruct (beforeCycle_run opts now c' Hrun) as (_ & _ & Hgap & Hwin).
    pose proof (registerRateLimit_state opts t source c) as Hst.
    cbv zeta in Hst. fold c' in Hst.
    destruct (RateLimit.state c) eqn:Es.
    + destruct Hst as [Hs _]. split; [ intros _ | congruence ].
      assert (Hlc : RateLimit.lastCycleAt c' = t).
      { unfold c', RateLimit.registerRateLimit. cbv zeta. simpl. rewrite Es.
        match goal with
        | |- context [RateLimit.suppressEntries ?s ?x] =>
            destruct (suppressEntries_frame s x) as (_ & _ & -> & _)
        end. reflexivity. }
      assert (Hnp : RateLimit.state c' <> RateLimit.paused) by congruence.
      specialize (Hgap Hnp). unfold RateLimit.currentInterval in Hgap.
      rewrite Hs, Hlc in Hgap. lia.
    + destruct Hst as [Hs Hu]. split; [ congruence | intros _ ].
      exact (Hwin _ Hs Hu).
    + destruct Hst as [Hs Hu]. split; [ congruence | intros _ ].
      exact (Hwin _ Hs Hu).
Qed.

Lemma step_suppressedWhenLimited opts c o :
  suppressedWhenLimited c ->
  suppressedWhenLimited (RateLimit.step opts c o).
Proof.
  unfold suppressedWhenLimited.
  destruct c as [st pu lc lr es lg]. simpl. intros [H1 H2].
  destruct o as [now | now source | now had]; simpl.
  - unfold RateLimit.beforeCycle, RateLimit.cycleGate,
      RateLimit.currentInterval; simpl.
    destruct st; simpl;
      repeat match goal with
             | |- context [match ?x with Some _ => _ | None => _ end] =>
                 destruct x; simpl
             | |- context [if ?b then _ else _] => destruct b; simpl
             end; split; intros; try congruence; auto;
      try (apply H2; congruence).
  - unfold RateLimit.registerRateLimit, RateLimit.suppressEntries; simpl.
    destruct st, es; simpl; split; intros; congruence.
  - unfold RateLimit.onCycleComplete, RateLimit.clearStaleSuppression,
      RateLimit.recoverIfDue, RateLimit.allowEntries; simpl.
    destruct had; simpl; [ split; assumption | ].
    destruct st, es; simpl;
      repeat match goal with
             | |- context [if ?b then _ else _] => destruct b; simpl
             end; split; intros; try congruence; auto;
      try (exfalso; assert (false = true) by (apply H2; congruence);
           discriminate).
Qed.

(** X3.  On every run of operations from the initial controller, entries
    are suppressed exactly when the state is not normal; hence
    [shouldBlockEntries] answers whether the state is not normal. *)
Theorem X3_entries_blocked_iff_limited (opts : RateLimit.Options)
  (ops : list RateLimit.Op) :
  let c := RateLimit.runOps opts RateLimit.init ops in
  (RateLimit.entriesSuppressed c = true
   <-> RateLimit.state c <> RateLimit.normal)
  /\ (RateLimit.shouldBlockEntries c = true
      <-> RateLimit.state c <> RateLimit.normal).
Proof.
  intro c.
  assert (H : suppressedWhenLimited c).
  { unfold c, RateLimit.runOps.
    assert (G : forall l c0, suppressedWhenLimited c0 ->
                  suppressedWhenLimited (fold_left (RateLimit.step opts) l c0)).
    { induction l as [ | o l IH ]; intros c0 H0; simpl; [ exact H0 | ].
      apply IH. now apply step_suppressedWhenLimited. }
    apply G. unfold suppressedWhenLimited. simpl.
    split; [ discriminate | intro H; now elim H ]. }
  split; [ exact H | ].
  unfold suppressedWhenLimited in H. unfold RateLimit.shouldBlockEntries.
  destruct H as [H1 H2].
  destruct (RateLimit.entriesSuppressed c), (RateLimit.state c); simpl;
    split; intro X;
    first [ reflexivity | discriminate | congruence
          | apply H1; reflexivity | apply H2; congruence ].
Qed.

(** ** Trading statistics: accumulation, the two rates, repeated reads *)

Lemma updateStats_pointsRate teamBonus stats trades :
  trades <> [] ->
  let s := fold_left (TradingStats.updateStatsWithRealTrade teamBonus)
                     trades stats in
  TradingStats.pointsRate s
  = TradingStats.calculatePointsRate teamBonus (TradingStats.totalFees s)
      (TradingStats.totalPnl s) (TradingStats.totalVolume s).
Proof.
  revert stats. induction trades as [ | t rest IH ]; intros stats Hne;
    [ now elim Hne | ].
  destruct rest as [ | t' rest' ]; [ reflexivity | ].
  apply (IH (TradingStats.updateStatsWithRealTrade teamBonus stats t)).
  discriminate.
Qed.

(** X4.  Folding a list of trades into a statistics record adds the number
    of maker fills to the maker count and the number of taker fills to the
    taker count, adds the commissions, realised PnLs and volumes to the
    three totals, keeps the start time, and -- when there is at least one
    trade -- leaves the points rate equal to [calculatePointsRate] of the
    new totals. *)
Theorem X4_stats_accumulate (teamBonus : Q) (stats : TradingStats.TradingStats)
  (trades : list TradingStats.TradeData) :
  let s := fold_left (TradingStats.updateStatsWithRealTrade teamBonus)
                     trades stats in
  TradingStats.makerOrderCount s
  = (TradingStats.makerOrderCount stats + makerTrades trades)%Z
  /\ TradingStats.takerOrderCount s
     = (TradingStats.takerOrderCount stats + takerTrades trades)%Z
  /\ TradingStats.totalFees s
     == TradingStats.totalFees stats + sumOver TradingStats.commission trades
  /\ TradingStats.totalPnl s
     == TradingStats.totalPnl stats + sumOver TradingStats.realizedPnl trades
  /\ TradingStats.totalVolume s
     == TradingStats.totalVolume stats + sumOver TradingStats.volume trades
  /\ TradingStats.startTime s = TradingStats.startTime stats
  /\ (trades <> [] ->
      TradingStats.pointsRate s
      = TradingStats.calculatePointsRate teamBonus (TradingStats.totalFees s)
          (TradingStats.totalPnl s) (TradingStats.totalVolume s)).
Proof.
  cbv zeta.
  split; [ | split; [ | split; [ | split; [ | split; [ | split ] ] ] ] ];
    try (intro Hne; now apply updateStats_pointsRate);
    revert stats; induction trades as [ | t rest IH ]; intro stats;
    cbn [fold_left]; unfold makerTrades, takerTrades in *;
    cbn [sumOver fold_right filter].
  - simpl. lia.
  - rewrite IH. unfold TradingStats.updateStatsWithRealTrade.
    destruct (TradingStats.isMaker t); cbn [TradingStats.makerOrderCount];
      cbn [List.length]; lia.
  - simpl. lia.
  - rewrite IH. unfold TradingStats.updateStatsWithRealTrade.
    destruct (TradingStats.isMaker t); cbn [TradingStats.takerOrderCount negb];
      cbn [List.length]; lia.
  - ring.
  - rewrite IH. unfold TradingStats.updateStatsWithRealTrade.
    cbn [TradingStats.totalFees]. fold (sumOver TradingStats.commission rest).
    ring.
  - ring.
  - rewrite IH. unfold TradingStats.updateStatsWithRealTrade.
    cbn [TradingStats.totalPnl]. fold (sumOver TradingStats.realizedPnl rest).
    ring.
  - ring.
  - rewrite IH. unfold TradingStats.updateStatsWithRealTrade.
    cbn [TradingStats.totalVolume]. fold (sumOver TradingStats.volume rest).
    ring.
  - reflexivity.
  - rewrite IH. reflexivity.
Qed.

(** X5.  How the two points-rate formulas relate on a positive volume and a
    non-zero team bonus: when nothing was gained ([pnl <= 0]) the team-bonus
    rate is the unadjusted rate times [2 / teamBonus]; when something was
    gained it is the unadjusted rate less [pnl / volume * 10000], times
    [2 / teamBonus]. *)
Theorem X5_points_rate_relation (teamBonus fees pnl volume : Q) :
  0 < volume -> ~ teamBonus == 0 ->
  (pnl <= 0 ->
   TradingStats.calculatePointsRate teamBonus fees pnl volume
   == TradingStatsPlain.calculatePointsRate fees pnl volume * (2 / teamBonus))
  /\ (0 < pnl ->
      TradingStats.calculatePointsRate teamBonus fees pnl volume
      == (TradingStatsPlain.calculatePointsRate fees pnl volume
          - pnl / volume * 10000) * (2 / teamBonus)).
Proof.
  intros Hv Hb.
  assert (Hv0 : ~ volume == 0).
  { intro E. rewrite E in Hv. discriminate Hv. }
  unfold TradingStats.calculatePointsRate, TradingStatsPlain.calculatePointsRate.
  pose proof Hv as Hvb. apply Qle_bool_false in Hvb. rewrite Hvb. cbv zeta.
  split; intro Hp.
  - destruct (Qltb pnl 0) eqn:E.
    + rewrite (Qabs_neg pnl Hp). field. auto.
    + apply Qltb_ge in E.
      assert (E0 : pnl == 0) by (apply Qle_antisym; assumption).
      rewrite E0. field. auto.
  - assert (E : Qltb pnl 0 = false).
    { apply Qltb_ge. now apply Qlt_le_weak. }
    rewrite E. field. auto.
Qed.

Lemma X5_points_rate_relation_witness :
  (- (1) <= 0 ->
   TradingStats.calculatePointsRate (11 # 10) 2 (- (1)) 1000
   == TradingStatsPlain.calculatePointsRate 2 (- (1)) 1000 * (2 / (11 # 10)))
  /\ (0 < - (1) ->
      TradingStats.calculatePointsRate (11 # 10) 2 (- (1)) 1000
      == (TradingStatsPlain.calculatePointsRate 2 (- (1)) 1000
          - - (1) / 1000 * 10000) * (2 / (11 # 10))).
Proof.
  apply (X5_points_rate_relation (11 # 10) 2 (- (1)) 1000);
    [ reflexivity | discriminate ].
Defined.

(** X6.  Two reads of the snapshot less than an hour apart export the
    hourly record at most once: if the first read resets the window, the
    second finds it fresh. *)
Theorem X6_snapshot_reads_export_once (now now' : Z) (e : MakerEngine.Engine) :
  (now' - now < TradingStats.oneHour)%Z ->
  let r1 := MakerEngine.getSnapshot now e in
  let r2 := MakerEngine.getSnapshot now' (fst (fst r1)) in
  (snd r1 <> [] -> snd r2 = [])
  /\ (List.length (snd r1 ++ snd r2) <= 1)%nat.
Proof.
  intros Hgap. unfold MakerEngine.getSnapshot, refreshHourly.
  destruct (TradingStats.shouldResetHourlyStats now
              (TradingStats.hourly (MakerEngine.tradingStats e))) eqn:E1;
    simpl.
  - unfold TradingStats.shouldResetHourlyStats at 1 2. simpl.
    destruct (Z.leb_spec TradingStats.oneHour (now' - now)); [ lia | ].
    simpl. split; [ reflexivity | lia ].
  - destruct (TradingStats.shouldResetHourlyStats now'
                (TradingStats.hourly (MakerEngine.tradingStats e))); simpl;
      (split; [ intro H; now elim H | lia ]).
Qed.

Lemma X6_snapshot_reads_export_once_witness :
  let e := MakerEngine.create
             (MakerEngine.mkMakerConfig "BTCUSDT" 1 0 0 (1 # 10) 5 1 500) 0 in
  let r1 := MakerEngine.getSnapshot 3600000 e in
  let r2 := MakerEngine.getSnapshot 3600000 (fst (fst r1)) in
  (snd r1 <> [] -> snd r2 = [])
  /\ (List.length (snd r1 ++ snd r2) <= 1)%nat.
Proof.
  exact (X6_snapshot_reads_export_once 3600000 3600000
           (MakerEngine.create
              (MakerEngine.mkMakerConfig "BTCUSDT" 1 0 0 (1 # 10) 5 1 500) 0)
           eq_refl).
Defined.

Lemma refreshHourly_within now s :
  hourlyWithinTotal s -> hourlyWithinTotal (fst (refreshHourly now s)).
Proof.
  unfold refreshHourly, hourlyWithinTotal.
  destruct (TradingStats.shouldResetHourlyStats now (TradingStats.hourly s));
    simpl; lia.
Qed.

Lemma statsStep_facts teamBonus e ev :
  let e' := statsStep teamBonus e ev in
  let sym := MakerEngine.symbol (MakerEngine.config e) in
  MakerEngine.config e' = MakerEngine.config e
  /\ TradingStats.makerOrderCount (TradingStats.total (MakerEngine.tradingStats e'))
     = (TradingStats.makerOrderCount
          (TradingStats.total (MakerEngine.tradingStats e))
        + fillsOf sym true [ev])%Z
  /\ TradingStats.takerOrderCount (TradingStats.total (MakerEngine.tradingStats e'))
     = (TradingStats.takerOrderCount
          (TradingStats.total (MakerEngine.tradingStats e))
        + fillsOf sym false [ev])%Z
  /\ (hourlyWithinTotal (MakerEngine.tradingStats e) ->
      hourlyWithinTotal (MakerEngine.tradingStats e')).
Proof.
  destruct ev as [now td | now]; cbn [statsStep]; unfold fillsOf;
    cbn [filter].
  - unfold MakerEngine.watchTrades.
    destruct (String.eqb (te_symbol td)
                (MakerEngine.symbol (MakerEngine.config e))) eqn:Esym;
      cbn [andb fst].
    2: { simpl. split; [ reflexivity | ]. split; [ lia | ].
         split; [ lia | auto ]. }
    unfold MakerEngine.handleRealTrade, MakerEngine.emitUpdate.
    cbn [MakerEngine.tradingStats MakerEngine.set_tradingStats].
    set (s1 := recordTrade teamBonus td (MakerEngine.tradingStats e)).
    pose proof (refreshHourly_total now s1) as Ht.
    pose proof (refreshHourly_within now s1) as Hw.
    destruct (refreshHourly now s1) as [s2 acts]. simpl in Ht, Hw. simpl.
    rewrite Ht. unfold s1, recordTrade, toTradeData.
    cbn [TradingStats.total TradingStats.updateStatsWithRealTrade
         TradingStats.isMaker TradingStats.makerOrderCount
         TradingStats.takerOrderCount].
    destruct (te_isMaker td) eqn:Em; cbn [Bool.eqb List.length];
      (split; [ reflexivity | ]); (split; [ lia | ]); (split; [ lia | ]);
      intro H; apply Hw; clear Hw Ht;
      unfold s1, hourlyWithinTotal, recordTrade, toTradeData,
        TradingStats.updateHourlyWithRealTrade,
        TradingStats.updateStatsWithRealTrade in *;
      cbn in *; rewrite ?Em; cbn; lia.
  - unfold MakerEngine.getSnapshot.
    pose proof (refreshHourly_total now (MakerEngine.tradingStats e)) as Ht.
    pose proof (refreshHourly_within now (MakerEngine.tradingStats e)) as Hw.
    destruct (refreshHourly now (MakerEngine.tradingStats e)) as [s2 acts].
    simpl in *. rewrite Ht. split; [ reflexivity | ]. split; [ lia | ].
    split; [ lia | exact Hw ].
Qed.

Lemma fillsOf_app sym maker evs evs' :
  fillsOf sym maker (evs ++ evs')
  = (fillsOf sym maker evs + fillsOf sym maker evs')%Z.
Proof.
  unfold fillsOf. rewrite filter_app, length_app. lia.
Qed.

(** X7.  On every run of trade pushes and snapshot reads of a maker engine,
    the total maker and taker counts are the numbers of maker and taker
    fills pushed for the configured symbol, and the hourly counts lie
    between zero and the total counts. *)
Theorem X7_stats_run (teamBonus : Q) (cfg : MakerEngine.MakerConfig)
  (t0 : Z) (evs : list StatsEvent) :
  let e := statsRun teamBonus (MakerEngine.create cfg t0) evs in
  let s := MakerEngine.tradingStats e in
  TradingStats.makerOrderCount (TradingStats.total s)
  = fillsOf (MakerEngine.symbol cfg) true evs
  /\ TradingStats.takerOrderCount (TradingStats.total s)
     = fillsOf (MakerEngine.symbol cfg) false evs
  /\ hourlyWithinTotal s.
Proof.
  cbv zeta.
  assert (G : MakerEngine.config (statsRun teamBonus (MakerEngine.create cfg t0) evs)
              = cfg
              /\ TradingStats.makerOrderCount
                   (TradingStats.total
                      (MakerEngine.tradingStats
                         (statsRun teamBonus (MakerEngine.create cfg t0) evs)))
                 = fillsOf (MakerEngine.symbol cfg) true evs
              /\ TradingStats.takerOrderCount
                   (TradingStats.total
                      (MakerEngine.tradingStats
                         (statsRun teamBonus (MakerEngine.create cfg t0) evs)))
                 = fillsOf (MakerEngine.symbol cfg) false evs
              /\ hourlyWithinTotal
                   (MakerEngine.tradingStats
                      (statsRun teamBonus (MakerEngine.create cfg t0) evs))).
  { induction evs as [ | ev evs IH ] using rev_ind.
    - simpl. unfold hourlyWithinTotal. simpl. repeat split; lia.
    - unfold statsRun in *. rewrite fold_left_app. cbn [fold_left].
      destruct IH as (Hc & Hm & Ht & Hw).
      destruct (statsStep_facts teamBonus
                  (fold_left (statsStep teamBonus) evs
                     (MakerEngine.create cfg t0)) ev)
        as (Fc & Fm & Ft & Fw).
      rewrite Hc in Fc, Fm, Ft. rewrite !fillsOf_app.
      split; [ exact Fc | ]. split; [ congruence | ].
      split; [ congruence | auto ]. }
  tauto.
Qed.

(** ** Session volume *)

Lemma last_cons_default {A : Type} (l : list A) :
  forall x d, last (x :: l) d = last l x.
Proof.
  induction l as [ | a l IH ]; intros x d; [ reflexivity | ].
  change (last (x :: a :: l) d) with (last (a :: l) d).
  rewrite (IH a d). symmetry. apply IH.
Qed.

Lemma updates_app us us' s :
  SessionVolume.updates (us ++ us') s
  = SessionVolume.updates us' (SessionVolume.updates us s).
Proof. unfold SessionVolume.updates. apply fold_left_app. Qed.

(** X8.  Once the first account push has initialised it, the session
    volume grows, over any sequence of pushes at a reference price [price],
    by [price] times the length of the path the position amount takes; the
    last amount seen is remembered.  The first push itself only records the
    amount. *)
Theorem X8_session_volume_path (price : Q) (positions : list PositionSnapshot)
  (s : SessionVolume.State) :
  SessionVolume.initializedPosition s = true ->
  let s' :=
    SessionVolume.updates (map (fun p => (Some price, p)) positions) s in
  SessionVolume.sessionQuoteVolume s'
  == SessionVolume.sessionQuoteVolume s
     + price * pathLength (SessionVolume.prevPositionAmt s) positions
  /\ SessionVolume.prevPositionAmt s'
     = last (map positionAmt positions) (SessionVolume.prevPositionAmt s)
  /\ SessionVolume.initializedPosition s' = true
  /\ (forall anyPrice p,
        SessionVolume.updateSessionVolume anyPrice p SessionVolume.init
        = SessionVolume.mkState 0 (positionAmt p) true).
Proof.
  intros Hinit. cbv zeta.
  split; [ | split; [ | split; [ | reflexivity ] ] ];
    revert s Hinit; induction positions as [ | p rest IH ]; intros s Hinit;
    cbn [map pathLength]; unfold SessionVolume.updates in *;
    cbn [fold_left fst snd].
  - ring.
  - set (s1 := SessionVolume.updateSessionVolume (Some price) p s).
    assert (H1 : SessionVolume.initializedPosition s1 = true
                 /\ SessionVolume.prevPositionAmt s1 = positionAmt p
                 /\ SessionVolume.sessionQuoteVolume s1
                    == SessionVolume.sessionQuoteVolume s
                       + price * Qabs (positionAmt p
                                       - SessionVolume.prevPositionAmt s)).
    { unfold s1, SessionVolume.updateSessionVolume. rewrite Hinit.
      cbn [negb]. cbv zeta. cbn [SessionVolume.sessionQuoteVolume SessionVolume.prevPositionAmt SessionVolume.initializedPosition]. split; [ reflexivity | ].
      split; [ reflexivity | ].
      destruct (Qltb 0 (Qabs (positionAmt p - SessionVolume.prevPositionAmt s)))
        eqn:E; [ ring | ].
      apply Qltb_ge in E.
      assert (E0 : Qabs (positionAmt p - SessionVolume.prevPositionAmt s) == 0)
        by (apply Qle_antisym; [ exact E | apply Qabs_nonneg ]).
      rewrite E0. ring. }
    destruct H1 as (I1 & P1 & V1).
    rewrite (IH s1 I1), V1, P1. ring.
  - reflexivity.
  - set (s1 := SessionVolume.updateSessionVolume (Some price) p s).
    assert (H1 : SessionVolume.initializedPosition s1 = true
                 /\ SessionVolume.prevPositionAmt s1 = positionAmt p).
    { unfold s1, SessionVolume.updateSessionVolume. rewrite Hinit.
      cbn [negb SessionVolume.prevPositionAmt SessionVolume.initializedPosition].
      split; reflexivity. }
    destruct H1 as (I1 & P1).
    rewrite (IH s1 I1), P1. symmetry. apply last_cons_default.
  - exact Hinit.
  - apply IH. unfold SessionVolume.updateSessionVolume. rewrite Hinit.
    reflexivity.
Qed.

Lemma X8_session_volume_path_witness :
  let s := SessionVolume.mkState 0 0 true in
  let positions := [ mkPosition 2 100 None; mkPosition (- (1)) 100 None ] in
  let s' := SessionVolume.updates (map (fun p => (Some 100, p)) positions) s in
  SessionVolume.sessionQuoteVolume s'
  == SessionVolume.sessionQuoteVolume s
     + 100 * pathLength (SessionVolume.prevPositionAmt s) positions
  /\ SessionVolume.prevPositionAmt s'
     = last (map positionAmt positions) (SessionVolume.prevPositionAmt s)
  /\ SessionVolume.initializedPosition s' = true
  /\ (forall anyPrice p,
        SessionVolume.updateSessionVolume anyPrice p SessionVolume.init
        = SessionVolume.mkState 0 (positionAmt p) true).
Proof.
  exact (X8_session_volume_path 100
           [ mkPosition 2 100 None; mkPosition (- (1)) 100 None ]
           (SessionVolume.mkState 0 0 true) eq_refl).
Defined.

Lemma updateSessionVolume_monotone price p s :
  match price with Some x => 0 <= x | None => True end ->
  SessionVolume.sessionQuoteVolume s
  <= SessionVolume.sessionQuoteVolume
       (SessionVolume.updateSessionVolume price p s).
Proof.
  intro Hp. unfold SessionVolume.updateSessionVolume.
  destruct (SessionVolume.initializedPosition s);
    cbn [negb SessionVolume.sessionQuoteVolume]; [ | apply Qle_refl ].
  destruct price as [x | ]; cbn [SessionVolume.sessionQuoteVolume];
    [ | apply Qle_refl ].
  cbv zeta. cbn [SessionVolume.sessionQuoteVolume].
  destruct (Qltb 0 (Qabs (positionAmt p - SessionVolume.prevPositionAmt s)))
    eqn:E; [ | apply Qle_refl ].
  apply Qltb_lt in E.
  assert (H : 0 <= Qabs (positionAmt p - SessionVolume.prevPositionAmt s) * x).
  { apply Qmult_le_0_compat; [ now apply Qlt_le_weak | exact Hp ]. }
  lra.
Qed.

(** X9.  Over any sequence of account pushes whose reference prices, where
    there is one, are not negative, the session volume never decreases. *)
Theorem X9_session_volume_monotone
  (us : list (option Q * PositionSnapshot)) (s : SessionVolume.State) :
  Forall (fun u => match fst u with Some x => 0 <= x | None => True end) us ->
  SessionVolume.sessionQuoteVolume s
  <= SessionVolume.sessionQuoteVolume (SessionVolume.updates us s).
Proof.
  intro H. revert s. induction H as [ | u us Hu _ IH ]; intro s.
  - apply Qle_refl.
  - unfold SessionVolume.updates in *. cbn [fold_left].
    eapply Qle_trans; [ | apply IH ].
    now apply updateSessionVolume_monotone.
Qed.

Lemma X9_session_volume_monotone_witness :
  SessionVolume.sessionQuoteVolume (SessionVolume.mkState 5 1 true)
  <= SessionVolume.sessionQuoteVolume
       (SessionVolume.updates
          [ (Some 100, mkPosition 2 100 None); (None, mkPosition 3 100 None) ]
          (SessionVolume.mkState 5 1 true)).
Proof.
  apply (X9_session_volume_monotone
           [ (Some 100, mkPosition 2 100 None); (None, mkPosition 3 100 None) ]
           (SessionVolume.mkState 5 1 true)).
  repeat constructor; discriminate.
Defined.

(** ** Order bookkeeping of the maker engines *)




(** X10.  An order push replaces the local cache by the pushed orders that
    are not market orders and carry the configured symbol (none when the
    push is not an array), keeps of the pending-cancel ids exactly those
    that still belong to a cached order, and marks the first order snapshot
    as received. *)
Theorem X10_order_push (pending : list (string * option Z))
  (orders : option (list MakerOrders.AsterOrder)) (s : MakerOrders.State) :
  let s' := fst (MakerOrders.watchOrders pending orders s) in
  (forall o,
      In o (MakerOrders.openOrders s')
      <-> (exists l, orders = Some l /\ In o l)
          /\ MakerOrders.o_type o <> "MARKET"%string
          /\ MakerOrders.o_symbol o
             = MakerEngine.symbol (MakerOrders.config s))
  /\ (forall id,
        In id (MakerOrders.pendingCancelOrders s')
        <-> In id (MakerOrders.pendingCancelOrders s)
            /\ exists o, In o (MakerOrders.openOrders s')
                         /\ MakerOrders.orderId o = id)
  /\ MakerOrders.initialOrderSnapshotReady s' = true
  /\ MakerOrders.initialOrderResetDone s' = MakerOrders.initialOrderResetDone s.
Proof.
  cbv zeta. unfold MakerOrders.watchOrders. cbn.
  split; [ | split; [ | split; reflexivity ] ].
  - intro o. destruct orders as [l | ].
    + rewrite filter_In, andb_true_iff, negb_true_iff, String.eqb_neq,
        String.eqb_eq.
      split.
      * intros (H1 & H2 & H3). split; [ exists l; auto | auto ].
      * intros ((l' & E & H1) & H2 & H3). inversion E. subst. auto.
    + simpl. split; [ intros [] | intros ((l & E & _) & _); discriminate ].
  - intro id. rewrite filter_In, existsb_exists.
    split; intros (H1 & o & H2 & H3); (split; [ exact H1 | ]); exists o;
      (split; [ exact H2 | ]).
    + now apply Z.eqb_eq.
    + now apply Z.eqb_eq.
Qed.



Lemma closeCalls_app a b : closeCalls (a ++ b) = closeCalls a ++ closeCalls b.
Proof.
  induction a as [ | x a IH ]; simpl; [ reflexivity | ].
  destruct x; simpl; now rewrite IH.
Qed.

Lemma cancelCalls_app a b :
  cancelCalls (a ++ b) = cancelCalls a ++ cancelCalls b.
Proof.
  induction a as [ | x a IH ]; simpl; [ reflexivity | ].
  destruct x; simpl; now rewrite IH.
Qed.

(** The order listener requests no cancel and no close, and leaves the
    configuration and the two flags of the tick alone. *)
Lemma watchOrders_quiet pending orders s :
  let r := MakerOrders.watchOrders pending orders s in
  cancelCalls (snd r) = [] /\ closeCalls (snd r) = []
  /\ MakerOrders.config (fst r) = MakerOrders.config s
  /\ MakerOrders.initialOrderResetDone (fst r)
     = MakerOrders.initialOrderResetDone s
  /\ MakerOrders.entryPricePendingLogged (fst r)
     = MakerOrders.entryPricePendingLogged s.
Proof.
  cbv zeta. unfold MakerOrders.watchOrders. cbn [fst snd].
  rewrite cancelCalls_app, closeCalls_app.
  assert (H : cancelCalls (MakerOrders.syncLocksWithOrders pending orders) = []
              /\ closeCalls (MakerOrders.syncLocksWithOrders pending orders) = []).
  { unfold MakerOrders.syncLocksWithOrders. cbv zeta.
    induction pending as [ | [ty [id | ]] rest [IH1 IH2] ];
      cbn [flat_map fst snd]; [ now split | | now split ].
    rewrite cancelCalls_app, closeCalls_app, IH1, IH2, !app_nil_r.
    destruct (find _ _) as [m | ]; [ | now split ].
    destruct (_ && _); now split. }
  destruct H as [-> ->]. repeat split.
Qed.

Lemma runPushes_quiet pushes :
  forall s,
    let r := MakerOrders.runPushes pushes s in
    cancelCalls (snd r) = [] /\ closeCalls (snd r) = []
    /\ MakerOrders.config (fst r) = MakerOrders.config s
    /\ MakerOrders.initialOrderResetDone (fst r)
       = MakerOrders.initialOrderResetDone s
    /\ MakerOrders.entryPricePendingLogged (fst r)
       = MakerOrders.entryPricePendingLogged s.
Proof.
  induction pushes as [ | p rest IH ]; intro s; cbn [MakerOrders.runPushes].
  - cbn. repeat split.
  - cbv zeta. cbn [fst snd].
    destruct (watchOrders_quiet (fst p) (snd p) s) as (W1 & W2 & W3 & W4 & W5).
    destruct (IH (fst (MakerOrders.watchOrders (fst p) (snd p) s)))
      as (I1 & I2 & I3 & I4 & I5).
    cbv zeta in *.
    rewrite cancelCalls_app, closeCalls_app, W1, W2, I1, I2, I3, I4, I5.
    repeat split; assumption.
Qed.

Lemma cancelCallback_quiet o answer s :
  let r := MakerOrders.cancelCallback o answer s in
  cancelCalls (snd r) = [] /\ closeCalls (snd r) = []
  /\ MakerOrders.config (fst r) = MakerOrders.config s
  /\ MakerOrders.initialOrderResetDone (fst r)
     = MakerOrders.initialOrderResetDone s
  /\ MakerOrders.entryPricePendingLogged (fst r)
     = MakerOrders.entryPricePendingLogged s.
Proof. destruct answer; cbn; repeat split. Qed.

(** What holds of a flush whatever arrives while it waits. *)
Lemma flushLoop_calls waits orders :
  forall n s,
    let r := MakerOrders.flushLoop waits n orders s in
    closeCalls (snd r) = []
    /\ (forall id, In id (cancelCalls (snd r)) ->
                   exists o, In o orders /\ MakerOrders.orderId o = id)
    /\ (List.length (cancelCalls (snd r)) <= List.length orders)%nat
    /\ MakerOrders.config (fst r) = MakerOrders.config s
    /\ MakerOrders.initialOrderResetDone (fst r)
       = MakerOrders.initialOrderResetDone s
    /\ MakerOrders.entryPricePendingLogged (fst r)
       = MakerOrders.entryPricePendingLogged s.
Proof.
  induction orders as [ | x rest IH ]; intros n s; cbn [MakerOrders.flushLoop].
  - cbn. split; [ reflexivity | ]. split; [ intros id [] | ].
    split; [ lia | repeat split ].
  - destruct (MakerOrders.has (MakerOrders.orderId x)
                (MakerOrders.pendingCancelOrders s)).
    + destruct (IH (S n) s) as (I1 & I2 & I3 & I4).
      cbv zeta in *.
      split; [ exact I1 | ].
      split; [ intros id Hid; destruct (I2 id Hid) as (o & Ho & E);
               exists o; split; [ now right | exact E ] | ].
      split; [ cbn [List.length]; lia | exact I4 ].
    + cbv zeta.
      set (s0 := MakerOrders.set_pendingCancelOrders
                   (MakerOrders.add (MakerOrders.orderId x)
                      (MakerOrders.pendingCancelOrders s)) s).
      set (r1 := MakerOrders.runPushes
                   (MakerOrders.pushesBefore (waits n)) s0).
      set (r2 := MakerOrders.cancelCallback x
                   (MakerOrders.outcome (waits n)) (fst r1)).
      set (r3 := MakerOrders.runPushes
                   (MakerOrders.pushesAfter (waits n)) (fst r2)).
      destruct (runPushes_quiet (MakerOrders.pushesBefore (waits n)) s0)
        as (A1 & A2 & A3 & A4 & A5).
      destruct (cancelCallback_quiet x (MakerOrders.outcome (waits n)) (fst r1))
        as (B1 & B2 & B3 & B4 & B5).
      destruct (runPushes_quiet (MakerOrders.pushesAfter (waits n)) (fst r2))
        as (C1 & C2 & C3 & C4 & C5).
      destruct (IH (S n) (fst r3)) as (I1 & I2 & I3 & I4 & I5 & I6).
      cbv zeta in *. fold r1 in A1, A2, A3, A4, A5.
      fold r2 in B1, B2, B3, B4, B5. fold r3 in C1, C2, C3, C4, C5.
      cbn [fst snd closeCalls cancelCalls].
      rewrite !closeCalls_app, !cancelCalls_app, A1, A2, B1, B2, C1, C2, I1.
      cbn [app List.length].
      split; [ reflexivity | ].
      split.
      { intros id [<- | Hid]; [ exists x; split; [ now left | reflexivity ] | ].
        destruct (I2 id Hid) as (o & Ho & E).
        exists o. split; [ now right | exact E ]. }
      split; [ lia | ].
      rewrite I4, I5, I6, C3, C4, C5, B3, B4, B5, A3, A4, A5.
      repeat split.
Qed.



(** An order push during the flush can leave a cached order without a
    cancel in flight: the maker flushes its one resting buy, and the push
    that arrives while the cancel is outstanding reports a second one. *)
Example flush_interrupted :
  let waits := fun _ : nat =>
    MakerOrders.mkCancelWait MakerOrders.Cancelled
      [([], Some [restingBuy 1; restingBuy 2])] [] in
  let r := MakerOrders.flushOrders waits oneResting in
  cancelCalls (snd r) = [1%Z]
  /\ MakerOrders.openOrders (fst r) = [restingBuy 1; restingBuy 2]
  /\ MakerOrders.pendingCancelOrders (fst r) = [1%Z].
Proof. vm_compute. repeat split. Qed.


Section DepthImbalanceTickFacts.

Variable Account : Type.
Variable getPosition : option Account -> string -> PositionSnapshot.
Variable getTopPrices : option Depth -> option Q * option Q.
Variable computePositionPnl : PositionSnapshot -> option Q -> option Q -> Q.

Lemma marketExit_trace position topBid topAsk closeReply
  (e : DepthImbalance.Engine Account) :
  let acts :=
    snd (DepthImbalance.marketExit Account position topBid topAsk closeReply e) in
  marketOrders acts = []
  /\ (marketCloses acts = []
      \/ (EPS <= Qabs (positionAmt position)
          /\ marketCloses acts = [closeOf position topBid topAsk])).
Proof.
  unfold DepthImbalance.marketExit, closeOf. cbv zeta.
  destruct (Qltb (Qabs (positionAmt position)) EPS) eqn:Eflat.
  - split; [ reflexivity | now left ].
  - apply Qltb_ge in Eflat.
    destruct closeReply; cbn [snd marketOrders marketCloses];
      (split; [ reflexivity | right; split; [ exact Eflat | reflexivity ] ]).
Qed.

Lemma checkExitCondition_trace position bidQty askQty topBid topAsk closeReply
  (e : DepthImbalance.Engine Account) :
  let acts :=
    snd (DepthImbalance.checkExitCondition Account position bidQty askQty
           topBid topAsk closeReply e) in
  marketOrders acts = []
  /\ (marketCloses acts = []
      \/ (EPS <= Qabs (positionAmt position)
          /\ marketCloses acts
             = [closeOf position (Some topBid) (Some topAsk)])).
Proof.
  unfold DepthImbalance.checkExitCondition. cbv zeta.
  match goal with
  | |- context [if ?c then _ else _] => destruct c
  end; [ | split; [ reflexivity | now left ] ].
  match goal with
  | |- context [DepthImbalance.marketExit Account position ?tb ?ta ?r ?x] =>
      pose proof (marketExit_trace position tb ta r x) as H;
      destruct (DepthImbalance.marketExit Account position tb ta r x)
        as [e1 acts1]
  end.
  exact H.
Qed.

Lemma checkStopLoss_trace position topBid topAsk closeReply
  (e : DepthImbalance.Engine Account) :
  let acts :=
    snd (DepthImbalance.checkStopLoss Account computePositionPnl position
           topBid topAsk closeReply e) in
  marketOrders acts = []
  /\ (marketCloses acts = []
      \/ (EPS <= Qabs (positionAmt position)
          /\ marketCloses acts = [closeOf position topBid topAsk])).
Proof.
  unfold DepthImbalance.checkStopLoss. cbv zeta.
  destruct (Qltb (Qabs (positionAmt position)) EPS);
    [ split; [ reflexivity | now left ] | ].
  destruct (Qle_bool _ _); [ | split; [ reflexivity | now left ] ].
  pose proof (marketExit_trace position topBid topAsk closeReply e) as H.
  destruct (DepthImbalance.marketExit Account position topBid topAsk
              closeReply e) as [e1 acts1].
  exact H.
Qed.

Lemma checkEntryCondition_trace bidQty askQty topBid topAsk reply
  (e : DepthImbalance.Engine Account) :
  let acts :=
    snd (DepthImbalance.checkEntryCondition Account bidQty askQty topBid
           topAsk reply e) in
  marketCloses acts = []
  /\ (marketOrders acts = [] \/ exists o, marketOrders acts = [o]).
Proof.
  unfold DepthImbalance.checkEntryCondition, DepthImbalance.marketEntry.
  cbv zeta.
  destruct (_ && _); [ split; [ reflexivity | now left ] | ].
  destruct (Qltb _ (imbalanceRatio _));
    [ split; [ reflexivity | now left ] | ].
  destruct reply; cbn [snd marketOrders marketCloses app];
    (split; [ reflexivity | right; eexists; reflexivity ]).
Qed.

Lemma cycle_trace now entryReply exitReply stopReply
  (e : DepthImbalance.Engine Account) :
  let acts :=
    snd (DepthImbalance.cycle Account getPosition getTopPrices
           computePositionPnl now entryReply exitReply stopReply e) in
  let position :=
    getPosition (DepthImbalance.accountSnapshot Account e)
      (symbol (DepthImbalance.config Account e)) in
  let tops := getTopPrices (DepthImbalance.depthSnapshot Account e) in
  let close := closeOf position (fst tops) (snd tops) in
  (marketOrders acts = []
   \/ (Qabs (positionAmt position) < EPS /\ marketCloses acts = []
       /\ exists o, marketOrders acts = [o]))
  /\ (marketCloses acts = []
      \/ (EPS <= Qabs (positionAmt position)
          /\ (marketCloses acts = [close] \/ marketCloses acts = [close; close]))).
Proof.
  cbv zeta. unfold DepthImbalance.cycle.
  assert (Hemit : forall x,
            let acts := snd (DepthImbalance.emitUpdate Account now x) in
            marketOrders acts = [] /\ marketCloses acts = [])
    by (intro x; apply emitUpdate_no_orders).
  cbv zeta in Hemit.
  destruct (negb (DepthImbalance.isReady Account e));
    [ destruct (Hemit e) as [Ho Hc]; rewrite Ho, Hc; split; now left | ].
  destruct (getTopPrices (DepthImbalance.depthSnapshot Account e))
    as [[topBid | ] [topAsk | ]] eqn:Etop;
    try (destruct (Hemit e) as [Ho Hc]; rewrite Ho, Hc; split; now left).
  destruct (_ || _);
    [ destruct (Hemit e) as [Ho Hc]; rewrite Ho, Hc; split; now left | ].
  cbv zeta. cbn [fst snd].
  set (position := getPosition (DepthImbalance.accountSnapshot Account e)
                     (symbol (DepthImbalance.config Account e))).
  set (bidQty := firstQty _). set (askQty := firstQty _).
  destruct (Qltb (Qabs (positionAmt position)) EPS) eqn:Eflat.
  - pose proof (checkEntryCondition_trace bidQty askQty topBid topAsk
                  entryReply e) as [Hc Ho].
    destruct (DepthImbalance.checkEntryCondition Account bidQty askQty topBid
                topAsk entryReply e) as [e1 acts1].
    cbn [snd] in Hc, Ho.
    pose proof Eflat as Hflat. apply Qltb_lt in Hflat.
    rewrite (checkStopLoss_flat Account computePositionPnl position
               (Some topBid) (Some topAsk) stopReply e1 Hflat).
    destruct (Hemit e1) as [Ho3 Hc3].
    destruct (DepthImbalance.emitUpdate Account now e1) as [e3 acts3].
    cbn [snd] in *.
    rewrite !marketOrders_app, !marketCloses_app, Ho3, Hc3, Hc.
    cbn [app marketOrders marketCloses]. rewrite app_nil_r.
    split; [ | now left ].
    destruct Ho as [Ho | Ho]; [ now left | right ].
    split; [ exact Hflat | split; [ reflexivity | exact Ho ] ].
  - pose proof (checkExitCondition_trace position bidQty askQty topBid topAsk
                  exitReply e) as [Ho1 Hc1].
    destruct (DepthImbalance.checkExitCondition Account position bidQty askQty
                topBid topAsk exitReply e) as [e1 acts1].
    pose proof (checkStopLoss_trace position (Some topBid) (Some topAsk)
                  stopReply e1) as [Ho2 Hc2].
    destruct (DepthImbalance.checkStopLoss Account computePositionPnl position
                (Some topBid) (Some topAsk) stopReply e1) as [e2 acts2].
    destruct (Hemit e2) as [Ho3 Hc3].
    destruct (DepthImbalance.emitUpdate Account now e2) as [e3 acts3].
    cbn [snd] in *.
    rewrite !marketOrders_app, !marketCloses_app, Ho1, Ho2, Ho3, Hc3.
    cbn [app]. rewrite app_nil_r.
    split; [ now left | ].
    apply Qltb_ge in Eflat.
    destruct Hc1 as [Hc1 | [_ Hc1]], Hc2 as [Hc2 | [_ Hc2]];
      rewrite Hc1, Hc2; cbn [app]; auto.
Qed.

(** X14.  What one tick of the depth-imbalance engine may send.  A tick that
    finds another one in progress does nothing.  Otherwise it sends at most
    one entry order, and only when the position read at its start is flat
    and without any close in the same tick; every close it sends is the
    close of that whole position, the position being open, and there are at
    most two of them (the exit condition and the stop-loss are checked one
    after the other on the same position snapshot).  When the rate limiter
    does not say run it sends neither.  The in-progress flag is left as it
    was found. *)
Theorem X14_tick_orders (now : Z) (entryReply : Reply)
  (exitReply stopReply : option EngineError)
  (e : DepthImbalance.Engine Account) :
  let r :=
    DepthImbalance.tick Account getPosition getTopPrices computePositionPnl
      now entryReply exitReply stopReply e in
  let position :=
    getPosition (DepthImbalance.accountSnapshot Account e)
      (symbol (DepthImbalance.config Account e)) in
  let tops := getTopPrices (DepthImbalance.depthSnapshot Account e) in
  (DepthImbalance.processing Account e = true -> r = (e, []))
  /\ DepthImbalance.processing Account (fst r)
     = DepthImbalance.processing Account e
  /\ (List.length (marketOrders (snd r)) <= 1)%nat
  /\ (marketOrders (snd r) <> [] ->
      marketCloses (snd r) = [] /\ Qabs (positionAmt position) < EPS)
  /\ (List.length (marketCloses (snd r)) <= 2)%nat
  /\ (forall c, In c (marketCloses (snd r)) ->
      EPS <= Qabs (positionAmt position)
      /\ c = closeOf position (fst tops) (snd tops))
  /\ (snd (RateLimit.beforeCycle (DepthImbalance.rateLimitOptions Account e)
             now (DepthImbalance.rateLimit Account e)) <> RateLimit.Run ->
      marketOrders (snd r) = [] /\ marketCloses (snd r) = []).
Proof.
  cbv zeta. unfold DepthImbalance.tick.
  destruct (DepthImbalance.processing Account e) eqn:Eproc.
  { cbn [fst snd marketOrders marketCloses List.length].
    rewrite Eproc.
    split; [ reflexivity | ]. split; [ reflexivity | ].
    split; [ lia | ]. split; [ intro H; now elim H | ].
    split; [ lia | ]. split; [ intros c [] | auto ]. }
  split; [ discriminate | ].
  cbv zeta.
  change (RateLimit.beforeCycle
            (DepthImbalance.rateLimitOptions Account
               (DepthImbalance.set_processing Account true e)) now
            (DepthImbalance.rateLimit Account
               (DepthImbalance.set_processing Account true e)))
    with (RateLimit.beforeCycle (DepthImbalance.rateLimitOptions Account e)
            now (DepthImbalance.rateLimit Account e)).
  destruct (RateLimit.beforeCycle (DepthImbalance.rateLimitOptions Account e)
              now (DepthImbalance.rateLimit Account e)) as [rl decision].
  set (e1 := DepthImbalance.set_rateLimit Account rl
               (DepthImbalance.set_processing Account true e)).
  assert (Hquiet : forall x acts,
            marketOrders acts = [] -> marketCloses acts = [] ->
            DepthImbalance.processing Account
              (DepthImbalance.set_processing Account false x) = false
            /\ (List.length (marketOrders acts) <= 1)%nat
            /\ (marketOrders acts <> [] ->
                marketCloses acts = []
                /\ Qabs (positionAmt
                     (getPosition (DepthImbalance.accountSnapshot Account e)
                        (symbol (DepthImbalance.config Account e)))) < EPS)
            /\ (List.length (marketCloses acts) <= 2)%nat
            /\ (forall c, In c (marketCloses acts) ->
                EPS <= Qabs (positionAmt
                     (getPosition (DepthImbalance.accountSnapshot Account e)
                        (symbol (DepthImbalance.config Account e))))
                /\ c = closeOf
                     (getPosition (DepthImbalance.accountSnapshot Account e)
                        (symbol (DepthImbalance.config Account e)))
                     (fst (getTopPrices (DepthImbalance.depthSnapshot Account e)))
                     (snd (getTopPrices (DepthImbalance.depthSnapshot Account e))))
            /\ marketOrders acts = []
            /\ marketCloses acts = []).
  { intros x acts Ho Hc. rewrite Ho, Hc.
    cbn [List.length].
    split; [ reflexivity | ]. split; [ lia | ].
    split; [ intro H; now elim H | ]. split; [ lia | ].
    split; [ intros c [] | auto ]. }
  destruct decision.
  - (* run *)
    pose proof (cycle_trace now entryReply exitReply stopReply e1)
      as [Ho Hc].
    cbv zeta in Ho, Hc.
    change (DepthImbalance.accountSnapshot Account e1)
      with (DepthImbalance.accountSnapshot Account e) in Ho, Hc.
    change (DepthImbalance.config Account e1)
      with (DepthImbalance.config Account e) in Ho, Hc.
    change (DepthImbalance.depthSnapshot Account e1)
      with (DepthImbalance.depthSnapshot Account e) in Ho, Hc.
    destruct (DepthImbalance.cycle Account getPosition getTopPrices
                computePositionPnl now entryReply exitReply stopReply e1)
      as [e2 acts].
    cbn [fst snd] in *.
    split; [ reflexivity | ].
    split.
    { destruct Ho as [Ho | (_ & _ & o & Ho)]; rewrite Ho; cbn; lia. }
    split.
    { intro Hne. destruct Ho as [Ho | (Hflat & Hcl & _)];
        [ now elim Hne | now split ]. }
    split.
    { destruct Hc as [Hc | (_ & [Hc | Hc])]; rewrite Hc; cbn; lia. }
    split.
    { intros c Hin.
      destruct Hc as [Hc | (Hopen & [Hc | Hc])]; rewrite Hc in Hin;
        cbn [In] in Hin.
      - contradiction.
      - destruct Hin as [<- | []]. now split.
      - destruct Hin as [<- | [<- | []]]; now split. }
    intro H. now elim H.
  - (* skip *)
    cbn [fst snd].
    destruct (Hquiet
                (DepthImbalance.set_rateLimit Account
                   (RateLimit.onCycleComplete
                      (DepthImbalance.rateLimitOptions Account e1) now false
                      (DepthImbalance.rateLimit Account e1)) e1) []
                eq_refl eq_refl)
      as (Q1 & Q2 & Q3 & Q4 & Q5 & Q6 & Q7).
    split; [ exact Q1 | ]. split; [ exact Q2 | ]. split; [ exact Q3 | ].
    split; [ exact Q4 | ]. split; [ exact Q5 | ]. intros _. now split.
  - (* paused *)
    destruct (emitUpdate_no_orders Account now e1) as [Ho Hc].
    destruct (DepthImbalance.emitUpdate Account now e1) as [e2 acts].
    cbn [fst snd] in *.
    destruct (Hquiet
                (DepthImbalance.set_rateLimit Account
                   (RateLimit.onCycleComplete
                      (DepthImbalance.rateLimitOptions Account e2) now false
                      (DepthImbalance.rateLimit Account e2)) e2) acts Ho Hc)
      as (Q1 & Q2 & Q3 & Q4 & Q5 & Q6 & Q7).
    split; [ exact Q1 | ]. split; [ exact Q2 | ]. split; [ exact Q3 | ].
    split; [ exact Q4 | ]. split; [ exact Q5 | ]. intros _. now split.
Qed.

End DepthImbalanceTickFacts.

Lemma reachable_band computePositionPnl teamBonus e :
  DepthImbalanceRetry.Reachable computePositionPnl teamBonus e ->
  (0 <= tradeAmount (DepthImbalanceRetry.config e) ->
   DepthImbalanceRetry.minTradeAmount e
   <= DepthImbalanceRetry.currentTradeAmount e)
  /\ (0 <= lossLimit (DepthImbalanceRetry.config e) ->
      0 <= DepthImbalanceRetry.currentLossLimit e
      /\ DepthImbalanceRetry.currentLossLimit e
         <= lossLimit (DepthImbalanceRetry.config e)).
Proof.
  revert e. apply reachable_invariant.
  - intros cfg now. unfold DepthImbalanceRetry.minTradeAmount.
    cbn [DepthImbalanceRetry.create DepthImbalanceRetry.config
         DepthImbalanceRetry.currentTradeAmount
         DepthImbalanceRetry.currentLossLimit].
    split.
    + setoid_replace (tradeAmount cfg / 128)
        with (tradeAmount cfg * (1 # 128)) by field.
      intro H. lra.
    + intro H. split; [ exact H | apply Qle_refl ].
  - intros side replies e e' acts r [Ha Hl] Hrun.
    unfold DepthImbalanceRetry.marketEntry in Hrun.
    destruct (marketEntryLoop_facts side replies
                DepthImbalanceRetry.maxRetryAttempts O
                (DepthImbalanceRetry.currentTradeAmount e) e (Nat.le_refl _))
      as (e2 & acts2 & r2 & Hrun2 & F).
    rewrite Hrun in Hrun2. inversion Hrun2. subst e2 acts2 r2. clear Hrun2.
    destruct F as [Fc Fs Fa Fb Fam Fl Fab Fac Fr].
    unfold DepthImbalanceRetry.minTradeAmount in *. rewrite Fc.
    split.
    + intro HT. destruct Fam as [-> | (k & Hk & ->)]; [ exact (Ha HT) | ].
      destruct (nth_error (attemptedAmounts acts) k) as [q | ] eqn:Eq;
        [ | apply nth_error_None in Eq; lia ].
      destruct (Fb k q Eq) as [_ B]. now rewrite <- (Fa k q Eq).
    + intro HL. destruct (Hl HL) as [L0 L1]. rewrite Fl.
      destruct (halvings_le
                  (marginRejections replies 0
                     (List.length (attemptedAmounts acts)))
                  (DepthImbalanceRetry.currentLossLimit e) L0) as [I0 I1].
      split; [ exact I0 | lra ].
  - intros e bidQty askQty ps H. exact H.
  - intros e s H. exact H.
Qed.

(** X15.  Throughout a run of the engine with the margin retry, whatever
    the exchange replies: when the configured trade amount is not negative
    the current trade amount stays between [config.tradeAmount / 128] and
    [config.tradeAmount], and when the configured loss limit is not
    negative the current loss limit stays between 0 and [config.lossLimit].
    Neither is ever raised above its configured value again. *)
Theorem X15_retry_band
  (computePositionPnl : PositionSnapshot -> option Q -> option Q -> Q)
  (teamBonus : Q) (e : DepthImbalanceRetry.Engine) :
  DepthImbalanceRetry.Reachable computePositionPnl teamBonus e ->
  let T := tradeAmount (DepthImbalanceRetry.config e) in
  let L := lossLimit (DepthImbalanceRetry.config e) in
  DepthImbalanceRetry.currentTradeAmount e <= T
  /\ (0 <= T -> T / 128 <= DepthImbalanceRetry.currentTradeAmount e)
  /\ (0 <= L ->
      0 <= DepthImbalanceRetry.currentLossLimit e
      /\ DepthImbalanceRetry.currentLossLimit e <= L).
Proof.
  intros Hreach T L.
  destruct (reachable_band _ _ _ Hreach) as [Ha Hl].
  split; [ exact (reachable_amountWithinConfig _ _ _ Hreach) | ].
  split; [ exact Ha | exact Hl ].
Qed.

(** The theorem on the engine left by a first entry that the exchange
    rejected for margin at every attempt. *)
Lemma X15_retry_band_witness :
  exists e' acts r,
    DepthImbalanceRetry.marketEntry SELL (fun _ => Rejected marginError)
      (DepthImbalanceRetry.create retryConfig 0) = Some (e', acts, r)
    /\ DepthImbalanceRetry.currentTradeAmount e' <= 128
    /\ (0 <= 128 -> 128 / 128 <= DepthImbalanceRetry.currentTradeAmount e')
    /\ (0 <= 10 ->
        0 <= DepthImbalanceRetry.currentLossLimit e'
        /\ DepthImbalanceRetry.currentLossLimit e' <= 10).
Proof.
  eexists. eexists. eexists. split; [ vm_compute; reflexivity | ].
  exact (X15_retry_band (fun _ _ _ => 0) (11 # 10) _
           (DepthImbalanceRetry.Reach_marketEntry (fun _ _ _ => 0) (11 # 10)
              (DepthImbalanceRetry.create retryConfig 0) SELL
              (fun _ => Rejected marginError) _ _ _
              (DepthImbalanceRetry.Reach_create (fun _ _ _ => 0) (11 # 10)
                 retryConfig 0%Z)
              eq_refl)).
Defined.

Lemma marketEntryLoop_outcome side replies fuel :
  forall n a e e' acts r,
    (n < DepthImbalanceRetry.maxRetryAttempts)%nat ->
    DepthImbalanceRetry.minTradeAmount e <= a ->
    DepthImbalanceRetry.marketEntryLoop fuel side replies n a e
    = Some (e', acts, r) ->
    exists k,
      List.length (attemptedAmounts acts) = S k
      /\ (forall i, (i < k)%nat ->
            isMarginRejection (replies (n + i)%nat) = true)
      /\ match r with
         | None =>
             (exists id, replies (n + k)%nat = Accepted id)
             /\ DepthImbalanceRetry.currentTradeAmount e' = halvings k a
         | Some err =>
             replies (n + k)%nat = Rejected err
             /\ DepthImbalanceRetry.currentTradeAmount e'
                = DepthImbalanceRetry.currentTradeAmount e
         end.
Proof.
  induction fuel as [ | fuel IH ]; intros n a e e' acts r Hn Hmin Hrun.
  - simpl in Hrun.
    destruct (Nat.ltb_spec n DepthImbalanceRetry.maxRetryAttempts);
      [ discriminate | lia ].
  - cbn [DepthImbalanceRetry.marketEntryLoop] in Hrun.
    destruct (Nat.ltb_spec n DepthImbalanceRetry.maxRetryAttempts);
      [ | lia ].
    unfold DepthImbalanceRetry.attemptOrder in Hrun.
    pose proof Hmin as Emin. apply Qltb_ge in Emin. rewrite Emin in Hrun.
    destruct (replies n) as [id | err] eqn:Ereply.
    { inversion Hrun. subst e' acts r. exists O.
      split; [ reflexivity | ]. split; [ intros i Hi; lia | ].
      rewrite Nat.add_0_r. split; [ now exists id | reflexivity ]. }
    cbv zeta in Hrun.
    destruct (isInsufficientMarginError err) eqn:Emargin.
    2: { inversion Hrun. subst e' acts r. exists O.
         split; [ reflexivity | ]. split; [ intros i Hi; lia | ].
         rewrite Nat.add_0_r. split; [ exact Ereply | reflexivity ]. }
    set (e1 := DepthImbalanceRetry.set_currentLossLimit
                 (DepthImbalanceRetry.currentLossLimit e / 2) e) in *.
    destruct ((S n <? DepthImbalanceRetry.maxRetryAttempts)%nat
              && Qgeb (a / 2) (DepthImbalanceRetry.minTradeAmount e1))
      eqn:Econt.
    2: { inversion Hrun. subst e' acts r. exists O.
         split; [ reflexivity | ]. split; [ intros i Hi; lia | ].
         rewrite Nat.add_0_r. split; [ exact Ereply | reflexivity ]. }
    apply andb_true_iff in Econt. destruct Econt as [Hn1 Hfloor].
    apply Nat.ltb_lt in Hn1. apply Qgeb_ge in Hfloor.
    destruct (DepthImbalanceRetry.marketEntryLoop fuel side replies (S n)
                (a / 2) e1) as [[[e2 acts2] r2] | ] eqn:Erec;
      [ | discriminate ].
    inversion Hrun. subst e' acts r. clear Hrun.
    destruct (IH (S n) (a / 2) e1 e2 acts2 r2 Hn1 Hfloor Erec)
      as (k & Hlen & Hmargin & Hres).
    exists (S k).
    split.
    { match goal with
      | |- List.length (attemptedAmounts ?x) = _ =>
          change (attemptedAmounts x) with (a :: attemptedAmounts acts2)
      end.
      cbn [List.length]. now rewrite Hlen. }
    split.
    + intros [ | i] Hi.
      * rewrite Nat.add_0_r. unfold isMarginRejection.
        now rewrite Ereply, Emargin.
      * rewrite <- Nat.add_succ_comm. apply Hmargin. lia.
    + rewrite <- Nat.add_succ_comm. cbn [halvings]. exact Hres.
Qed.

Lemma halvings_8 x : halvings 8 x == x * (1 # 256).
Proof. cbn [halvings]. field. Qed.

(** X16.  A market entry of an engine in any state its run can reach, with
    a positive configured trade amount, sends at least one and at most eight
    orders.  Every reply before the last is an insufficient-margin
    rejection.  If the entry succeeds, the last reply is an acceptance and
    the current trade amount becomes the amount of the last order,
    [A / 2^k] after [k] rejections.  If it fails, the error it reports is the
    exchange's rejection of its last order, and the current trade amount is
    left as it was. *)
Theorem X16_entry_outcome
  (computePositionPnl : PositionSnapshot -> option Q -> option Q -> Q)
  (teamBonus : Q) (side : Side) (replies : nat -> Reply)
  (e : DepthImbalanceRetry.Engine) :
  DepthImbalanceRetry.Reachable computePositionPnl teamBonus e ->
  0 < tradeAmount (DepthImbalanceRetry.config e) ->
  exists e' acts r k,
    DepthImbalanceRetry.marketEntry side replies e = Some (e', acts, r)
    /\ List.length (marketOrders acts) = S k
    /\ (k < 8)%nat
    /\ (forall i, (i < k)%nat -> isMarginRejection (replies i) = true)
    /\ (r = None ->
        (exists id, replies k = Accepted id)
        /\ DepthImbalanceRetry.currentTradeAmount e'
           == DepthImbalanceRetry.currentTradeAmount e / 2 ^ Z.of_nat k)
    /\ (forall err, r = Some err ->
        replies k = Rejected err
        /\ DepthImbalanceRetry.currentTradeAmount e'
           = DepthImbalanceRetry.currentTradeAmount e).
Proof.
  intros Hreach HT.
  destruct (reachable_band _ _ _ Hreach) as [Hmin _].
  specialize (Hmin (Qlt_le_weak _ _ HT)).
  pose proof (reachable_amountWithinConfig _ _ _ Hreach) as Hmax.
  unfold amountWithinConfig in Hmax.
  unfold DepthImbalanceRetry.marketEntry.
  destruct (marketEntryLoop_facts side replies
              DepthImbalanceRetry.maxRetryAttempts O
              (DepthImbalanceRetry.currentTradeAmount e) e (Nat.le_refl _))
    as (e' & acts & r & Hrun & F).
  destruct (marketEntryLoop_outcome side replies _ O _ e e' acts r
              ltac:(unfold DepthImbalanceRetry.maxRetryAttempts; lia)
              Hmin Hrun) as (k & Hlen & Hmargin & Hres).
  exists e', acts, r, k.
  split; [ exact Hrun | ].
  split; [ unfold attemptedAmounts in Hlen; now rewrite length_map in Hlen | ].
  split.
  { destruct (Nat.lt_ge_cases k 8) as [Hk | Hk]; [ exact Hk | exfalso ].
    destruct F as [Fc Fs Fa Fb Fam Fl Fab Fac Fr].
    destruct (nth_error (attemptedAmounts acts) 8) as [q | ] eqn:Eq;
      [ | apply nth_error_None in Eq; lia ].
    destruct (Fb _ _ Eq) as [_ B]. rewrite (Fa _ _ Eq), halvings_8 in B.
    unfold DepthImbalanceRetry.minTradeAmount in B. revert B.
    setoid_replace (tradeAmount (DepthImbalanceRetry.config e) / 128)
      with (tradeAmount (DepthImbalanceRetry.config e) * (1 # 128)) by field.
    intro B. lra. }
  split; [ exact Hmargin | ].
  split.
  - intros ->. destruct Hres as [Hacc Ham].
    split; [ exact Hacc | ]. rewrite Ham. apply halvings_pow.
  - intros err ->. exact Hres.
Qed.

(** The theorem on the first entry of an engine configured for 128 whose
    first order is rejected for margin and whose second is accepted. *)
Lemma X16_entry_outcome_witness :
  let replies :=
    fun n : nat => match n with
                   | O => Rejected marginError
                   | _ => Accepted 7
                   end in
  let e := DepthImbalanceRetry.create retryConfig 0 in
  exists e' acts r k,
    DepthImbalanceRetry.marketEntry BUY replies e = Some (e', acts, r)
    /\ List.length (marketOrders acts) = S k
    /\ (k < 8)%nat
    /\ (forall i, (i < k)%nat -> isMarginRejection (replies i) = true)
    /\ (r = None ->
        (exists id, replies k = Accepted id)
        /\ DepthImbalanceRetry.currentTradeAmount e' == 128 / 2 ^ Z.of_nat k)
    /\ (forall err, r = Some err ->
        replies k = Rejected err
        /\ DepthImbalanceRetry.currentTradeAmount e' = 128).
Proof.
  exact (X16_entry_outcome (fun _ _ _ => 0) (11 # 10) BUY
           (fun n : nat => match n with
                           | O => Rejected marginError
                           | _ => Accepted 7
                           end)
           (DepthImbalanceRetry.create retryConfig 0)
           (DepthImbalanceRetry.Reach_create (fun _ _ _ => 0) (11 # 10)
              retryConfig 0%Z)
           eq_refl).
Defined.

Lemma collapse_iff x y :
  Qeq_bool x 0 || Qltb (x * 6) y = true <-> (x == 0 \/ x * 6 < y).
Proof.
  rewrite orb_true_iff, Qeq_bool_iff, Qltb_lt. tauto.
Qed.

Lemma handleImbalanceExit_cases position buySum sellSum depth waits closeReply
  closePushes s :
  let x :=
    OffsetMaker.handleImbalanceExit position buySum sellSum depth waits
      closeReply closePushes s in
  let bid :=
    OffsetMaker.firstPrice (match depth with Some d => bids d | None => [] end) in
  let ask :=
    OffsetMaker.firstPrice (match depth with Some d => asks d | None => [] end) in
  (x = (s, false, []) /\ ~ imbalanceExitDue position buySum sellSum)
  \/ (snd (fst x) = true
      /\ imbalanceExitDue position buySum sellSum
      /\ closeCalls (snd x) = [closeOf position bid ask]
      /\ forall id, In id (cancelCalls (snd x)) ->
                    exists o, In o (MakerOrders.openOrders s)
                              /\ MakerOrders.orderId o = id).
Proof.
  cbv zeta. unfold OffsetMaker.handleImbalanceExit, imbalanceExitDue.
  cbv zeta.
  destruct (Qltb (Qabs (positionAmt position)) EPS) eqn:Eflat.
  { left. split; [ reflexivity | ]. apply Qltb_lt in Eflat.
    intros [H _]. exact (Qlt_not_le _ _ Eflat H). }
  apply Qltb_ge in Eflat.
  destruct (Qltb 0 (positionAmt position)
            && (Qeq_bool buySum 0 || Qltb (buySum * 6) sellSum)) eqn:Elong;
    [ | destruct (Qltb (positionAmt position) 0
                  && (Qeq_bool sellSum 0 || Qltb (sellSum * 6) buySum))
          eqn:Eshort ];
    cbn [negb andb].
  3: { left. split; [ reflexivity | ].
       intros [_ [[H1 H2] | [H1 H2]]].
       - apply Qltb_lt in H1. apply collapse_iff in H2.
         rewrite H1, H2 in Elong. discriminate.
       - apply Qltb_lt in H1. apply collapse_iff in H2.
         rewrite H1, H2 in Eshort. discriminate. }
  all: right; cbn [fst snd]; split; [ reflexivity | ].
  all: split;
    [ split; [ exact Eflat | ];
      first [ apply andb_true_iff in Elong; destruct Elong as [H1 H2];
              left; split; [ now apply Qltb_lt | now apply collapse_iff ]
            | apply andb_true_iff in Eshort; destruct Eshort as [H1 H2];
              right; split; [ now apply Qltb_lt | now apply collapse_iff ] ]
    | ].
  all: unfold MakerOrders.flushOrders;
    destruct (flushLoop_calls waits (MakerOrders.openOrders s) O s)
      as (Hnc & Hfor & _);
    cbv zeta in Hnc, Hfor;
    set (flushed := MakerOrders.flushLoop waits 0 (MakerOrders.openOrders s) s)
      in *;
    destruct (runPushes_quiet closePushes (fst flushed)) as (P1 & P2 & _);
    cbv zeta in P1, P2;
    set (heard := MakerOrders.runPushes closePushes (fst flushed)) in *;
    cbn [closeCalls cancelCalls];
    rewrite !closeCalls_app, !cancelCalls_app; cbn [closeCalls cancelCalls];
    rewrite !closeCalls_app, !cancelCalls_app, Hnc, P1, P2.
  all: assert (Htail :
            closeCalls
              match closeReply with
              | Some err =>
                  [MakerOrders.Log
                     (if isUnknownOrderError err then order else error)]
              | None => []
              end = []
            /\ cancelCalls
                 match closeReply with
                 | Some err =>
                     [MakerOrders.Log
                        (if isUnknownOrderError err then order else error)]
                 | None => []
                 end = [])
    by (destruct closeReply; split; reflexivity);
    destruct Htail as [-> ->]; cbn [app]; rewrite !app_nil_r.
  all: split; [ reflexivity | exact Hfor ].
Qed.

(** X17.  The offset maker's tick, from the depth check to the desired
    orders.  It closes the position at market exactly when the position is
    open and the depth on its protecting side is zero or less than a sixth
    of the other side's; it then requests one close of the whole position
    (guarded by the mark price and the first price of the closing side of
    the book), cancels only orders that were in the local cache, and leaves
    the desired orders as they were.  Otherwise it calls nothing, leaves the
    order cache alone and desires what the symmetric maker desires on the
    same position, top of book and engine, less the entry orders of the
    sides that the depth check skips: a skipped side gets no entry order,
    the reduce-only order that closes a position is desired whatever is
    skipped, and with no side skipped the two engines end the step in the
    same state. *)
Theorem X17_offset_desired (roundDownToTick : Q -> Q -> Q) (now : Z)
  (position : PositionSnapshot) (topBid topAsk : Q) (buySum sellSum : Q)
  (skipBuySide skipSellSide : bool) (depth : option Depth)
  (waits : nat -> MakerOrders.CancelWait) (closeReply : option EngineError)
  (closePushes : list MakerOrders.Push)
  (e : MakerEngine.Engine) (s : MakerOrders.State) :
  let r :=
    OffsetMaker.tickDesired roundDownToTick position topBid topAsk buySum
      sellSum skipBuySide skipSellSide depth waits closeReply closePushes
      e s in
  let offset := fst (fst r) in
  let maker :=
    fst (MakerEngine.tickDesired roundDownToTick now position (Some topBid)
           (Some topAsk) e) in
  let bid :=
    OffsetMaker.firstPrice (match depth with Some d => bids d | None => [] end) in
  let ask :=
    OffsetMaker.firstPrice (match depth with Some d => asks d | None => [] end) in
  (closeCalls (snd r) <> [] <-> imbalanceExitDue position buySum sellSum)
  /\ (closeCalls (snd r) <> [] ->
      offset = e
      /\ closeCalls (snd r) = [closeOf position bid ask]
      /\ forall id, In id (cancelCalls (snd r)) ->
                    exists o, In o (MakerOrders.openOrders s)
                              /\ MakerOrders.orderId o = id)
  /\ (closeCalls (snd r) = [] ->
      snd r = [] /\ snd (fst r) = s
      /\ MakerEngine.desiredOrders offset
         = filter (keptBySkip skipBuySide skipSellSide)
             (MakerEngine.desiredOrders maker)
      /\ MakerEngine.entryPricePendingLogged offset
         = MakerEngine.entryPricePendingLogged maker
      /\ (forall d, In d (MakerEngine.desiredOrders offset) ->
          MakerEngine.reduceOnly d = false ->
          (MakerEngine.side d = BUY -> skipBuySide = false)
          /\ (MakerEngine.side d = SELL -> skipSellSide = false))
      /\ (forall d, In d (MakerEngine.desiredOrders maker) ->
          MakerEngine.reduceOnly d = true ->
          In d (MakerEngine.desiredOrders offset))
      /\ (skipBuySide = false -> skipSellSide = false -> offset = maker)).
Proof.
  cbv zeta. unfold OffsetMaker.tickDesired. cbv zeta.
  destruct (handleImbalanceExit_cases position buySum sellSum depth waits
              closeReply closePushes s)
    as [[Hx Hno] | (Hx & Hdue & Hclose & Hfor)]; cbv zeta in *.
  2: { rewrite Hx. cbn [fst snd].
       rewrite closeCalls_app, cancelCalls_app, Hclose.
       cbn [app closeCalls cancelCalls]. rewrite ?app_nil_r.
       split; [ split; [ intros _; exact Hdue | discriminate ] | ].
       split; [ intros _; split; [ reflexivity | ];
                split; [ reflexivity | exact Hfor ] | discriminate ]. }
  rewrite Hx. cbn [fst snd].
  set (quiet :=
         if Qltb (Qabs (positionAmt position)) EPS
         then
           ((if negb skipBuySide
                && negb (RateLimit.shouldBlockEntries (MakerEngine.rateLimit e))
             then [MakerEngine.mkDesiredOrder BUY
                     (roundDownToTick
                        (topBid - MakerEngine.bidOffset (MakerEngine.config e))
                        (MakerEngine.priceTick (MakerEngine.config e)))
                     (MakerEngine.tradeAmount (MakerEngine.config e)) false]
             else [])
            ++ (if negb skipSellSide
                   && negb (RateLimit.shouldBlockEntries (MakerEngine.rateLimit e))
                then [MakerEngine.mkDesiredOrder SELL
                        (roundDownToTick
                           (topAsk + MakerEngine.askOffset (MakerEngine.config e))
                           (MakerEngine.priceTick (MakerEngine.config e)))
                        (MakerEngine.tradeAmount (MakerEngine.config e)) false]
                else []),
            MakerEngine.set_entryPricePendingLogged false e)
         else
           ([MakerEngine.mkDesiredOrder
               (if Qltb 0 (positionAmt position) then SELL else BUY)
               (match (if Qltb 0 (positionAmt position) then SELL else BUY) with
                | SELL =>
                    roundDownToTick
                      (topAsk + MakerEngine.askOffset (MakerEngine.config e))
                      (MakerEngine.priceTick (MakerEngine.config e))
                | BUY =>
                    roundDownToTick
                      (topBid - MakerEngine.bidOffset (MakerEngine.config e))
                      (MakerEngine.priceTick (MakerEngine.config e))
                end)
               (Qabs (positionAmt position)) true], e)).
  assert (Hfilter :
    MakerEngine.desiredOrders
      (MakerEngine.set_desiredOrders (fst quiet) (snd quiet))
    = filter (keptBySkip skipBuySide skipSellSide)
        (MakerEngine.desiredOrders
           (fst (MakerEngine.tickDesired roundDownToTick now position
                   (Some topBid) (Some topAsk) e)))).
  { unfold quiet, MakerEngine.tickDesired. cbv zeta.
    destruct (Qltb (Qabs (positionAmt position)) EPS).
    - destruct (RateLimit.shouldBlockEntries (MakerEngine.rateLimit e)),
        skipBuySide, skipSellSide; reflexivity.
    - destruct (Qltb 0 (positionAmt position)); reflexivity. }
  assert (Hshape :
    (let '(desired, e0) := quiet in
     (MakerEngine.set_desiredOrders desired e0, s,
      @nil MakerOrders.Call))
    = (MakerEngine.set_desiredOrders (fst quiet) (snd quiet), s, []))
    by (destruct quiet; reflexivity).
  fold quiet. rewrite Hshape. cbn [fst snd closeCalls].
  split; [ split; [ intro H; now elim H | intro H; now elim (Hno H) ] | ].
  split; [ intro H; now elim H | ]. intros _.
  split; [ reflexivity | ]. split; [ reflexivity | ].
  split; [ exact Hfilter | ].
  split.
  { unfold quiet, MakerEngine.tickDesired. cbv zeta.
    destruct (Qltb (Qabs (positionAmt position)) EPS); reflexivity. }
  split.
  { intros d Hin Hentry. rewrite Hfilter in Hin.
    apply filter_In in Hin. destruct Hin as [_ Hkept].
    unfold keptBySkip in Hkept. rewrite Hentry in Hkept. simpl in Hkept.
    split; intro Hside; rewrite Hside in Hkept;
      now apply negb_true_iff in Hkept. }
  split.
  { intros d Hin Hclose. rewrite Hfilter. apply filter_In.
    split; [ exact Hin | ]. unfold keptBySkip. now rewrite Hclose. }
  intros -> ->.
  unfold quiet, MakerEngine.tickDesired. cbv zeta.
  destruct (Qltb (Qabs (positionAmt position)) EPS).
  - destruct (RateLimit.shouldBlockEntries (MakerEngine.rateLimit e));
      reflexivity.
  - reflexivity.
Qed.

(** A long position of 0.5 under a book whose ten best bids sum to 1 and
    whose ten best asks sum to 10: the tick closes the position with a
    market SELL of 0.5 guarded by the best bid, cancels the resting buy,
    and leaves the desired orders empty, where the symmetric maker desires
    a reduce-only sell. *)
Example offset_imbalance_exit :
  let e0 :=
    MakerEngine.create
      (MakerEngine.mkMakerConfig "BTCUSDT" (1 # 100) 0 0 (1 # 10) 5 1 500)
      1000 in
  let long := mkPosition (1 # 2) 100 (Some 100) in
  let book := Some (mkDepth [(100, 1)] [(101, 10)]) in
  let waits := fun _ : nat =>
    MakerOrders.mkCancelWait MakerOrders.Cancelled [] [] in
  let r :=
    OffsetMaker.tickDesired roundDownToTickFloor long 100 101 1 10 true false
      book waits None [] e0 oneResting in
  MakerEngine.desiredOrders (fst (fst r)) = []
  /\ snd r
     = [MakerOrders.Log stop; MakerOrders.SafeCancelOrder 1;
        MakerOrders.MarketCloseCall SELL (Qabs (1 # 2))
          (mkCloseGuard (Some 100) (Some 100));
        MakerOrders.Emit]
  /\ map MakerEngine.reduceOnly
       (MakerEngine.desiredOrders
          (fst (MakerEngine.tickDesired roundDownToTickFloor 2000 long
                  (Some 100) (Some 101) e0)))
     = [true].
Proof. vm_compute. repeat split. Qed.

Lemma beforeCycle_frame opts now c :
  RateLimit.lastRateLimitAt (fst (RateLimit.beforeCycle opts now c))
  = RateLimit.lastRateLimitAt c
  /\ RateLimit.entriesSuppressed (fst (RateLimit.beforeCycle opts now c))
     = RateLimit.entriesSuppressed c.
Proof.
  destruct c as [st pu lc lr es lg].
  unfold RateLimit.beforeCycle, RateLimit.cycleGate. simpl.
  destruct st; simpl;
    repeat match goal with
           | |- context [match ?b with _ => _ end] => destruct b; simpl
           end; auto.
Qed.

Lemma onCycleComplete_degraded opts now c :
  RateLimit.state c = RateLimit.degraded ->
  (0 < RateLimit.lastRateLimitAt c)%Z ->
  let c2 := RateLimit.onCycleComplete opts now false c in
  (RateLimit.state c2 = RateLimit.normal
   <-> (RateLimit.recoveryMs opts <= now - RateLimit.lastRateLimitAt c)%Z)
  /\ (RateLimit.state c2 = RateLimit.normal ->
      RateLimit.shouldBlockEntries c2 = false
      /\ RateLimit.lastRateLimitAt c2 = 0%Z).
Proof.
  destruct c as [st pu lc lr es lg]. simpl. intros -> Hlr.
  unfold RateLimit.onCycleComplete, RateLimit.clearStaleSuppression,
    RateLimit.recoverIfDue, RateLimit.allowEntries,
    RateLimit.shouldBlockEntries.
  simpl.
  destruct (Z.ltb_spec 0 lr) as [_ | Hn]; [ | lia ].
  destruct (Z.leb_spec (RateLimit.recoveryMs opts) (now - lr)) as [Hr | Hr].
  - destruct es; simpl; (split; [ split; [ intros _; exact Hr | reflexivity ]
                                | intros _; split; reflexivity ]).
  - simpl. split; [ split; [ discriminate | lia ] | discriminate ].
Qed.

Lemma registerRateLimit_suppressed opts now source c :
  RateLimit.entriesSuppressed (RateLimit.registerRateLimit opts now source c)
  = true.
Proof.
  unfold RateLimit.registerRateLimit. simpl.
  destruct (RateLimit.state c); simpl;
    match goal with
    | |- context [RateLimit.suppressEntries ?s ?x] =>
        destruct (suppressEntries_frame s x) as (_ & _ & _ & _ & ->)
    end; reflexivity.
Qed.

(** X18.  Recovery after an overload.  Take an overload registered at a
    positive time [t], then a cycle with no further overload: [beforeCycle]
    at [now], [onCycleComplete] at [now'].  The controller is back in state
    normal after that cycle exactly when the pause, if the overload started
    or extended one, is over at [now] ([t + pauseMs <= now]) and the cycle
    completes [recoveryMs] or more after the overload; entries are then
    allowed again and the overload stamp is cleared. *)
Theorem X18_recovery_after_overload (opts : RateLimit.Options)
  (t now now' : Z) (source : option string) (c : RateLimit.Controller) :
  (0 < t)%Z ->
  let c0 := RateLimit.registerRateLimit opts t source c in
  let c1 := fst (RateLimit.beforeCycle opts now c0) in
  let c2 := RateLimit.onCycleComplete opts now' false c1 in
  (RateLimit.state c2 = RateLimit.normal
   <-> (RateLimit.state c = RateLimit.normal
        \/ (t + RateLimit.pauseMs opts <= now)%Z)
       /\ (RateLimit.recoveryMs opts <= now' - t)%Z)
  /\ (RateLimit.state c2 = RateLimit.normal ->
      RateLimit.shouldBlockEntries c2 = false
      /\ RateLimit.lastRateLimitAt c2 = 0%Z).
Proof.
  intros Ht c0 c1 c2.
  pose proof (registerRateLimit_state opts t source c) as Hst.
  pose proof (registerRateLimit_stamps opts t source c) as Hlr.
  cbv zeta in Hst. fold c0 in Hst, Hlr.
  pose proof (beforeCycle_state opts now c0) as Hst1.
  destruct (beforeCycle_frame opts now c0) as [Hlr1 _].
  fold c1 in Hst1, Hlr1. rewrite Hlr in Hlr1.
  assert (Hcase :
    (RateLimit.state c1 = RateLimit.degraded
     /\ (RateLimit.state c = RateLimit.normal
         \/ (t + RateLimit.pauseMs opts <= now)%Z))
    \/ (RateLimit.state c1 = RateLimit.paused
        /\ RateLimit.state c <> RateLimit.normal
        /\ (now < t + RateLimit.pauseMs opts)%Z)).
  { destruct (RateLimit.state c) eqn:Ec; destruct Hst as [Hs Hp];
      rewrite Hs, ?Hp in Hst1.
    - left. split; [ | now left ].
      rewrite Hst1. now destruct (RateLimit.pausedUntil c).
    - destruct (Z.leb_spec (t + RateLimit.pauseMs opts) now);
        [ left; split; [ exact Hst1 | now right ]
        | right; split; [ exact Hst1 | split; [ discriminate | lia ] ] ].
    - destruct (Z.leb_spec (t + RateLimit.pauseMs opts) now);
        [ left; split; [ exact Hst1 | now right ]
        | right; split; [ exact Hst1 | split; [ discriminate | lia ] ] ]. }
  destruct Hcase as [[Hdeg Hok] | (Hpaused & Hnn & Hearly)].
  - destruct (onCycleComplete_degraded opts now' c1 Hdeg
                ltac:(rewrite Hlr1; exact Ht)) as [Hiff Hafter].
    fold c2 in Hiff, Hafter. rewrite Hlr1 in Hiff.
    split; [ | exact Hafter ].
    rewrite Hiff. split; [ intro H; now split | now intros [_ H] ].
  - assert (Hc2 : c2 = c1)
      by (apply (onCycleComplete_state opts now' false c1 Hpaused)).
    rewrite Hc2, Hpaused.
    split; [ split; [ discriminate | ] | discriminate ].
    intros [[H | H] _]; [ contradiction | lia ].
Qed.

(** The theorem on an overload at time 1000 that starts a pause of 30 s,
    with the next cycle 61 s later. *)
Lemma X18_recovery_after_overload_witness :
  let opts := RateLimit.defaultOptions 500 in
  let c := RateLimit.registerRateLimit opts 900 None RateLimit.init in
  let c0 := RateLimit.registerRateLimit opts 1000 None c in
  let c1 := fst (RateLimit.beforeCycle opts 62000 c0) in
  let c2 := RateLimit.onCycleComplete opts 62000 false c1 in
  (0 < 1000)%Z
  /\ (RateLimit.state c2 = RateLimit.normal
      <-> (RateLimit.state c = RateLimit.normal
           \/ (1000 + RateLimit.pauseMs opts <= 62000)%Z)
          /\ (RateLimit.recoveryMs opts <= 62000 - 1000)%Z)
  /\ (RateLimit.state c2 = RateLimit.normal ->
      RateLimit.shouldBlockEntries c2 = false
      /\ RateLimit.lastRateLimitAt c2 = 0%Z).
Proof.
  split; [ reflexivity | ].
  exact (X18_recovery_after_overload (RateLimit.defaultOptions 500) 1000
           62000 62000 None
           (RateLimit.registerRateLimit (RateLimit.defaultOptions 500) 900
              None RateLimit.init)
           eq_refl).
Defined.
